(** * seller-apis: stock and price reconciliation for Ozon and Yandex Market

    A shallow embedding of [seller.py] and [market.py] and the properties
    of their reconciliation and batching code.

    Conventions of the embedding.
    - A Python [str] is a Rocq [string] holding its UTF-8 bytes.  The
      bytes of ['.'], of the ASCII digits and of every other ASCII
      character never occur inside a multi-byte sequence, so splitting on
      ['.'], deleting the characters outside [0-9] and comparing two
      strings give the same answer on bytes as on code points.
    - [int] on a [str] works on the code points of the string, which
      [code_points] recovers from the bytes; the tables of decimal digits
      and of white space are those of Unicode 14.0 (CPython 3.11), and
      the limit on the number of digits is the interpreter's default.
    - A cell of the feed is a [pyval]: [None], an [int] or a [str]
      (floats are not represented).  An [int] cell is a number of the
      spreadsheet, far below the size at which [str] of an [int] is
      refused.
    - A feed row is a dict, a [gmap string pyval] read with [get].
    - [offer_ids] is the Python list returned by [get_offer_ids]; a
      duplicate-free list stands for the set of the docstrings, its order
      being the iteration order.
    - A raised exception is the [Raise] case of [result]. *)

From stdpp Require Import gmap strings list pretty.
From Stdlib Require Import ZArith Lia Ascii.

(** ** Python builtins used by the two modules *)

Module Py.

Inductive exn :=
  | ValueError | TypeError | AttributeError
  | IndexError | EnvError
  | HTTPError | ReadTimeout | ConnectionError.

Inductive result (A : Type) :=
  | Ok (a : A)
  | Raise (e : exn).
Arguments Ok {A} a.
Arguments Raise {A} e.

Definition bind {A B} (r : result A) (k : A → result B) : result B :=
  match r with
  | Ok a => k a
  | Raise e => Raise e
  end.

Definition is_ok {A} (r : result A) : bool :=
  match r with Ok _ => true | Raise _ => false end.

(** Cells of the spreadsheet as pandas hands them over. *)
Inductive pyval :=
  | VNone
  | VInt (z : Z)
  | VStr (s : string).

(** [d.get(k)]: the value under [k], [None] when the key is absent. *)
Definition get (d : gmap string pyval) (k : string) : pyval :=
  default VNone (d !! k).

(** [str(v)] *)
Definition py_str (v : pyval) : string :=
  match v with
  | VNone => "None"
  | VInt z => pretty z
  | VStr s => s
  end.

Definition code_of (c : ascii) : nat := nat_of_ascii c.

(** The characters matched by the class [[0-9]]. *)
Definition is_digit (c : ascii) : bool :=
  (48 <=? code_of c) && (code_of c <=? 57).

Definition digit_value (c : ascii) : Z := Z.of_nat (code_of c) - 48.

(** *** The characters of a [str]

    The code points encoded by the UTF-8 bytes of a string.  A byte
    sequence that encodes no code point (no [str] has such bytes) is read
    as U+FFFD. *)
Definition byte_of (c : ascii) : N := N_of_ascii c.

Definition continuation (b : N) : bool := ((128 <=? b) && (b <? 192))%N.

Definition replacement : N := 65533%N.

Definition checked (lo hi cp : N) : N :=
  if ((lo <=? cp) && (cp <=? hi))%N then cp else replacement.

Definition not_surrogate (cp : N) : N :=
  if ((55296 <=? cp) && (cp <=? 57343))%N then replacement else cp.

Fixpoint code_points (s : string) : list N :=
  match s with
  | EmptyString => []
  | String c0 s1 =>
      let b0 := byte_of c0 in
      if (b0 <? 128)%N then b0 :: code_points s1
      else if ((192 <=? b0) && (b0 <? 224))%N then
        match s1 with
        | String c1 s2 =>
            let b1 := byte_of c1 in
            if continuation b1
            then checked 128 2047 ((b0 - 192) * 64 + (b1 - 128))%N :: code_points s2
            else replacement :: code_points s1
        | _ => replacement :: code_points s1
        end
      else if ((224 <=? b0) && (b0 <? 240))%N then
        match s1 with
        | String c1 (String c2 s3) =>
            let b1 := byte_of c1 in
            let b2 := byte_of c2 in
            if continuation b1 && continuation b2
            then not_surrogate
                   (checked 2048 65535
                      ((b0 - 224) * 4096 + (b1 - 128) * 64 + (b2 - 128))%N)
                 :: code_points s3
            else replacement :: code_points s1
        | _ => replacement :: code_points s1
        end
      else if ((240 <=? b0) && (b0 <? 248))%N then
        match s1 with
        | String c1 (String c2 (String c3 s4)) =>
            let b1 := byte_of c1 in
            let b2 := byte_of c2 in
            let b3 := byte_of c3 in
            if continuation b1 && continuation b2 && continuation b3
            then checked 65536 1114111
                   ((b0 - 240) * 262144 + (b1 - 128) * 4096
                    + (b2 - 128) * 64 + (b3 - 128))%N
                 :: code_points s4
            else replacement :: code_points s1
        | _ => replacement :: code_points s1
        end
      else replacement :: code_points s1
  end.

(** *** [int] on a [str]

    CPython reads the text of an integer in two steps.  The first
    ([_PyUnicode_TransformDecimalAndSpaceToASCII]) turns every decimal
    digit of Unicode into the ASCII digit of its value and every white
    space character outside ASCII into a blank; the second
    ([PyLong_FromString]) reads the ASCII text: white space, a sign, digits
    with single underscores between them, white space.  Every failure is a
    [ValueError]. *)

(** [Py_ISSPACE], the white space of the C locale. *)
Definition Py_ISSPACE (c : N) : bool :=
  ((9 <=? c) && (c <=? 13) || (c =? 32))%N.

(** [Py_UNICODE_ISSPACE], the characters for which [str.isspace] holds
    (Unicode 14.0): bidirectional type WS, B or S, or category Zs. *)
Definition white_space : list (N * N) :=
  [(9, 13); (28, 32); (133, 133); (160, 160); (5760, 5760); (8192, 8202);
   (8232, 8233); (8239, 8239); (8287, 8287); (12288, 12288)]%N.

Definition Py_UNICODE_ISSPACE (c : N) : bool :=
  existsb (λ r, (fst r <=? c) && (c <=? snd r))%N white_space.

(** The digit zero of every run of ten decimal digits (category Nd,
    Unicode 14.0); the digit of value [k] is the [k]-th after its zero. *)
Definition decimal_zeros : list N :=
  [48; 1632; 1776; 1984; 2406; 2534; 2662; 2790; 2918; 3046; 3174; 3302;
   3430; 3558; 3664; 3792; 3872; 4160; 4240; 6112; 6160; 6470; 6608; 6784;
   6800; 6992; 7088; 7232; 7248; 42528; 43216; 43264; 43472; 43504; 43600;
   44016; 65296; 66720; 68912; 69734; 69872; 69942; 70096; 70384; 70736;
   70864; 71248; 71360; 71472; 71904; 72016; 72784; 73040; 73120; 92768;
   92864; 93008; 120782; 120792; 120802; 120812; 120822; 123200; 123632;
   125264; 130032]%N.

(** [Py_UNICODE_TODECIMAL]: the value of a decimal digit. *)
Definition Py_UNICODE_TODECIMAL (c : N) : option N :=
  (λ zero, c - zero)%N
    <$> List.find (λ zero, (zero <=? c) && (c <? zero + 10))%N decimal_zeros.

(** The loop of [_PyUnicode_TransformDecimalAndSpaceToASCII]; a character
    that is neither is replaced by ['?'] and ends the text. *)
Fixpoint transform_decimal_and_space (u : list N) : list N :=
  match u with
  | [] => []
  | ch :: u' =>
      if (ch <? 127)%N then ch :: transform_decimal_and_space u'
      else if Py_UNICODE_ISSPACE ch then 32%N :: transform_decimal_and_space u'
      else match Py_UNICODE_TODECIMAL ch with
           | Some decimal => (48 + decimal)%N :: transform_decimal_and_space u'
           | None => [63%N]
           end
  end.

(** A text that is ASCII already is taken as it is. *)
Definition to_ascii (u : list N) : list N :=
  if forallb (λ ch, ch <? 128)%N u then u else transform_decimal_and_space u.

Fixpoint skip_space (str : list N) : list N :=
  match str with
  | c :: str' => if Py_ISSPACE c then skip_space str' else str
  | [] => []
  end.

(** The sign: [true] for ['-']. *)
Definition skip_sign (str : list N) : bool * list N :=
  match str with
  | c :: str' =>
      if (c =? 43)%N then (false, str')
      else if (c =? 45)%N then (true, str')
      else (false, str)
  | [] => (false, [])
  end.

Definition ascii_digit (c : N) : bool := ((48 <=? c) && (c <=? 57))%N.

(** The scan of the digits: their number, their value, and the text left
    after them.  Two underscores in a row and an underscore at the end are
    refused. *)
Fixpoint scan_digits (prev_underscore : bool) (digits : N) (value : Z)
    (str : list N) : option (N * Z * list N) :=
  match str with
  | c :: str' =>
      if ascii_digit c
      then scan_digits false (digits + 1)%N (10 * value + (Z.of_N c - 48))%Z str'
      else if (c =? 95)%N
      then if prev_underscore then None
           else scan_digits true digits value str'
      else if prev_underscore then None else Some (digits, value, str)
  | [] => if prev_underscore then None else Some (digits, value, [])
  end.

Definition starts_with_underscore (str : list N) : bool :=
  match str with
  | c :: _ => (c =? 95)%N
  | [] => false
  end.

(** [sys.get_int_max_str_digits()], as the interpreter starts. *)
Definition int_max_str_digits : N := 4300%N.

(** [PyLong_FromString] in base 10. *)
Definition PyLong_FromString (str : list N) : option Z :=
  let '(negative, str) := skip_sign (skip_space str) in
  if starts_with_underscore str then None
  else
    match scan_digits false 0%N 0%Z str with
    | Some (digits, value, rest) =>
        if (int_max_str_digits <? digits)%N then None
        else if (digits =? 0)%N then None
        else match skip_space rest with
             | [] => Some (if negative then (- value)%Z else value)
             | _ => None
             end
    | None => None
    end.

(** [int(s)] for a [str]. *)
Definition py_int_str (s : string) : result Z :=
  match PyLong_FromString (to_ascii (code_points s)) with
  | Some z => Ok z
  | None => Raise ValueError
  end.

(** [int(v)] *)
Definition py_int (v : pyval) : result Z :=
  match v with
  | VNone => Raise TypeError
  | VInt z => Ok z
  | VStr s => py_int_str s
  end.

(** [s.split(sep)] for a one-character separator. *)
Fixpoint py_split (sep : ascii) (s : string) : list string :=
  match s with
  | EmptyString => [EmptyString]
  | String c s' =>
      if Ascii.eqb c sep then EmptyString :: py_split sep s'
      else match py_split sep s' with
           | piece :: pieces => String c piece :: pieces
           | [] => [String c EmptyString]
           end
  end.

(** [l[0]] *)
Definition index0 {A} (l : list A) : option A := head l.

(** [re.sub("[^0-9]", "", s)] *)
Fixpoint re_sub_non_digits (s : string) : string :=
  match s with
  | EmptyString => EmptyString
  | String c s' =>
      if is_digit c then String c (re_sub_non_digits s') else re_sub_non_digits s'
  end.

(** [list(range(start, stop, step))] *)
Definition py_range (start stop step : Z) : result (list Z) :=
  if decide (step = 0)%Z then Raise ValueError
  else
    let len :=
      if decide (0 < step)%Z then ((stop - start + step - 1) `div` step)%Z
      else ((start - stop - step - 1) `div` (- step))%Z in
    Ok ((λ k, start + k * step)%Z <$> seqZ 0 len).

(** A slice bound, as Python adjusts it to the length of the list. *)
Definition clamp_index (len k : Z) : Z :=
  if decide (k < 0)%Z then Z.max 0 (k + len) else Z.min k len.

(** [lst[i:j]] *)
Definition py_slice {A} (lst : list A) (i j : Z) : list A :=
  let len := Z.of_nat (length lst) in
  let lo := clamp_index len i in
  let hi := clamp_index len j in
  take (Z.to_nat (hi - lo)) (drop (Z.to_nat lo) lst).

(** [x in l] *)
Definition py_in (x : string) (l : list string) : bool := bool_decide (x ∈ l).

(** [l.remove(x)]: drops the first occurrence, [ValueError] when there is none. *)
Fixpoint list_remove (x : string) (l : list string) : result (list string) :=
  match l with
  | [] => Raise ValueError
  | y :: l' =>
      if decide (y = x) then Ok l'
      else bind (list_remove x l') (λ r, Ok (y :: r))
  end.

End Py.

(** ** Runs that talk to a marketplace

    A computation of [M E A] extends the list of requests and console
    lines issued so far (events of type [E]) and ends with a value or an
    exception. *)

Module Run.
Import Py.

Definition M (E A : Type) : Type := list E → list E * result A.

Definition ret {E A} (a : A) : M E A := λ tr, (tr, Ok a).

Definition bind {E A B} (m : M E A) (k : A → M E B) : M E B :=
  λ tr, match m tr with
        | (tr', Ok a) => k a tr'
        | (tr', Raise e) => (tr', Raise e)
        end.

(** A pure step, which may raise. *)
Definition lift {E A} (r : result A) : M E A := λ tr, (tr, r).

(** Issue one event; [outcome] tells from the number of events before it
    whether the call raises. *)
Definition emit {E} (outcome : nat → option exn) (ev : E) : M E unit :=
  λ tr, (tr ++ [ev],
         match outcome (length tr) with
         | None => Ok tt
         | Some e => Raise e
         end).

(** Read the clock: [reading] gives the time from the number of events
    issued so far. *)
Definition clock {E A} (reading : nat → A) : M E A :=
  λ tr, (tr, Ok (reading (length tr))).

(** [for x in l: body(x)] *)
Fixpoint for_each {E A} (l : list A) (body : A → M E unit) : M E unit :=
  match l with
  | [] => ret tt
  | x :: l' => bind (body x) (λ _, for_each l' body)
  end.

(** [try: m  except ...: print(...)], the handlers covering every exception. *)
Definition try_except {E} (m : M E unit) (report : exn → E) : M E unit :=
  λ tr, match m tr with
        | (tr', Ok _) => (tr', Ok tt)
        | (tr', Raise e) => (tr' ++ [report e], Ok tt)
        end.

(** Calling an [async def] function builds a coroutine object; its body
    runs only when the coroutine is awaited.  A call whose coroutine is
    dropped has no effect. *)
Definition call_without_await {E A} (coroutine : M E A) : M E unit := ret tt.

(** The events of a run started from nothing. *)
Definition events {E A} (m : M E A) : list E := fst (m []).
Definition outcome {E A} (m : M E A) : result A := snd (m []).

End Run.

Declare Scope result_scope.
Declare Scope run_scope.
Notation "x ← m ; k" := (Py.bind m (λ x, k))
  (at level 20, m at level 100, k at level 200, only parsing) : result_scope.
Notation "x ← m ; k" := (Run.bind m (λ x, k))
  (at level 20, m at level 100, k at level 200, only parsing) : run_scope.
Notation "m ;; k" := (Run.bind m (λ _, k))
  (at level 100, k at level 200, right associativity, only parsing) : run_scope.
Delimit Scope result_scope with result.
Delimit Scope run_scope with run.

(** ** seller.py (Ozon) *)

Module Seller.
Import Py.

(** The dict [{"offer_id": ..., "stock": ...}]. *)
Record stock_entry := Stock { offer_id : string; stock : Z }.

(** The dict sent to the price endpoint; [price_offer_id] is its key
    ["offer_id"]. *)
Record price_entry := Price {
  auto_action_enabled : string;
  currency_code : string;
  price_offer_id : string;
  old_price : string;
  price : string }.

(** Lines 174-184: the loop over the feed, with the list built so far and
    the identifiers still unmatched. *)
Fixpoint create_stocks_for (watch_remnants : list (gmap string pyval))
    (stocks : list stock_entry) (offer_ids : list string)
    : result (list stock_entry) * list string :=
  match watch_remnants with
  | [] => (Ok stocks, offer_ids)
  | watch :: rest =>
      if py_in (py_str (get watch "Код")) offer_ids then
        let count := py_str (get watch "Количество") in
        match (if decide (count = ">10") then Ok 100%Z
               else if decide (count = "1") then Ok 0%Z
               else py_int (get watch "Количество")) with
        | Raise e => (Raise e, offer_ids)
        | Ok stock =>
            let stocks := stocks ++ [Stock (py_str (get watch "Код")) stock] in
            match list_remove (py_str (get watch "Код")) offer_ids with
            | Raise e => (Raise e, offer_ids)
            | Ok offer_ids => create_stocks_for rest stocks offer_ids
            end
        end
      else create_stocks_for rest stocks offer_ids
  end.

(** [create_stocks]: the entries it returns (or the exception it raises)
    and the list [offer_ids] as the call leaves it. *)
Definition create_stocks (watch_remnants : list (gmap string pyval))
    (offer_ids : list string) : result (list stock_entry) * list string :=
  match create_stocks_for watch_remnants [] offer_ids with
  | (Raise e, offer_ids) => (Raise e, offer_ids)
  | (Ok stocks, offer_ids) =>
      (Ok (fold_left (λ stocks offer_id, stocks ++ [Stock offer_id 0])
                     offer_ids stocks),
       offer_ids)
  end.

(** [re.sub("[^0-9]", "", price.split(".")[0])]; a [price] that is no
    [str] has no [split]. *)
Definition price_conversion (price : pyval) : result string :=
  match price with
  | VStr price =>
      match index0 (py_split "." price) with
      | Some whole => Ok (re_sub_non_digits whole)
      | None => Raise IndexError
      end
  | _ => Raise AttributeError
  end.

Fixpoint create_prices_for (watch_remnants : list (gmap string pyval))
    (prices : list price_entry) (offer_ids : list string)
    : result (list price_entry) :=
  match watch_remnants with
  | [] => Ok prices
  | watch :: rest =>
      if py_in (py_str (get watch "Код")) offer_ids then
        match price_conversion (get watch "Цена") with
        | Raise e => Raise e
        | Ok digits =>
            let price :=
              {| auto_action_enabled := "UNKNOWN";
                 currency_code := "RUB";
                 price_offer_id := py_str (get watch "Код");
                 old_price := "0";
                 price := digits |} in
            create_prices_for rest (prices ++ [price]) offer_ids
        end
      else create_prices_for rest prices offer_ids
  end.

Definition create_prices (watch_remnants : list (gmap string pyval))
    (offer_ids : list string) : result (list price_entry) :=
  create_prices_for watch_remnants [] offer_ids.

(** [list(divide(lst, n))]: the chunks the generator yields. *)
Definition divide {A} (lst : list A) (n : Z) : result (list (list A)) :=
  (starts ← py_range 0 (Z.of_nat (length lst)) n;
   Ok ((λ i, py_slice lst i (i + n)) <$> starts))%result.

(** Requests to the write endpoints and lines printed by [main]. *)
Inductive event :=
  | UpdateStocks (stocks : list stock_entry) (client_id seller_token : string)
  | UpdatePrice (prices : list price_entry) (client_id seller_token : string)
  | Printed (e : exn) (text : string).

Section Network.

(** What the outside world answers during one run: the environment
    variables, the offers listed for an account ([get_offer_ids]), the feed
    ([download_stock]) and, for the [n]-th event, whether the request it
    stands for fails. *)
Variable env_str : string → result string.
Variable get_offer_ids : string → string → result (list string).
Variable download_stock : result (list (gmap string pyval)).
Variable http : nat → option exn.

Definition update_price (prices : list price_entry) (client_id seller_token : string)
    : Run.M event unit :=
  Run.emit http (UpdatePrice prices client_id seller_token).

Definition update_stocks (stocks : list stock_entry) (client_id seller_token : string)
    : Run.M event unit :=
  Run.emit http (UpdateStocks stocks client_id seller_token).

(** Body of the coroutine [upload_prices]. *)
Definition upload_prices (watch_remnants : list (gmap string pyval))
    (client_id seller_token : string) : Run.M event (list price_entry) :=
  (offer_ids ← Run.lift (get_offer_ids client_id seller_token);
   prices ← Run.lift (create_prices watch_remnants offer_ids);
   chunks ← Run.lift (divide prices 1000);
   Run.for_each chunks (λ some_price, update_price some_price client_id seller_token);;
   Run.ret prices)%run.

(** Body of the coroutine [upload_stocks]. *)
Definition upload_stocks (watch_remnants : list (gmap string pyval))
    (client_id seller_token : string)
    : Run.M event (list stock_entry * list stock_entry) :=
  (offer_ids ← Run.lift (get_offer_ids client_id seller_token);
   stocks ← Run.lift (fst (create_stocks watch_remnants offer_ids));
   chunks ← Run.lift (divide stocks 100);
   Run.for_each chunks (λ some_stock, update_stocks some_stock client_id seller_token);;
   let not_empty := filter (λ stock, Seller.stock stock ≠ 0%Z) stocks in
   Run.ret (not_empty, stocks))%run.

Definition report (e : exn) : event :=
  match e with
  | ReadTimeout => Printed e "Превышено время ожидания..."
  | ConnectionError => Printed e "Ошибка соединения"
  | _ => Printed e "ERROR_2"
  end.

Definition main : Run.M event unit :=
  (seller_token ← Run.lift (env_str "SELLER_TOKEN");
   client_id ← Run.lift (env_str "CLIENT_ID");
   Run.try_except
     (offer_ids ← Run.lift (get_offer_ids client_id seller_token);
      watch_remnants ← Run.lift download_stock;
      let (stocks, offer_ids) := create_stocks watch_remnants offer_ids in
      stocks ← Run.lift stocks;
      chunks ← Run.lift (divide stocks 100);
      Run.for_each chunks (λ some_stock, update_stocks some_stock client_id seller_token);;
      prices ← Run.lift (create_prices watch_remnants offer_ids);
      chunks ← Run.lift (divide prices 900);
      Run.for_each chunks (λ some_price, update_price some_price client_id seller_token))
     report)%run.

End Network.

End Seller.

(** ** market.py (Yandex Market) *)

Module Market.
Import Py.

(** One element of ["items"]; [type_] is its key ["type"]. *)
Record stock_item := Item { count : Z; type_ : string; updatedAt : string }.

(** The dict [{"sku": ..., "warehouseId": ..., "items": [...]}]. *)
Record stock_entry := Sku {
  sku : string;
  warehouseId : string;
  items : list stock_item }.

Record price_value := PriceValue { value : Z; currencyId : string }.

(** The dict [{"id": ..., "price": {...}}]. *)
Record price_entry := Offer { id : string; price : price_value }.

(** Lines 163-185.  [date] is the clock reading of line 162. *)
Fixpoint create_stocks_for (watch_remnants : list (gmap string pyval))
    (stocks : list stock_entry) (offer_ids : list string)
    (warehouse_id date : string) : result (list stock_entry) * list string :=
  match watch_remnants with
  | [] => (Ok stocks, offer_ids)
  | watch :: rest =>
      if py_in (py_str (get watch "Код")) offer_ids then
        let count := py_str (get watch "Количество") in
        match (if decide (count = ">10") then Ok 100%Z
               else if decide (count = "1") then Ok 0%Z
               else py_int (get watch "Количество")) with
        | Raise e => (Raise e, offer_ids)
        | Ok stock =>
            let stocks :=
              stocks ++ [Sku (py_str (get watch "Код")) warehouse_id
                             [Item stock "FIT" date]] in
            match list_remove (py_str (get watch "Код")) offer_ids with
            | Raise e => (Raise e, offer_ids)
            | Ok offer_ids => create_stocks_for rest stocks offer_ids warehouse_id date
            end
        end
      else create_stocks_for rest stocks offer_ids warehouse_id date
  end.

Definition create_stocks (watch_remnants : list (gmap string pyval))
    (offer_ids : list string) (warehouse_id date : string)
    : result (list stock_entry) * list string :=
  match create_stocks_for watch_remnants [] offer_ids warehouse_id date with
  | (Raise e, offer_ids) => (Raise e, offer_ids)
  | (Ok stocks, offer_ids) =>
      (Ok (fold_left (λ stocks offer_id,
                        stocks ++ [Sku offer_id warehouse_id [Item 0 "FIT" date]])
                     offer_ids stocks),
       offer_ids)
  end.

Fixpoint create_prices_for (watch_remnants : list (gmap string pyval))
    (prices : list price_entry) (offer_ids : list string)
    : result (list price_entry) :=
  match watch_remnants with
  | [] => Ok prices
  | watch :: rest =>
      if py_in (py_str (get watch "Код")) offer_ids then
        match (digits ← Seller.price_conversion (get watch "Цена");
               py_int (VStr digits))%result with
        | Raise e => Raise e
        | Ok number =>
            let price :=
              {| id := py_str (get watch "Код");
                 price := {| value := number; currencyId := "RUR" |} |} in
            create_prices_for rest (prices ++ [price]) offer_ids
        end
      else create_prices_for rest prices offer_ids
  end.

Definition create_prices (watch_remnants : list (gmap string pyval))
    (offer_ids : list string) : result (list price_entry) :=
  create_prices_for watch_remnants [] offer_ids.

Inductive event :=
  | UpdateStocks (stocks : list stock_entry) (campaign_id access_token : string)
  | UpdatePrice (prices : list price_entry) (campaign_id access_token : string)
  | Printed (e : exn) (text : string).

Section Network.

Variable env_str : string → result string.
Variable get_offer_ids : string → string → result (list string).
Variable download_stock : result (list (gmap string pyval)).
Variable utcnow : nat → string.
Variable http : nat → option exn.

Definition update_stocks (stocks : list stock_entry) (campaign_id access_token : string)
    : Run.M event unit :=
  Run.emit http (UpdateStocks stocks campaign_id access_token).

Definition update_price (prices : list price_entry) (campaign_id access_token : string)
    : Run.M event unit :=
  Run.emit http (UpdatePrice prices campaign_id access_token).

(** Body of the coroutine [upload_prices]. *)
Definition upload_prices (watch_remnants : list (gmap string pyval))
    (campaign_id market_token : string) : Run.M event (list price_entry) :=
  (offer_ids ← Run.lift (get_offer_ids campaign_id market_token);
   prices ← Run.lift (create_prices watch_remnants offer_ids);
   chunks ← Run.lift (Seller.divide prices 500);
   Run.for_each chunks (λ some_prices, update_price some_prices campaign_id market_token);;
   Run.ret prices)%run.

(** Body of the coroutine [upload_stocks]. *)
Definition upload_stocks (watch_remnants : list (gmap string pyval))
    (campaign_id market_token warehouse_id : string)
    : Run.M event (list stock_entry * list stock_entry) :=
  (offer_ids ← Run.lift (get_offer_ids campaign_id market_token);
   date ← Run.clock utcnow;
   stocks ← Run.lift (fst (create_stocks watch_remnants offer_ids warehouse_id date));
   chunks ← Run.lift (Seller.divide stocks 2000);
   Run.for_each chunks (λ some_stock, update_stocks some_stock campaign_id market_token);;
   let not_empty :=
     filter (λ stock, (count <$> head (items stock)) ≠ Some 0%Z) stocks in
   Run.ret (not_empty, stocks))%run.

Definition report (e : exn) : event :=
  match e with
  | ReadTimeout => Printed e "Превышено время ожидания..."
  | ConnectionError => Printed e "Ошибка соединения"
  | _ => Printed e "ERROR_2"
  end.

Definition main : Run.M event unit :=
  (market_token ← Run.lift (env_str "MARKET_TOKEN");
   campaign_fbs_id ← Run.lift (env_str "FBS_ID");
   campaign_dbs_id ← Run.lift (env_str "DBS_ID");
   warehouse_fbs_id ← Run.lift (env_str "WAREHOUSE_FBS_ID");
   warehouse_dbs_id ← Run.lift (env_str "WAREHOUSE_DBS_ID");
   watch_remnants ← Run.lift download_stock;
   Run.try_except
     (offer_ids ← Run.lift (get_offer_ids campaign_fbs_id market_token);
      date ← Run.clock utcnow;
      let (stocks, offer_ids) :=
        create_stocks watch_remnants offer_ids warehouse_fbs_id date in
      stocks ← Run.lift stocks;
      chunks ← Run.lift (Seller.divide stocks 2000);
      Run.for_each chunks
        (λ some_stock, update_stocks some_stock campaign_fbs_id market_token);;
      Run.call_without_await
        (upload_prices watch_remnants campaign_fbs_id market_token);;
      offer_ids ← Run.lift (get_offer_ids campaign_dbs_id market_token);
      date ← Run.clock utcnow;
      let (stocks, offer_ids) :=
        create_stocks watch_remnants offer_ids warehouse_dbs_id date in
      stocks ← Run.lift stocks;
      chunks ← Run.lift (Seller.divide stocks 2000);
      Run.for_each chunks
        (λ some_stock, update_stocks some_stock campaign_dbs_id market_token);;
      Run.call_without_await
        (upload_prices watch_remnants campaign_dbs_id market_token))
     report)%run.

End Network.

End Market.

(** ** seller.py: reading the catalogue *)

Module SellerCatalog.
Import Py.

(** The ["result"] object of an answer of the product-list endpoint;
    [items] is [None] when the key is absent. *)
Record product_list_result := ProductList {
  items : option (list (gmap string pyval));
  total : pyval;
  last_id : pyval }.

(** [total == len(product_list)] *)
Definition equals_len (total : pyval) (n : nat) : bool :=
  match total with
  | VInt z => bool_decide (z = Z.of_nat n)
  | _ => false
  end.

Section Server.

(** [get_product_list]: what the request number [n] of the run, sent with
    the cursor [last_id], returns; [None] for a reply without ["result"]. *)
Variable get_product_list :
  nat → pyval → string → string → result (option product_list_result).

(** Lines 60-66: the [while True] loop.  [fuel] bounds the number of
    requests; [None] means the loop is still running when it is used up. *)
Fixpoint get_offer_ids_loop (fuel requests : nat) (last_id : pyval)
    (product_list : list (gmap string pyval)) (client_id seller_token : string)
    : option (result (list (gmap string pyval))) :=
  match fuel with
  | 0 => None
  | S fuel =>
      match get_product_list requests last_id client_id seller_token with
      | Raise e => Some (Raise e)
      | Ok None => Some (Raise AttributeError)
      | Ok (Some some_prod) =>
          match items some_prod with
          | None => Some (Raise TypeError)
          | Some new_items =>
              let product_list := product_list ++ new_items in
              if equals_len (total some_prod) (length product_list)
              then Some (Ok product_list)
              else get_offer_ids_loop fuel (S requests) (SellerCatalog.last_id some_prod)
                     product_list client_id seller_token
          end
      end
  end.

Definition get_offer_ids (fuel : nat) (client_id seller_token : string)
    : option (result (list pyval)) :=
  match get_offer_ids_loop fuel 0 (VStr "") [] client_id seller_token with
  | None => None
  | Some (Raise e) => Some (Raise e)
  | Some (Ok product_list) =>
      Some (Ok ((λ product, get product "offer_id") <$> product_list))
  end.

End Server.

End SellerCatalog.

(** ** market.py: reading the catalogue *)

Module MarketCatalog.
Import Py.

(** One element of ["offerMappingEntries"]; [offer] is [None] when the
    key is absent. *)
Record mapping_entry := Entry { offer : option (gmap string pyval) }.

(** The ["result"] object of an answer of the offer-mapping endpoint. *)
Record offer_mapping_result := OfferMappings {
  offerMappingEntries : option (list mapping_entry);
  paging : option (gmap string pyval) }.

(** The truth value of a Python object. *)
Definition truthy (v : pyval) : bool :=
  match v with
  | VNone => false
  | VInt z => negb (bool_decide (z = 0%Z))
  | VStr s => negb (bool_decide (s = EmptyString))
  end.

(** Lines 130-132: [product.get("offer").get("shopSku")] for every entry. *)
Fixpoint shop_skus (product_list : list mapping_entry) : result (list pyval) :=
  match product_list with
  | [] => Ok []
  | product :: rest =>
      match offer product with
      | None => Raise AttributeError
      | Some offer => (skus ← shop_skus rest; Ok (get offer "shopSku" :: skus))%result
      end
  end.

Section Server.

(** [get_product_list]: what the request number [n] of the run, sent with
    the page token [page], returns; [None] for a reply without ["result"]. *)
Variable get_product_list :
  nat → pyval → string → string → result (option offer_mapping_result).

(** Lines 124-129: the [while True] loop, with [fuel] as above. *)
Fixpoint get_offer_ids_loop (fuel requests : nat) (page : pyval)
    (product_list : list mapping_entry) (campaign_id market_token : string)
    : option (result (list mapping_entry)) :=
  match fuel with
  | 0 => None
  | S fuel =>
      match get_product_list requests page campaign_id market_token with
      | Raise e => Some (Raise e)
      | Ok None => Some (Raise AttributeError)
      | Ok (Some some_prod) =>
          match offerMappingEntries some_prod with
          | None => Some (Raise TypeError)
          | Some entries =>
              let product_list := product_list ++ entries in
              match paging some_prod with
              | None => Some (Raise AttributeError)
              | Some paging =>
                  let page := get paging "nextPageToken" in
                  if truthy page
                  then get_offer_ids_loop fuel (S requests) page product_list
                         campaign_id market_token
                  else Some (Ok product_list)
              end
          end
      end
  end.

Definition get_offer_ids (fuel : nat) (campaign_id market_token : string)
    : option (result (list pyval)) :=
  match get_offer_ids_loop fuel 0 (VStr "") [] campaign_id market_token with
  | None => None
  | Some (Raise e) => Some (Raise e)
  | Some (Ok product_list) => Some (shop_skus product_list)
  end.

End Server.

End MarketCatalog.

(** ** Vocabulary of the statements *)

Import Py.

(** The code of a feed row, as both modules compute it. *)
Definition code (watch : gmap string pyval) : string := py_str (get watch "Код").

(** Its quantity and price cells. *)
Definition quantity (watch : gmap string pyval) : pyval := get watch "Количество".

Definition raw_price (watch : gmap string pyval) : pyval := get watch "Цена".

(** The normalisation rule in the words of the specification: the literal
    forms first, in order, then the integer parse. *)
Definition normalize_quantity (q : pyval) : result Z :=
  if decide (py_str q = ">10") then Ok 100%Z
  else if decide (py_str q = "1") then Ok 0%Z
  else py_int q.

(** Every row whose code is among [ids] carries a quantity the rule accepts. *)
Definition quantities_parse (feed : list (gmap string pyval)) (ids : list string)
    : Prop :=
  Forall (λ w, code w ∈ ids → is_ok (normalize_quantity (quantity w))) feed.

(** [out] holds one entry for each identifier of [ids] and nothing else. *)
Definition one_entry_each {A} (key : A → string) (out : list A)
    (ids : list string) : Prop :=
  length out = length ids
  ∧ (∀ x, x ∈ ids → length (filter (λ e, key e = x) out) = 1)
  ∧ (∀ e, e ∈ out → key e ∈ ids)
  ∧ NoDup (key <$> out).

(** Value of a numeral, most significant digit first. *)
Definition decimal_from (acc : Z) (s : string) : Z :=
  fold_left (λ acc c, 10 * acc + digit_value c)%Z (String.list_ascii_of_string s) acc.

Definition decimal (s : string) : Z := decimal_from 0 s.

(** The characters of a string. *)
Definition chars (s : string) : list ascii := String.list_ascii_of_string s.

(** A numeral: ASCII digits only; and a string without any ASCII digit. *)
Definition all_digits (s : string) : Prop := Forall (λ c, is_digit c = true) (chars s).
Definition no_digit (s : string) : Prop := Forall (λ c, is_digit c = false) (chars s).

(** The characters [int] allows in the text of an integer: the decimal
    digits, the white space it strips, the two signs and the underscore.
    Of the ASCII characters only those of the C locale are stripped: the
    separators U+001C to U+001F are white space for [str.isspace] and not
    for [int]. *)
Definition is_decimal (c : N) : bool :=
  match Py_UNICODE_TODECIMAL c with Some _ => true | None => false end.

Definition int_space (c : N) : bool :=
  if (c <? 127)%N then Py_ISSPACE c else Py_UNICODE_ISSPACE c.

Definition int_char (c : N) : bool :=
  is_decimal c || int_space c || (c =? 43)%N || (c =? 45)%N || (c =? 95)%N.

(** The same characters in the ASCII text that [PyLong_FromString] reads. *)
Definition int_ascii (c : N) : bool :=
  Py_ISSPACE c || ascii_digit c || (c =? 43)%N || (c =? 45)%N || (c =? 95)%N.

(** A descriptor that is not numeric: one of its characters is none of
    these, or it holds no digit at all. *)
Definition non_numeric (s : string) : Prop :=
  Exists (λ c, int_char c = false) (code_points s)
  ∨ Forall (λ c, is_decimal c = false) (code_points s).

(** A numeral short enough for [int]. *)
Definition within_digit_limit (s : string) : Prop :=
  (N.of_nat (String.length s) ≤ int_max_str_digits)%N.

(** The ASCII character that stands for a character in the text
    [PyLong_FromString] reads. *)
Definition ascii_of (c : N) : N :=
  if (c <? 127)%N then c
  else if Py_UNICODE_ISSPACE c then 32%N
  else match Py_UNICODE_TODECIMAL c with
       | Some decimal => (48 + decimal)%N
       | None => 63%N
       end.

(** The value of a decimal digit; 0 stands in for any other character. *)
Definition digit_of (c : N) : Z :=
  match Py_UNICODE_TODECIMAL c with Some d => Z.of_N d | None => 0%Z end.

Definition digits_value (ds : list N) : Z :=
  fold_left (λ acc c, 10 * acc + digit_of c)%Z ds 0%Z.

(** Digits with single underscores between them: the text and its digits. *)
Inductive underscored : list N → list N → Prop :=
  | underscored_last c :
      is_decimal c = true → underscored [c] [c]
  | underscored_digit c text ds :
      is_decimal c = true → underscored text ds →
      underscored (c :: text) (c :: ds)
  | underscored_under c text ds :
      is_decimal c = true → underscored text ds →
      underscored (c :: 95%N :: text) (c :: ds).

(** The text of the integer [z] as the language reference describes the
    argument of [int]: decimal digits with single underscores between
    them, after an optional sign, the whole surrounded by white space;
    the interpreter adds the limit on the number of digits. *)
Definition integer_text (u : list N) (z : Z) : Prop :=
  ∃ before sign text ds after,
    u = before ++ sign ++ text ++ after
    ∧ Forall (λ c, int_space c = true) before
    ∧ Forall (λ c, int_space c = true) after
    ∧ underscored text ds
    ∧ (N.of_nat (length ds) ≤ int_max_str_digits)%N
    ∧ ((sign = [] ∨ sign = [43%N]) ∧ z = digits_value ds
       ∨ sign = [45%N] ∧ z = (- digits_value ds)%Z).

(** The five kinds of characters [int] allows, each with the ASCII
    character that stands for it. *)
Inductive int_class (c a : N) : Prop :=
  | class_space :
      int_space c = true → is_decimal c = false →
      Py_ISSPACE a = true → int_class c a
  | class_digit d :
      Py_UNICODE_TODECIMAL c = Some d → int_space c = false →
      a = (48 + d)%N → (d < 10)%N → c ≠ 43%N → c ≠ 45%N → c ≠ 95%N →
      int_class c a
  | class_plus : c = 43%N → a = 43%N → int_class c a
  | class_minus : c = 45%N → a = 45%N → int_class c a
  | class_under : c = 95%N → a = 95%N → int_class c a.

(** The portion of a string before its first ['.']. *)
Fixpoint before_dot (s : string) : string :=
  match s with
  | EmptyString => EmptyString
  | String c s' => if Ascii.eqb c "."%char then EmptyString else String c (before_dot s')
  end.

Definition is_str (v : pyval) : bool :=
  match v with VStr _ => true | _ => false end.

(** A feed typed as the data model has it: every price cell is a string. *)
Definition prices_are_strings (feed : list (gmap string pyval)) : Prop :=
  Forall (λ w, is_str (raw_price w) = true) feed.

(** The Yandex entry that corresponds to an Ozon entry. *)
Definition to_market (warehouse_id date : string) (e : Seller.stock_entry)
    : Market.stock_entry :=
  Market.Sku (Seller.offer_id e) warehouse_id
             [Market.Item (Seller.stock e) "FIT" date].

Definition result_map {A B} (f : A → B) (r : result A) : result B :=
  match r with Ok a => Ok (f a) | Raise e => Raise e end.

(** The stock count carried by a Yandex entry. *)
Definition market_count (e : Market.stock_entry) : option Z :=
  Market.count <$> head (Market.items e).

(** A feed row as the spreadsheet reader builds it. *)
Definition row (c q p : pyval) : gmap string pyval :=
  {[ "Код" := c; "Количество" := q; "Цена" := p ]}.

(** The [k]-th slice of length [n] of a list, and the number of slices
    that cover [len] elements. *)
Definition chunk_at {A} (lst : list A) (n k : nat) : list A :=
  take n (drop (k * n) lst).

Definition chunk_count (len : nat) (n : Z) : nat :=
  Z.to_nat ((Z.of_nat len + n - 1) `div` n).

(** Bounds on the chunks of a run: stock requests and price requests. *)
Definition seller_within (stock_max price_max : nat) (ev : Seller.event) : Prop :=
  match ev with
  | Seller.UpdateStocks stocks _ _ => length stocks ≤ stock_max
  | Seller.UpdatePrice prices _ _ => length prices ≤ price_max
  | Seller.Printed _ _ => True
  end.

Definition market_within (stock_max price_max : nat) (ev : Market.event) : Prop :=
  match ev with
  | Market.UpdateStocks stocks _ _ => length stocks ≤ stock_max
  | Market.UpdatePrice prices _ _ => length prices ≤ price_max
  | Market.Printed _ _ => True
  end.

(** If the events issued before the run satisfy [P], so do the events
    issued when it ends. *)
Definition preserves {E A} (P : E → Prop) (m : Run.M E A) : Prop :=
  ∀ tr tr' r, m tr = (tr', r) → Forall P tr → Forall P tr'.

(** The count [create_stocks] gives a matched row; 0 stands in where the
    rule refuses the quantity. *)
Definition count_of (w : gmap string pyval) : Z :=
  match normalize_quantity (quantity w) with
  | Ok n => n
  | Raise _ => 0%Z
  end.

(** The Yandex price entry that corresponds to an Ozon price entry. *)
Definition to_market_price (p : Seller.price_entry) : Market.price_entry :=
  Market.Offer (Seller.price_offer_id p)
               (Market.PriceValue (decimal (Seller.price p)) "RUR").

(** Kinds of events. *)
Definition seller_price_request (ev : Seller.event) : bool :=
  match ev with Seller.UpdatePrice _ _ _ => true | _ => false end.

Definition market_price_request (ev : Market.event) : bool :=
  match ev with Market.UpdatePrice _ _ _ => true | _ => false end.

Definition seller_printed (ev : Seller.event) : bool :=
  match ev with Seller.Printed _ _ => true | _ => false end.

Definition market_printed (ev : Market.event) : bool :=
  match ev with Market.Printed _ _ => true | _ => false end.

(** In [evs] nothing follows a printed line, and there is at most one. *)
Definition printed_only_last {E} (printed : E → bool) (evs : list E) : Prop :=
  ∀ i ev, evs !! i = Some ev → printed ev = true → S i = length evs.

(** The products of a page of the Ozon catalogue. *)
Definition page_items (p : SellerCatalog.product_list_result)
    : list (gmap string pyval) :=
  default [] (SellerCatalog.items p).

(** The Ozon endpoint answers the requests number [n], [n + 1], ... with
    [pages], each request carrying the cursor of the page before it. *)
Fixpoint seller_serves
    (srv : nat → pyval → string → string
           → result (option SellerCatalog.product_list_result))
    (cid tok : string) (n : nat) (cursor : pyval)
    (pages : list SellerCatalog.product_list_result) : Prop :=
  match pages with
  | [] => True
  | p :: rest =>
      srv n cursor cid tok = Ok (Some p)
      ∧ seller_serves srv cid tok (S n) (SellerCatalog.last_id p) rest
  end.

(** The entries and the next-page token of a page of the Yandex catalogue. *)
Definition page_entries (p : MarketCatalog.offer_mapping_result)
    : list MarketCatalog.mapping_entry :=
  default [] (MarketCatalog.offerMappingEntries p).

Definition page_token (p : MarketCatalog.offer_mapping_result) : pyval :=
  match MarketCatalog.paging p with
  | Some paging => get paging "nextPageToken"
  | None => VNone
  end.

Fixpoint market_serves
    (srv : nat → pyval → string → string
           → result (option MarketCatalog.offer_mapping_result))
    (cid tok : string) (n : nat) (cursor : pyval)
    (pages : list MarketCatalog.offer_mapping_result) : Prop :=
  match pages with
  | [] => True
  | p :: rest =>
      srv n cursor cid tok = Ok (Some p)
      ∧ market_serves srv cid tok (S n) (page_token p) rest
  end.

(** The value under ["shopSku"] of an entry that has an offer. *)
Definition entry_sku (en : MarketCatalog.mapping_entry) : pyval :=
  match MarketCatalog.offer en with
  | Some offer => get offer "shopSku"
  | None => VNone
  end.

(** ** Lists: [remove] and the accumulating loops *)

Section ListFacts.

Lemma fold_left_snoc {A B} (f : A → B) (l : list A) (acc : list B) :
  fold_left (λ acc x, acc ++ [f x]) l acc = acc ++ (f <$> l).
Proof.
  revert acc. induction l as [|x l IH]; intros acc; simpl.
  - by rewrite app_nil_r.
  - rewrite IH. by rewrite <- app_assoc.
Qed.

Lemma filter_all {A} (P : A → Prop) `{!∀ x, Decision (P x)} (l : list A) :
  (∀ x, x ∈ l → P x) → filter P l = l.
Proof.
  induction l as [|y l IH]; intros HP; [done|].
  rewrite filter_cons_True by (apply HP; left).
  f_equal. apply IH. intros x Hx. apply HP. by right.
Qed.

Lemma list_remove_elem x l : x ∈ l → ∃ l', list_remove x l = Ok l'.
Proof.
  induction l as [|y l IH]; intros Hin; [by apply elem_of_nil in Hin|].
  simpl. destruct (decide (y = x)) as [->|Hne]; [eauto|].
  apply elem_of_cons in Hin as [->|Hin]; [done|].
  destruct (IH Hin) as [l' ->]. simpl. eauto.
Qed.

Lemma list_remove_perm x l l' : list_remove x l = Ok l' → l ≡ₚ x :: l'.
Proof.
  revert l'. induction l as [|y l IH]; intros l'; simpl; [done|].
  destruct (decide (y = x)) as [->|Hne].
  - by intros [= ->].
  - destruct (list_remove x l) as [r|e] eqn:Hr; simpl; [|done].
    intros [= <-]. rewrite (IH r eq_refl). apply Permutation_swap.
Qed.

Lemma list_remove_filter x l l' :
  NoDup l → list_remove x l = Ok l' → l' = filter (λ y, y ≠ x) l.
Proof.
  intros Hnd. revert l'. induction Hnd as [|y l Hy Hnd IH]; intros l'; simpl; [done|].
  destruct (decide (y = x)) as [->|Hne].
  - intros [= <-]. rewrite filter_cons_False by (intros H; by apply H).
    symmetry. apply filter_all. by intros z Hz ->.
  - destruct (list_remove x l) as [r|e] eqn:Hr; simpl; [|done].
    intros [= <-]. rewrite filter_cons_True by done. f_equal. by apply IH.
Qed.

Lemma list_remove_subseteq x l l' : list_remove x l = Ok l' → l' ⊆ l.
Proof.
  intros H%list_remove_perm z Hz. rewrite H. apply elem_of_cons. by right.
Qed.

Lemma list_remove_NoDup x l l' :
  NoDup l → list_remove x l = Ok l' → NoDup l' ∧ x ∉ l'.
Proof.
  intros Hnd H%list_remove_perm. rewrite H in Hnd.
  apply NoDup_cons in Hnd. tauto.
Qed.

Lemma list_remove_other x y l l' :
  list_remove x l = Ok l' → y ∈ l → y ≠ x → y ∈ l'.
Proof.
  intros H%list_remove_perm Hy Hne. rewrite H in Hy.
  apply elem_of_cons in Hy as [->|Hy]; done.
Qed.

End ListFacts.

(** ** The loop of [create_stocks] *)

Section StockLoop.

Implicit Types (w : gmap string pyval) (ws : list (gmap string pyval)).
Implicit Types (ids : list string) (acc out : list Seller.stock_entry).

Lemma filter_ext_in {A} (P Q : A → Prop) `{!∀ x, Decision (P x)}
    `{!∀ x, Decision (Q x)} (l : list A) :
  (∀ x, x ∈ l → P x ↔ Q x) → filter P l = filter Q l.
Proof.
  induction l as [|y l IH]; intros Hext; [done|].
  rewrite !filter_cons.
  assert (P y ↔ Q y) as Hy by (apply Hext; left).
  rewrite IH by (intros x Hx; apply Hext; by right).
  destruct (decide (P y)), (decide (Q y)); tauto.
Qed.

(** One turn of the loop, the rule written with [normalize_quantity]. *)
Lemma create_stocks_for_cons w ws acc ids :
  Seller.create_stocks_for (w :: ws) acc ids =
    if decide (code w ∈ ids) then
      match normalize_quantity (quantity w) with
      | Raise e => (Raise e, ids)
      | Ok n =>
          match list_remove (code w) ids with
          | Raise e => (Raise e, ids)
          | Ok ids' =>
              Seller.create_stocks_for ws (acc ++ [Seller.Stock (code w) n]) ids'
          end
      end
    else Seller.create_stocks_for ws acc ids.
Proof.
  cbn [Seller.create_stocks_for].
  unfold py_in, normalize_quantity, code, quantity.
  case_bool_decide as Hin; destruct (decide (_ ∈ ids)); done.
Qed.

Lemma create_stocks_for_app pre post acc ids :
  Seller.create_stocks_for (pre ++ post) acc ids =
    match Seller.create_stocks_for pre acc ids with
    | (Ok acc', ids') => Seller.create_stocks_for post acc' ids'
    | (Raise e, ids') => (Raise e, ids')
    end.
Proof.
  revert acc ids. induction pre as [|w pre IH]; intros acc ids; [done|].
  rewrite <- app_comm_cons, !create_stocks_for_cons.
  destruct (decide _); [|apply IH].
  destruct (normalize_quantity _); [|done].
  destruct (list_remove _ _); [apply IH|done].
Qed.

Lemma create_stocks_for_subseteq ws acc ids r ids' :
  Seller.create_stocks_for ws acc ids = (r, ids') → ids' ⊆ ids.
Proof.
  revert acc ids. induction ws as [|w ws IH]; intros acc ids.
  - by intros [= _ ->].
  - rewrite create_stocks_for_cons.
    destruct (decide _); [|apply IH].
    destruct (normalize_quantity _); [|by intros [= _ ->]].
    destruct (list_remove _ _) as [ids1|] eqn:Hrm; [|by intros [= _ ->]].
    intros H%IH. etrans; [done|]. by eapply list_remove_subseteq.
Qed.

Lemma create_stocks_for_NoDup ws acc ids r ids' :
  Seller.create_stocks_for ws acc ids = (r, ids') → NoDup ids → NoDup ids'.
Proof.
  revert acc ids. induction ws as [|w ws IH]; intros acc ids.
  - by intros [= _ ->].
  - rewrite create_stocks_for_cons.
    destruct (decide _); [|apply IH].
    destruct (normalize_quantity _); [|by intros [= _ ->]].
    destruct (list_remove _ _) as [ids1|] eqn:Hrm; [|by intros [= _ ->]].
    intros H Hnd. eapply IH; [done|]. by eapply list_remove_NoDup.
Qed.

(** An identifier that no row of the feed carries stays in the list. *)
Lemma create_stocks_for_keeps ws acc ids r ids' x :
  Seller.create_stocks_for ws acc ids = (r, ids') →
  x ∈ ids → x ∉ code <$> ws → x ∈ ids'.
Proof.
  revert acc ids. induction ws as [|w ws IH]; intros acc ids.
  - by intros [= _ ->].
  - rewrite create_stocks_for_cons, fmap_cons, not_elem_of_cons.
    destruct (decide _); [|intros ?? []; by eapply IH].
    destruct (normalize_quantity _); [|by intros [= _ ->]].
    destruct (list_remove _ _) as [ids1|] eqn:Hrm; [|by intros [= _ ->]].
    intros H Hx [Hne Hws]. eapply IH; [done| |done].
    by eapply list_remove_other.
Qed.

(** What a completed loop has appended, and what it has left. *)
Lemma create_stocks_for_ok ws acc ids out ids' :
  Seller.create_stocks_for ws acc ids = (Ok out, ids') →
  ∃ new, out = acc ++ new
    ∧ (Seller.offer_id <$> new) ++ ids' ≡ₚ ids
    ∧ Forall (λ e, Seller.offer_id e ∈ code <$> ws) new.
Proof.
  revert acc ids. induction ws as [|w ws IH]; intros acc ids.
  - intros [= <- <-]. exists []. by rewrite app_nil_r.
  - rewrite create_stocks_for_cons. destruct (decide _).
    + destruct (normalize_quantity _) as [n|]; [|done].
      destruct (list_remove _ _) as [ids1|] eqn:Hrm; [|done].
      intros (new & -> & Hperm & Hall)%IH.
      exists (Seller.Stock (code w) n :: new). split_and!.
      * by rewrite <- app_assoc.
      * rewrite fmap_cons. simpl. rewrite Hperm.
        symmetry. by apply list_remove_perm.
      * constructor; [rewrite fmap_cons; left|].
        eapply Forall_impl; [done|]. intros s Hs. rewrite fmap_cons. by right.
    + intros (new & -> & Hperm & Hall)%IH. exists new. split_and!; [done..|].
      eapply Forall_impl; [done|]. intros s Hs. rewrite fmap_cons. by right.
Qed.

(** With a duplicate-free list, exactly the codes of the feed are gone. *)
Lemma create_stocks_for_left ws acc ids out ids' :
  NoDup ids →
  Seller.create_stocks_for ws acc ids = (Ok out, ids') →
  ids' = filter (λ x, x ∉ code <$> ws) ids.
Proof.
  revert acc ids. induction ws as [|w ws IH]; intros acc ids Hnd.
  - intros [= _ <-]. symmetry. apply filter_all. intros x _. apply not_elem_of_nil.
  - rewrite create_stocks_for_cons. destruct (decide _) as [Hin|Hnin].
    + destruct (normalize_quantity _) as [n|]; [|done].
      destruct (list_remove _ _) as [ids1|] eqn:Hrm; [|done].
      intros H. apply IH in H; [|by eapply list_remove_NoDup].
      rewrite H, (list_remove_filter _ _ _ Hnd Hrm), list_filter_filter.
      apply filter_ext_in. intros x _. rewrite fmap_cons, not_elem_of_cons. tauto.
    + intros H. apply IH in H; [|done]. rewrite H.
      apply filter_ext_in. intros x Hx. rewrite fmap_cons, not_elem_of_cons.
      split; [|tauto]. intros ?. split; [|done]. by intros ->.
Qed.

(** The loop completes when every row it matches carries a quantity the
    rule accepts. *)
Lemma create_stocks_for_returns ws acc ids :
  (∀ w, w ∈ ws → code w ∈ ids → ∃ n, normalize_quantity (quantity w) = Ok n) →
  ∃ out ids', Seller.create_stocks_for ws acc ids = (Ok out, ids').
Proof.
  revert acc ids. induction ws as [|w ws IH]; intros acc ids Hq; [by eexists _, _|].
  rewrite create_stocks_for_cons. destruct (decide _) as [Hin|Hnin].
  - destruct (Hq w) as [n ->]; [left|done|].
    destruct (list_remove_elem _ _ Hin) as [ids1 Hrm]. rewrite Hrm.
    apply IH. intros w' Hw' Hc. apply Hq; [by right|].
    by eapply list_remove_subseteq.
  - apply IH. intros w' Hw' Hc. apply Hq; [by right|done].
Qed.

(** Rows whose code is not in the list are passed over. *)
Lemma create_stocks_for_skip c ws acc ids :
  c ∉ ids →
  Seller.create_stocks_for ws acc ids =
  Seller.create_stocks_for (filter (λ w, code w ≠ c) ws) acc ids.
Proof.
  revert acc ids. induction ws as [|w ws IH]; intros acc ids Hc; [done|].
  rewrite filter_cons. destruct (decide (code w ≠ c)) as [Hne|Heq].
  - rewrite !create_stocks_for_cons. destruct (decide _); [|by apply IH].
    destruct (normalize_quantity _); [|done].
    destruct (list_remove _ _) as [ids1|] eqn:Hrm; [|done].
    apply IH. intros Hc'. apply Hc. by eapply list_remove_subseteq.
  - apply dec_stable in Heq. rewrite create_stocks_for_cons.
    rewrite decide_False by (by rewrite Heq). by apply IH.
Qed.

End StockLoop.

(** ** [create_stocks] as a whole, and its Yandex twin *)

Section CreateStocks.

Implicit Types (w : gmap string pyval) (ws : list (gmap string pyval)).
Implicit Types (ids : list string).

Lemma create_stocks_unfold ws ids :
  Seller.create_stocks ws ids =
    match Seller.create_stocks_for ws [] ids with
    | (Ok new, ids') => (Ok (new ++ ((λ x, Seller.Stock x 0) <$> ids')), ids')
    | (Raise e, ids') => (Raise e, ids')
    end.
Proof.
  unfold Seller.create_stocks.
  destruct (Seller.create_stocks_for ws [] ids) as [[new|e] ids']; [|done].
  by rewrite (fold_left_snoc (λ x, Seller.Stock x 0)).
Qed.

Lemma create_stocks_inv ws ids out ids' :
  Seller.create_stocks ws ids = (Ok out, ids') →
  ∃ new, Seller.create_stocks_for ws [] ids = (Ok new, ids')
    ∧ out = new ++ ((λ x, Seller.Stock x 0) <$> ids').
Proof.
  rewrite create_stocks_unfold.
  destruct (Seller.create_stocks_for ws [] ids) as [[new|e] ids1]; [|done].
  intros [= <- <-]. eauto.
Qed.

Lemma offer_id_zero_entries ids :
  Seller.offer_id <$> ((λ x, Seller.Stock x 0) <$> ids) = ids.
Proof. rewrite <- list_fmap_compose. apply list_fmap_id. Qed.

(** The identifiers of the entries are the identifiers of the list,
    rearranged. *)
Lemma create_stocks_perm ws ids out ids' :
  Seller.create_stocks ws ids = (Ok out, ids') →
  Seller.offer_id <$> out ≡ₚ ids.
Proof.
  intros (new & Hfor & ->)%create_stocks_inv.
  apply create_stocks_for_ok in Hfor as (new' & Hnew & Hperm & _).
  simpl in Hnew. subst new'.
  by rewrite fmap_app, offer_id_zero_entries.
Qed.

Lemma create_stocks_returns ws ids :
  (∀ w, w ∈ ws → code w ∈ ids → ∃ n, normalize_quantity (quantity w) = Ok n) →
  ∃ out ids', Seller.create_stocks ws ids = (Ok out, ids').
Proof.
  intros Hq. rewrite create_stocks_unfold.
  destruct (create_stocks_for_returns ws [] ids Hq) as (new & ids' & ->).
  by eexists _, _.
Qed.

Lemma market_create_stocks_for_sim ws acc ids wh date :
  Market.create_stocks_for ws (to_market wh date <$> acc) ids wh date =
    let (r, ids') := Seller.create_stocks_for ws acc ids in
    (result_map (fmap (to_market wh date)) r, ids').
Proof.
  revert acc ids. induction ws as [|w ws IH]; intros acc ids; [done|].
  cbn [Market.create_stocks_for Seller.create_stocks_for].
  destruct (py_in _ ids); [|apply IH].
  destruct (if decide (py_str (get w "Количество") = ">10") then _ else _)
    as [n|e]; [|done].
  destruct (list_remove _ ids) as [ids1|e]; [|done].
  rewrite <- IH. by rewrite fmap_app.
Qed.

(** The Yandex variant returns the Ozon entries, reshaped, and leaves the
    same list behind. *)
Lemma market_create_stocks_sim ws ids wh date :
  Market.create_stocks ws ids wh date =
    let (r, ids') := Seller.create_stocks ws ids in
    (result_map (fmap (to_market wh date)) r, ids').
Proof.
  unfold Market.create_stocks, Seller.create_stocks.
  pose proof (market_create_stocks_for_sim ws [] ids wh date) as Hsim.
  simpl in Hsim. rewrite Hsim.
  destruct (Seller.create_stocks_for ws [] ids) as [[new|e] ids']; [|done].
  simpl. f_equal. f_equal.
  rewrite (fold_left_snoc (λ x, Market.Sku x wh [Market.Item 0 "FIT" date])).
  rewrite (fold_left_snoc (λ x, Seller.Stock x 0)).
  rewrite fmap_app. f_equal. by rewrite <- list_fmap_compose.
Qed.

Lemma market_create_stocks_inv ws ids wh date out ids' :
  Market.create_stocks ws ids wh date = (Ok out, ids') →
  ∃ out0, Seller.create_stocks ws ids = (Ok out0, ids')
    ∧ out = to_market wh date <$> out0.
Proof.
  rewrite market_create_stocks_sim.
  destruct (Seller.create_stocks ws ids) as [[out0|e] ids1]; [|done].
  intros [= <- <-]. eauto.
Qed.

Lemma sku_to_market wh date (l : list Seller.stock_entry) :
  Market.sku <$> (to_market wh date <$> l) = Seller.offer_id <$> l.
Proof. by rewrite <- list_fmap_compose. Qed.

End CreateStocks.

(** ** Entries per identifier *)

Section Entries.

Context {A : Type} (key : A → string).

Lemma filter_none (P : A → Prop) `{!∀ x, Decision (P x)} (l : list A) :
  (∀ x, x ∈ l → ¬ P x) → filter P l = [].
Proof.
  induction l as [|y l IH]; intros HP; [done|].
  rewrite filter_cons_False by (apply HP; left).
  apply IH. intros x Hx. apply HP. by right.
Qed.

Lemma filter_key_absent x (l : list A) :
  x ∉ key <$> l → filter (λ e, key e = x) l = [].
Proof.
  intros Hx. apply filter_none. intros e He Heq. apply Hx.
  rewrite <- Heq. by apply list_elem_of_fmap_2.
Qed.

Lemma filter_key_once x (l : list A) :
  NoDup (key <$> l) → x ∈ key <$> l →
  length (filter (λ e, key e = x) l) = 1.
Proof.
  induction l as [|y l IH]; intros Hnd Hx; [by apply elem_of_nil in Hx|].
  rewrite fmap_cons in Hnd, Hx. apply NoDup_cons in Hnd as [Hy Hnd].
  rewrite filter_cons. destruct (decide (key y = x)) as [Heq|Hne].
  - rewrite filter_key_absent by (by rewrite <- Heq). done.
  - apply IH; [done|]. apply elem_of_cons in Hx as [->|Hx]; done.
Qed.

Lemma one_entry_each_perm (out : list A) ids :
  NoDup ids → key <$> out ≡ₚ ids → one_entry_each key out ids.
Proof.
  intros Hnd Hperm. assert (NoDup (key <$> out)) as Hnd' by (by rewrite Hperm).
  split_and!; [| | |done].
  - by rewrite <- Hperm, length_fmap.
  - intros x Hx. apply filter_key_once; [done|]. by rewrite Hperm.
  - intros e He. rewrite <- Hperm. by apply list_elem_of_fmap_2.
Qed.

End Entries.

Lemma quantities_parse_spec feed ids :
  quantities_parse feed ids →
  ∀ w, w ∈ feed → code w ∈ ids → ∃ n, normalize_quantity (quantity w) = Ok n.
Proof.
  intros Hq w Hw Hc. eapply Forall_forall in Hq; [|done].
  destruct (normalize_quantity (quantity w)) as [n|e]; [eauto|].
  by specialize (Hq Hc).
Qed.

(** The scenario of the specification: identifiers A, B, C and a feed with
    A and B. *)
Example reconciliation_scenario :
  let feed := [row (VStr "A") (VStr ">10") (VStr "100.00 x");
               row (VStr "B") (VStr "1") (VStr "50.00 x")] in
  Seller.create_stocks feed ["A"; "B"; "C"]
    = (Ok [Seller.Stock "A" 100; Seller.Stock "B" 0; Seller.Stock "C" 0], ["C"])
  ∧ (Seller.price <$>
       default [] (match Seller.create_prices feed ["A"; "B"; "C"] with
                   | Ok prices => Some prices
                   | Raise _ => None
                   end)) = ["100"; "50"]
  ∧ Market.create_prices feed ["A"; "B"; "C"]
    = Ok [Market.Offer "A" (Market.PriceValue 100 "RUR");
          Market.Offer "B" (Market.PriceValue 50 "RUR")].
Proof. split_and!; vm_compute; reflexivity. Qed.

(** C1, as amended.  For a feed with pairwise distinct codes in which
    every row whose code is in the set carries a quantity the rule accepts,
    and a duplicate-free identifier list [ids], both variants of
    [create_stocks] return a list with exactly one entry per identifier of
    [ids] and no other entry: its length is that of [ids], every
    identifier of [ids] has exactly one entry, and no identifier has two. *)
Theorem create_stocks_one_entry_per_identifier
    (feed : list (gmap string pyval)) (ids : list string) (wh date : string) :
  NoDup (code <$> feed) → NoDup ids → quantities_parse feed ids →
  (∃ out ids', Seller.create_stocks feed ids = (Ok out, ids')
     ∧ one_entry_each Seller.offer_id out ids)
  ∧ (∃ out ids', Market.create_stocks feed ids wh date = (Ok out, ids')
     ∧ one_entry_each Market.sku out ids).
Proof.
  intros _ Hnd Hq.
  destruct (create_stocks_returns feed ids (quantities_parse_spec _ _ Hq))
    as (out & ids' & Hout).
  pose proof (create_stocks_perm _ _ _ _ Hout) as Hperm.
  split.
  - exists out, ids'. split; [done|]. by apply one_entry_each_perm.
  - exists (to_market wh date <$> out), ids'. split.
    + by rewrite market_create_stocks_sim, Hout.
    + apply one_entry_each_perm; [done|]. by rewrite sku_to_market.
Qed.

Lemma create_stocks_one_entry_per_identifier_witness :
  let feed := [row (VStr "A") (VStr ">10") (VStr "100.00 x");
               row (VInt 7) (VInt 3) (VStr "50.00 x")] in
  let ids := ["7"; "A"; "C"] in
  (∃ out ids', Seller.create_stocks feed ids = (Ok out, ids')
     ∧ one_entry_each Seller.offer_id out ids)
  ∧ (∃ out ids', Market.create_stocks feed ids "wh" "now" = (Ok out, ids')
     ∧ one_entry_each Market.sku out ids).
Proof.
  apply create_stocks_one_entry_per_identifier.
  - apply (bool_decide_unpack _). vm_compute. exact I.
  - apply (bool_decide_unpack _). vm_compute. exact I.
  - apply (bool_decide_unpack _). vm_compute. exact I.
Defined.

(** C1 as stated fails: a matched row with a quantity that is no integer
    makes both variants raise, so no list is returned. *)
Lemma create_stocks_raises_instead_of_returning :
  let feed := [row (VStr "A") (VStr "abc") (VStr "100.00 x")] in
  NoDup (code <$> feed) ∧ NoDup ["A"]
  ∧ Seller.create_stocks feed ["A"] = (Raise ValueError, ["A"])
  ∧ Market.create_stocks feed ["A"] "wh" "now" = (Raise ValueError, ["A"])
  ∧ ¬ (∃ out ids', Seller.create_stocks feed ["A"] = (Ok out, ids')
         ∧ one_entry_each Seller.offer_id out ["A"]).
Proof.
  split_and!.
  - apply (bool_decide_unpack _). vm_compute. exact I.
  - apply (bool_decide_unpack _). vm_compute. exact I.
  - vm_compute. reflexivity.
  - vm_compute. reflexivity.
  - intros (out & ids' & Hout & _). vm_compute in Hout. discriminate.
Qed.

(** C5, as amended.  When [create_stocks] returns, the identifiers matched
    by a feed row have been removed from the list passed as [offer_ids]:
    it holds exactly the identifiers that are no code of the feed, in
    their original order, and is empty only if every identifier was
    matched. *)
Theorem create_stocks_leaves_unmatched
    (feed : list (gmap string pyval)) (ids : list string) (wh date : string) :
  NoDup ids →
  (∀ out ids', Seller.create_stocks feed ids = (Ok out, ids') →
     ids' = filter (λ x, x ∉ code <$> feed) ids
     ∧ (ids' = [] ↔ ∀ x, x ∈ ids → x ∈ code <$> feed))
  ∧ (∀ out ids', Market.create_stocks feed ids wh date = (Ok out, ids') →
     ids' = filter (λ x, x ∉ code <$> feed) ids
     ∧ (ids' = [] ↔ ∀ x, x ∈ ids → x ∈ code <$> feed)).
Proof.
  intros Hnd.
  assert (∀ out ids', Seller.create_stocks feed ids = (Ok out, ids') →
     ids' = filter (λ x, x ∉ code <$> feed) ids
     ∧ (ids' = [] ↔ ∀ x, x ∈ ids → x ∈ code <$> feed)) as Hseller.
  { intros out ids' (new & Hfor & _)%create_stocks_inv.
    apply create_stocks_for_left in Hfor; [|done]. split; [done|].
    subst ids'. split.
    - intros Hnil x Hx. destruct (decide (x ∈ code <$> feed)) as [|Hn]; [done|].
      exfalso. eapply (filter_nil_not_elem_of _ _ x Hnil); done.
    - intros Hall. apply filter_none. intros x Hx Hn. by apply Hn, Hall. }
  split; [done|].
  intros out ids' (out0 & Hout & _)%market_create_stocks_inv. by eapply Hseller.
Qed.

Lemma create_stocks_leaves_unmatched_witness :
  let feed := [row (VStr "A") (VStr "5") (VStr "100.00 x")] in
  Seller.create_stocks feed ["A"; "B"]
    = (Ok [Seller.Stock "A" 5; Seller.Stock "B" 0], ["B"])
  ∧ ["B"] = filter (λ x, x ∉ code <$> feed) ["A"; "B"].
Proof.
  split; [vm_compute; reflexivity|].
  refine (proj1 (proj1 (create_stocks_leaves_unmatched _ ["A"; "B"] "wh" "now" _)
                       [Seller.Stock "A" 5; Seller.Stock "B" 0] ["B"] _)).
  - apply (bool_decide_unpack _). vm_compute. exact I.
  - vm_compute. reflexivity.
Defined.

(** C5 as stated fails: an identifier that matches no row is still in the
    list after the call. *)
Lemma create_stocks_does_not_empty_offer_ids :
  let feed := [row (VStr "A") (VStr "5") (VStr "100.00 x")] in
  snd (Seller.create_stocks feed ["A"; "B"]) = ["B"]
  ∧ snd (Market.create_stocks feed ["A"; "B"] "wh" "now") = ["B"]
  ∧ snd (Seller.create_stocks feed ["A"; "B"]) ≠ [].
Proof. split_and!; [vm_compute; reflexivity..|vm_compute; discriminate]. Qed.

Lemma filter_sku_to_market wh date c (out : list Seller.stock_entry) :
  filter (λ e, Market.sku e = c) (to_market wh date <$> out)
    = to_market wh date <$> filter (λ e, Seller.offer_id e = c) out.
Proof.
  induction out as [|e out IH]; [done|].
  rewrite fmap_cons, !filter_cons. simpl.
  destruct (decide (Seller.offer_id e = c)); by rewrite IH.
Qed.

(** C6.  Let [w] be the first row of the feed with its code,
    the code being in the duplicate-free list [ids].  Later rows with the
    same code are not matched and change nothing: the call behaves as on
    the feed without them.  Whenever the call returns, the only entry for
    that code is the one of [w], its count being the normalised quantity of
    [w]; and the call returns when every row whose code is in [ids] carries
    a quantity the rule accepts.  Both variants. *)
Theorem create_stocks_first_duplicate_wins
    (pre post : list (gmap string pyval)) (w : gmap string pyval)
    (ids : list string) (wh date : string) :
  NoDup ids → code w ∈ ids → code w ∉ code <$> pre →
  Seller.create_stocks (pre ++ w :: post) ids
    = Seller.create_stocks (pre ++ w :: filter (λ w', code w' ≠ code w) post) ids
  ∧ Market.create_stocks (pre ++ w :: post) ids wh date
    = Market.create_stocks
        (pre ++ w :: filter (λ w', code w' ≠ code w) post) ids wh date
  ∧ (∀ out ids', Seller.create_stocks (pre ++ w :: post) ids = (Ok out, ids') →
       ∃ n, normalize_quantity (quantity w) = Ok n
         ∧ filter (λ e, Seller.offer_id e = code w) out
           = [Seller.Stock (code w) n])
  ∧ (∀ out ids',
       Market.create_stocks (pre ++ w :: post) ids wh date = (Ok out, ids') →
       ∃ n, normalize_quantity (quantity w) = Ok n
         ∧ filter (λ e, Market.sku e = code w) out
           = [Market.Sku (code w) wh [Market.Item n "FIT" date]])
  ∧ (quantities_parse (pre ++ w :: post) ids →
     ∃ out ids', Seller.create_stocks (pre ++ w :: post) ids = (Ok out, ids')).
Proof.
  intros Hnd Hin Hpre.
  assert (Seller.create_stocks (pre ++ w :: post) ids
    = Seller.create_stocks (pre ++ w :: filter (λ w', code w' ≠ code w) post) ids)
    as Hsame.
  { rewrite !create_stocks_unfold, !create_stocks_for_app.
    destruct (Seller.create_stocks_for pre [] ids) as [[acc1|e] ids1] eqn:Hp;
      [|done].
    pose proof (create_stocks_for_keeps _ _ _ _ _ _ Hp Hin Hpre) as Hin1.
    rewrite !create_stocks_for_cons.
    destruct (decide (code w ∈ ids1)); [|done].
    destruct (normalize_quantity _) as [n|]; [|done].
    destruct (list_remove _ ids1) as [ids2|] eqn:Hrm; [|done].
    rewrite <- create_stocks_for_skip; [done|].
    eapply list_remove_NoDup; [|done]. by eapply create_stocks_for_NoDup. }
  assert (∀ out ids',
    Seller.create_stocks (pre ++ w :: post) ids = (Ok out, ids') →
    ∃ n, normalize_quantity (quantity w) = Ok n
      ∧ filter (λ e, Seller.offer_id e = code w) out
        = [Seller.Stock (code w) n]) as Hentry.
  { intros out ids' (new & Hfor & ->)%create_stocks_inv.
    rewrite create_stocks_for_app in Hfor.
    destruct (Seller.create_stocks_for pre [] ids) as [[acc1|e] ids1] eqn:Hp;
      [|done].
    pose proof (create_stocks_for_keeps _ _ _ _ _ _ Hp Hin Hpre) as Hin1.
    pose proof (create_stocks_for_NoDup _ _ _ _ _ Hp Hnd) as Hnd1.
    apply create_stocks_for_ok in Hp as (new1 & -> & _ & Hall1).
    rewrite create_stocks_for_cons, decide_True in Hfor by done.
    destruct (normalize_quantity _) as [n|]; [|done].
    destruct (list_remove _ ids1) as [ids2|] eqn:Hrm; [|done].
    destruct (list_remove_NoDup _ _ _ Hnd1 Hrm) as [_ Hout2].
    apply create_stocks_for_ok in Hfor as (new2 & -> & Hperm & _).
    exists n. split; [done|]. simpl.
    assert (code w ∉ Seller.offer_id <$> new2) as Hn2.
    { intros H. apply Hout2. rewrite <- Hperm. apply elem_of_app. by left. }
    assert (code w ∉ ids') as Hn3.
    { intros H. apply Hout2. rewrite <- Hperm. apply elem_of_app. by right. }
    rewrite !filter_app, (filter_key_absent _ _ new2 Hn2).
    rewrite (filter_key_absent _ _ (_ <$> ids'))
      by (by rewrite offer_id_zero_entries).
    rewrite (filter_none _ new1).
    + by rewrite filter_cons_True.
    + intros s Hs Heq. apply Hpre. rewrite <- Heq.
      eapply Forall_forall in Hall1; done. }
  split_and!; [done| |done| |].
  - by rewrite !market_create_stocks_sim, Hsame.
  - intros out ids' (out0 & Hout & ->)%market_create_stocks_inv.
    destruct (Hentry _ _ Hout) as (n & Hn & Hfilter). exists n. split; [done|].
    by rewrite filter_sku_to_market, Hfilter.
  - intros Hq. apply create_stocks_returns. by apply quantities_parse_spec.
Qed.

Lemma create_stocks_first_duplicate_wins_witness :
  let first := row (VStr "A") (VStr "5") (VStr "100.00 x") in
  let again := row (VStr "A") (VStr "7") (VStr "90.00 x") in
  let other := row (VStr "B") (VStr ">10") (VStr "50.00 x") in
  Seller.create_stocks ([other] ++ first :: [again]) ["A"; "B"; "C"]
    = (Ok [Seller.Stock "B" 100; Seller.Stock "A" 5; Seller.Stock "C" 0], ["C"])
  ∧ ∃ n, normalize_quantity (quantity first) = Ok n
      ∧ filter (λ e, Seller.offer_id e = code first)
               [Seller.Stock "B" 100; Seller.Stock "A" 5; Seller.Stock "C" 0]
        = [Seller.Stock (code first) n].
Proof.
  intros first again other.
  destruct (create_stocks_first_duplicate_wins
              [other] [again] first ["A"; "B"; "C"] "wh" "now")
    as (_ & _ & Hentry & _ & _).
  - apply (bool_decide_unpack _). vm_compute. exact I.
  - apply (bool_decide_unpack _). vm_compute. exact I.
  - apply (bool_decide_unpack _). vm_compute. exact I.
  - split; [vm_compute; reflexivity|].
    apply (Hentry _ ["C"]). vm_compute. reflexivity.
Defined.

(** ** The loops of [create_prices] *)

Section PriceLoops.

Implicit Types (w : gmap string pyval) (ws : list (gmap string pyval)).
Implicit Types (ids : list string).

Lemma seller_create_prices_for_cons w ws acc ids :
  Seller.create_prices_for (w :: ws) acc ids =
    if decide (code w ∈ ids) then
      match Seller.price_conversion (raw_price w) with
      | Raise e => Raise e
      | Ok digits =>
          Seller.create_prices_for ws
            (acc ++ [Seller.Price "UNKNOWN" "RUB" (code w) "0" digits]) ids
      end
    else Seller.create_prices_for ws acc ids.
Proof.
  cbn [Seller.create_prices_for]. unfold py_in, code, raw_price.
  case_bool_decide as Hin; destruct (decide (_ ∈ ids)); done.
Qed.

Lemma market_create_prices_for_cons w ws acc ids :
  Market.create_prices_for (w :: ws) acc ids =
    if decide (code w ∈ ids) then
      match Py.bind (Seller.price_conversion (raw_price w))
                    (λ digits, py_int (VStr digits)) with
      | Raise e => Raise e
      | Ok number =>
          Market.create_prices_for ws
            (acc ++ [Market.Offer (code w) (Market.PriceValue number "RUR")]) ids
      end
    else Market.create_prices_for ws acc ids.
Proof.
  cbn [Market.create_prices_for]. unfold py_in, code, raw_price.
  case_bool_decide as Hin; destruct (decide (_ ∈ ids)); done.
Qed.

(** Every price entry carries the code of a feed row that is in the list. *)
Lemma seller_create_prices_for_ok ws acc ids out :
  Seller.create_prices_for ws acc ids = Ok out →
  ∃ new, out = acc ++ new
    ∧ Forall (λ p, Seller.price_offer_id p ∈ code <$> ws
                   ∧ Seller.price_offer_id p ∈ ids) new.
Proof.
  revert acc. induction ws as [|w ws IH]; intros acc.
  - intros [= <-]. exists []. by rewrite app_nil_r.
  - rewrite seller_create_prices_for_cons. destruct (decide _) as [Hin|Hnin].
    + destruct (Seller.price_conversion _) as [digits|]; [|done].
      intros (new & -> & Hall)%IH. eexists (_ :: new). split.
      * by rewrite <- app_assoc.
      * constructor; [split; [rewrite fmap_cons; left|done]|].
        eapply Forall_impl; [done|]. intros p [Hp ?]. split; [|done].
        rewrite fmap_cons. by right.
    + intros (new & -> & Hall)%IH. exists new. split; [done|].
      eapply Forall_impl; [done|]. intros p [Hp ?]. split; [|done].
      rewrite fmap_cons. by right.
Qed.

Lemma market_create_prices_for_ok ws acc ids out :
  Market.create_prices_for ws acc ids = Ok out →
  ∃ new, out = acc ++ new
    ∧ Forall (λ p, Market.id p ∈ code <$> ws ∧ Market.id p ∈ ids) new.
Proof.
  revert acc. induction ws as [|w ws IH]; intros acc.
  - intros [= <-]. exists []. by rewrite app_nil_r.
  - rewrite market_create_prices_for_cons. destruct (decide _) as [Hin|Hnin].
    + destruct (Py.bind _ _) as [number|]; [|done].
      intros (new & -> & Hall)%IH. eexists (_ :: new). split.
      * by rewrite <- app_assoc.
      * constructor; [split; [rewrite fmap_cons; left|done]|].
        eapply Forall_impl; [done|]. intros p [Hp ?]. split; [|done].
        rewrite fmap_cons. by right.
    + intros (new & -> & Hall)%IH. exists new. split; [done|].
      eapply Forall_impl; [done|]. intros p [Hp ?]. split; [|done].
      rewrite fmap_cons. by right.
Qed.

End PriceLoops.

(** C7.  Let [x] be an identifier of the list that is the code
    of no feed row.  Whenever [create_stocks] returns, its list holds an
    entry for [x] with count 0 and no entry for [x] with another count;
    it returns when every row whose code is in the list carries a quantity
    the rule accepts; and a list returned by [create_prices] holds no entry
    for [x].  Both variants. *)
Theorem unmatched_identifier_zero_stock_no_price
    (feed : list (gmap string pyval)) (ids : list string) (x wh date : string) :
  x ∈ ids → x ∉ code <$> feed →
  (∀ out ids', Seller.create_stocks feed ids = (Ok out, ids') →
     Seller.Stock x 0 ∈ out
     ∧ ∀ e, e ∈ out → Seller.offer_id e = x → Seller.stock e = 0%Z)
  ∧ (∀ out ids', Market.create_stocks feed ids wh date = (Ok out, ids') →
     Market.Sku x wh [Market.Item 0 "FIT" date] ∈ out
     ∧ ∀ e, e ∈ out → Market.sku e = x → market_count e = Some 0%Z)
  ∧ (∀ prices, Seller.create_prices feed ids = Ok prices →
     x ∉ Seller.price_offer_id <$> prices)
  ∧ (∀ prices, Market.create_prices feed ids = Ok prices →
     x ∉ Market.id <$> prices)
  ∧ (quantities_parse feed ids →
     ∃ out ids', Seller.create_stocks feed ids = (Ok out, ids')).
Proof.
  intros Hin Hfeed.
  assert (∀ out ids', Seller.create_stocks feed ids = (Ok out, ids') →
     Seller.Stock x 0 ∈ out
     ∧ ∀ e, e ∈ out → Seller.offer_id e = x → Seller.stock e = 0%Z) as Hseller.
  { intros out ids' (new & Hfor & ->)%create_stocks_inv.
    pose proof (create_stocks_for_keeps _ _ _ _ _ _ Hfor Hin Hfeed) as Hleft.
    apply create_stocks_for_ok in Hfor as (new' & Hnew & _ & Hall).
    simpl in Hnew. subst new'. split.
    - apply elem_of_app. right.
      by apply (list_elem_of_fmap_2 (λ x, Seller.Stock x 0)).
    - intros e [He|He]%elem_of_app Hx.
      + exfalso. apply Hfeed. rewrite <- Hx.
        eapply Forall_forall in Hall; done.
      + apply list_elem_of_fmap in He as (y & -> & _). done. }
  split_and!; [done| | | |].
  - intros out ids' (out0 & Hout & ->)%market_create_stocks_inv.
    destruct (Hseller _ _ Hout) as [Hzero Honly]. split.
    + by apply (list_elem_of_fmap_2 (to_market wh date)) in Hzero.
    + intros e (e0 & -> & He0)%list_elem_of_fmap Hx. unfold market_count. simpl.
      f_equal. by apply Honly.
  - intros prices (new & -> & Hall)%seller_create_prices_for_ok.
    simpl. intros (p & -> & Hp)%list_elem_of_fmap.
    eapply Forall_forall in Hall as [Hcode _]; done.
  - intros prices (new & -> & Hall)%market_create_prices_for_ok.
    simpl. intros (p & -> & Hp)%list_elem_of_fmap.
    eapply Forall_forall in Hall as [Hcode _]; done.
  - intros Hq. apply create_stocks_returns. by apply quantities_parse_spec.
Qed.

Lemma unmatched_identifier_zero_stock_no_price_witness :
  let feed := [row (VStr "A") (VStr ">10") (VStr "100.00 x");
               row (VStr "B") (VStr "1") (VStr "50.00 x")] in
  Seller.create_stocks feed ["A"; "B"; "C"]
    = (Ok [Seller.Stock "A" 100; Seller.Stock "B" 0; Seller.Stock "C" 0], ["C"])
  ∧ (Seller.Stock "C" 0
      ∈ [Seller.Stock "A" 100; Seller.Stock "B" 0; Seller.Stock "C" 0])
  ∧ (∀ prices, Seller.create_prices feed ["A"; "B"; "C"] = Ok prices →
       "C" ∉ Seller.price_offer_id <$> prices).
Proof.
  intros feed.
  assert ("C" ∈ ["A"; "B"; "C"]) as Hin
    by (apply (bool_decide_unpack _); vm_compute; exact I).
  assert ("C" ∉ code <$> feed) as Hfeed
    by (apply (bool_decide_unpack _); vm_compute; exact I).
  pose proof (unmatched_identifier_zero_stock_no_price
                feed ["A"; "B"; "C"] "C" "wh" "now" Hin Hfeed)
    as (Hstock & _ & Hprice & _ & _).
  split_and!.
  - vm_compute. reflexivity.
  - refine (proj1 (Hstock _ ["C"] _)). vm_compute. reflexivity.
  - exact Hprice.
Defined.

(** ** [int] on strings *)

Section IntOfStr.

Implicit Types (c : N) (l u : list N) (s : string).

Lemma all_digits_cons (a : ascii) s :
  all_digits (String a s) ↔ is_digit a = true ∧ all_digits s.
Proof. unfold all_digits, chars. simpl. by rewrite Forall_cons. Qed.

Lemma no_digit_cons (a : ascii) s :
  no_digit (String a s) ↔ is_digit a = false ∧ no_digit s.
Proof. unfold no_digit, chars. simpl. by rewrite Forall_cons. Qed.

Lemma digit_byte (a : ascii) :
  is_digit a = true →
  ascii_digit (byte_of a) = true
  ∧ digit_value a = (Z.of_N (byte_of a) - 48)%Z.
Proof.
  destruct a as [[] [] [] [] [] [] [] []]; vm_compute; intuition congruence.
Qed.

Lemma ascii_digit_range c : ascii_digit c = true ↔ (48 ≤ c ≤ 57)%N.
Proof. unfold ascii_digit. by rewrite andb_true_iff, !N.leb_le. Qed.

Lemma chars_length s : length (chars s) = String.length s.
Proof. induction s as [|a s IH]; [done|]. unfold chars in *. simpl. by rewrite IH. Qed.

(** A numeral holds one character per byte, each an ASCII digit. *)
Lemma code_points_digits s :
  all_digits s →
  code_points s = byte_of <$> chars s
  ∧ Forall (λ c, ascii_digit c = true) (code_points s).
Proof.
  induction s as [|a s IH]; [by split|].
  intros [Ha Hs]%all_digits_cons. destruct (IH Hs) as [Heq Hall].
  destruct (digit_byte a Ha) as [Hd _].
  pose proof Hd as Hrange%ascii_digit_range.
  assert (code_points (String a s) = byte_of a :: code_points s) as ->.
  { cbn [code_points]. by rewrite (proj2 (N.ltb_lt _ _)) by lia. }
  split; [by rewrite Heq|by constructor].
Qed.

Lemma forallb_ascii_digits l :
  Forall (λ c, ascii_digit c = true) l → forallb (λ ch, ch <? 128)%N l = true.
Proof.
  intros Hl. apply forallb_forall. intros c Hc%list_elem_of_In.
  eapply Forall_forall in Hl; [|done].
  apply ascii_digit_range in Hl. apply N.ltb_lt. lia.
Qed.

Lemma to_ascii_digits l :
  Forall (λ c, ascii_digit c = true) l → to_ascii l = l.
Proof. intros Hl. unfold to_ascii. by rewrite forallb_ascii_digits. Qed.

Lemma scan_digits_all prev n v l :
  Forall (λ c, ascii_digit c = true) l → (l = [] → prev = false) →
  scan_digits prev n v l
  = Some ((n + N.of_nat (length l))%N,
          fold_left (λ acc c, (10 * acc + (Z.of_N c - 48))%Z) l v, []).
Proof.
  revert prev n v. induction l as [|c l IH]; intros prev n v Hl Hprev.
  - rewrite Hprev by done. simpl. by rewrite N.add_0_r.
  - apply Forall_cons in Hl as [Hc Hl]. cbn [scan_digits]. rewrite Hc.
    rewrite IH by done. cbn [fold_left length]. do 3 f_equal. lia.
Qed.

Lemma fold_left_digits (a : Z) s :
  all_digits s →
  fold_left (λ acc c, (10 * acc + (Z.of_N c - 48))%Z) (byte_of <$> chars s) a
  = decimal_from a s.
Proof.
  revert a. induction s as [|x s IH]; intros a; [done|].
  intros [Hx Hs]%all_digits_cons. destruct (digit_byte x Hx) as [_ Hv].
  unfold decimal_from, chars in *. simpl. rewrite <- Hv. by apply IH.
Qed.

(** What [PyLong_FromString] makes of a run of digits, bare or signed. *)
Lemma PyLong_FromString_digits l :
  l ≠ [] → Forall (λ c, ascii_digit c = true) l →
  let value := fold_left (λ acc c, (10 * acc + (Z.of_N c - 48))%Z) l 0%Z in
  let fits := negb (int_max_str_digits <? N.of_nat (length l))%N in
  PyLong_FromString l = (if fits then Some value else None)
  ∧ PyLong_FromString (45%N :: l) = (if fits then Some (- value)%Z else None).
Proof.
  intros Hne Hl value fits.
  destruct l as [|c l']; [done|].
  pose proof Hl as [Hc%ascii_digit_range _]%Forall_cons.
  assert (Py_ISSPACE c = false) as Hsp.
  { unfold Py_ISSPACE. apply orb_false_iff. split.
    - apply andb_false_iff. right. apply N.leb_gt. lia.
    - apply N.eqb_neq. lia. }
  assert ((c =? 43)%N = false ∧ (c =? 45)%N = false ∧ (c =? 95)%N = false)
    as (H43 & H45 & H95) by (rewrite !N.eqb_neq; lia).
  assert ((N.of_nat (length (c :: l')) =? 0)%N = false) as Hpos
    by (apply N.eqb_neq; simpl; lia).
  split.
  - unfold PyLong_FromString. cbn [skip_space]. rewrite Hsp.
    cbn [skip_sign]. rewrite H43, H45. cbn [starts_with_underscore].
    rewrite H95, (scan_digits_all false 0 0 (c :: l')) by done.
    rewrite N.add_0_l, Hpos. fold fits. cbn [skip_space].
    by destruct (int_max_str_digits <? _)%N.
  - unfold PyLong_FromString. cbn [skip_space].
    change (Py_ISSPACE 45) with false. cbn [skip_sign].
    change (45 =? 43)%N with false. change (45 =? 45)%N with true.
    cbn [starts_with_underscore].
    rewrite H95, (scan_digits_all false 0 0 (c :: l')) by done.
    rewrite N.add_0_l, Hpos. fold fits. cbn [skip_space].
    by destruct (int_max_str_digits <? _)%N.
Qed.

(** A numeral is read as its decimal value, and with a minus sign as the
    opposite, unless it has more digits than the limit allows. *)
Lemma py_int_str_numeral s :
  s ≠ EmptyString → all_digits s →
  py_int_str s
    = (if decide (within_digit_limit s) then Ok (decimal s)
       else Raise ValueError)
  ∧ py_int_str (String "-" s)
    = (if decide (within_digit_limit s) then Ok (- decimal s)%Z
       else Raise ValueError).
Proof.
  intros Hne Hs. destruct (code_points_digits s Hs) as [Hcp Hall].
  assert (code_points s ≠ []) as Hne'.
  { rewrite Hcp. destruct s; [done|]. unfold chars. simpl. done. }
  destruct (PyLong_FromString_digits _ Hne' Hall) as [Hplain Hminus].
  assert (length (code_points s) = String.length s) as Hlen
    by (by rewrite Hcp, length_fmap, chars_length).
  assert (fold_left (λ acc c, (10 * acc + (Z.of_N c - 48))%Z)
            (code_points s) 0%Z = decimal s) as Hval
    by (rewrite Hcp; by apply fold_left_digits).
  rewrite Hlen, Hval in Hplain, Hminus.
  assert (to_ascii (code_points (String "-" s)) = 45%N :: code_points s) as Hm.
  { change (code_points (String "-" s)) with (45%N :: code_points s).
    unfold to_ascii. cbn [forallb]. change (45 <? 128)%N with true.
    by rewrite forallb_ascii_digits. }
  unfold py_int_str. rewrite Hm, (to_ascii_digits _ Hall), Hplain, Hminus.
  unfold within_digit_limit.
  destruct (decide _) as [Hfit|Hbig].
  - rewrite (proj2 (N.ltb_ge _ _)) by done. done.
  - rewrite (proj2 (N.ltb_lt _ _)) by lia. done.
Qed.

(** [int] of a string raises nothing but [ValueError]. *)
Lemma py_int_str_error s e : py_int_str s = Raise e → e = ValueError.
Proof.
  unfold py_int_str. destruct (PyLong_FromString _); [done|]. by intros [= <-].
Qed.

(** *** What [int] refuses *)

Lemma skip_space_split l :
  ∃ pre, l = pre ++ skip_space l ∧ Forall (λ c, Py_ISSPACE c = true) pre.
Proof.
  induction l as [|c l (pre & Hl & Hpre)]; [by exists []|].
  cbn [skip_space]. destruct (Py_ISSPACE c) eqn:Hc; [|by exists []].
  exists (c :: pre). split; [by rewrite <- app_comm_cons, <- Hl|by constructor].
Qed.

Lemma skip_sign_split l negative str :
  skip_sign l = (negative, str) →
  ∃ pre, l = pre ++ str ∧ Forall (λ c, int_ascii c = true) pre.
Proof.
  destruct l as [|c l]; [intros [= <- <-]; by exists []|]. cbn [skip_sign].
  destruct (c =? 43)%N eqn:H43; [|destruct (c =? 45)%N eqn:H45].
  - intros [= <- <-]. exists [c]. split; [done|]. apply Forall_singleton.
    unfold int_ascii. rewrite H43. by rewrite !orb_true_r.
  - intros [= <- <-]. exists [c]. split; [done|]. apply Forall_singleton.
    unfold int_ascii. rewrite H45. by rewrite !orb_true_r.
  - intros [= <- <-]. by exists [].
Qed.

Lemma scan_digits_split prev n v l n' v' rest :
  scan_digits prev n v l = Some (n', v', rest) →
  (∃ body, l = body ++ rest ∧ Forall (λ c, int_ascii c = true) body)
  ∧ ((n < n')%N → Exists (λ c, ascii_digit c = true) l).
Proof.
  revert prev n v. induction l as [|c l IH]; intros prev n v.
  - cbn [scan_digits]. destruct prev; [done|]. intros [= <- <- <-].
    split; [by exists []|lia].
  - cbn [scan_digits]. destruct (ascii_digit c) eqn:Hd.
    { intros [(body & -> & Hbody) _]%IH. split; [|by left].
      exists (c :: body). split; [done|]. constructor; [|done].
      unfold int_ascii. rewrite Hd. by rewrite orb_true_r. }
    destruct (c =? 95)%N eqn:H95.
    { destruct prev; [done|].
      intros [(body & -> & Hbody) Hex]%IH. split.
      - exists (c :: body). split; [done|]. constructor; [|done].
        unfold int_ascii. rewrite H95. by rewrite !orb_true_r.
      - intros Hlt. right. by apply Hex. }
    destruct prev; [done|]. intros [= <- <- <-]. split; [by exists []|lia].
Qed.

Lemma skip_space_nil l : skip_space l = [] → Forall (λ c, int_ascii c = true) l.
Proof.
  intros Hl. destruct (skip_space_split l) as (pre & Heq & Hpre).
  rewrite Hl, app_nil_r in Heq. subst pre.
  eapply Forall_impl; [done|]. intros c Hc. unfold int_ascii. by rewrite Hc.
Qed.

(** Every character of a text [PyLong_FromString] accepts is a blank, a
    digit, a sign or an underscore, and one of them is a digit. *)
Lemma PyLong_FromString_chars l z :
  PyLong_FromString l = Some z →
  Forall (λ c, int_ascii c = true) l ∧ Exists (λ c, ascii_digit c = true) l.
Proof.
  unfold PyLong_FromString.
  destruct (skip_space_split l) as (ws & Hl & Hws).
  destruct (skip_sign (skip_space l)) as [negative str] eqn:Hsign.
  destruct (skip_sign_split _ _ _ Hsign) as (sg & Hsg & Hsgn).
  destruct (starts_with_underscore str); [done|].
  destruct (scan_digits false 0 0 str) as [[[digits value] rest]|] eqn:Hscan;
    [|done].
  destruct (scan_digits_split _ _ _ _ _ _ _ Hscan) as [(body & Hbody & Hb) Hex].
  destruct (int_max_str_digits <? digits)%N; [done|].
  destruct (digits =? 0)%N eqn:Hzero; [done|]. apply N.eqb_neq in Hzero.
  destruct (skip_space rest) eqn:Hrest; [|done]. intros _.
  apply skip_space_nil in Hrest.
  rewrite Hl, Hsg. split.
  - apply Forall_app. split.
    + eapply Forall_impl; [done|]. intros c Hc. unfold int_ascii. by rewrite Hc.
    + apply Forall_app. split; [done|]. rewrite Hbody. by apply Forall_app.
  - apply Exists_app. right. apply Exists_app. right. apply Hex. lia.
Qed.

Lemma ascii_digit_decimal c : ascii_digit c = true → is_decimal c = true.
Proof.
  intros Hc%ascii_digit_range. unfold is_decimal, Py_UNICODE_TODECIMAL.
  assert (List.find (λ zero, (zero <=? c) && (c <? zero + 10))%N decimal_zeros
          = Some 48%N) as ->; [|done].
  unfold decimal_zeros. cbn [List.find].
  rewrite (proj2 (N.leb_le 48 c)) by lia.
  by rewrite (proj2 (N.ltb_lt c (48 + 10))) by lia.
Qed.

Lemma int_ascii_int_char c : int_ascii c = true → int_char c = true.
Proof.
  unfold int_ascii, int_char, int_space, Py_ISSPACE.
  destruct (ascii_digit c) eqn:Hd.
  { intros _. by rewrite (ascii_digit_decimal c Hd). }
  rewrite orb_false_r. intros H.
  destruct (c =? 43)%N; [by rewrite !orb_true_r|].
  destruct (c =? 45)%N; [by rewrite !orb_true_r|].
  destruct (c =? 95)%N; [by rewrite !orb_true_r|].
  rewrite !orb_false_r in H. rewrite !orb_false_r.
  assert ((c <? 127)%N = true) as ->.
  { apply N.ltb_lt. apply orb_true_iff in H as [H|H].
    - apply andb_true_iff in H as [_ H%N.leb_le]. lia.
    - apply N.eqb_eq in H. lia. }
  rewrite H. by rewrite orb_true_r.
Qed.

Lemma transform_bad u :
  Exists (λ c, int_char c = false) u →
  Exists (λ c, int_ascii c = false) (transform_decimal_and_space u).
Proof.
  induction u as [|ch u IH]; [by intros ?%Exists_nil|].
  intros Hex. cbn [transform_decimal_and_space].
  destruct (ch <? 127)%N eqn:Hlt.
  { apply Exists_cons in Hex as [Hbad|Hex]; [left|right; by apply IH].
    destruct (int_ascii ch) eqn:Ha; [|done].
    by rewrite (int_ascii_int_char ch Ha) in Hbad. }
  destruct (Py_UNICODE_ISSPACE ch) eqn:Hsp.
  { apply Exists_cons in Hex as [Hbad|Hex]; [|right; by apply IH].
    unfold int_char, int_space in Hbad. rewrite Hlt, Hsp in Hbad.
    by rewrite orb_true_r in Hbad. }
  destruct (Py_UNICODE_TODECIMAL ch) as [d|] eqn:Hdec; [|by left].
  apply Exists_cons in Hex as [Hbad|Hex]; [|right; by apply IH].
  unfold int_char, is_decimal in Hbad. by rewrite Hdec in Hbad.
Qed.

Lemma to_ascii_bad u :
  Exists (λ c, int_char c = false) u →
  Exists (λ c, int_ascii c = false) (to_ascii u).
Proof.
  intros Hex. unfold to_ascii. destruct (forallb _ u); [|by apply transform_bad].
  eapply Exists_impl; [done|]. intros c Hc. simpl in *.
  destruct (int_ascii c) eqn:Ha; [|done].
  by rewrite (int_ascii_int_char c Ha) in Hc.
Qed.

Lemma transform_no_digit u :
  Forall (λ c, is_decimal c = false) u →
  Forall (λ c, ascii_digit c = false) (transform_decimal_and_space u).
Proof.
  induction u as [|ch u IH]; [done|].
  intros [Hch Hu]%Forall_cons. cbn [transform_decimal_and_space].
  assert (ascii_digit ch = false) as Hnd.
  { destruct (ascii_digit ch) eqn:Hd; [|done].
    by rewrite (ascii_digit_decimal ch Hd) in Hch. }
  destruct (ch <? 127)%N; [constructor; [done|by apply IH]|].
  destruct (Py_UNICODE_ISSPACE ch); [constructor; [done|by apply IH]|].
  unfold is_decimal in Hch.
  destruct (Py_UNICODE_TODECIMAL ch); [done|]. by constructor.
Qed.

Lemma to_ascii_no_digit u :
  Forall (λ c, is_decimal c = false) u →
  Forall (λ c, ascii_digit c = false) (to_ascii u).
Proof.
  intros Hu. unfold to_ascii.
  destruct (forallb _ u); [|by apply transform_no_digit].
  eapply Forall_impl; [done|]. intros c Hc. simpl in *.
  destruct (ascii_digit c) eqn:Hd; [|done].
  by rewrite (ascii_digit_decimal c Hd) in Hc.
Qed.

(** A text that is not numeric is refused. *)
Lemma py_int_str_non_numeric s : non_numeric s → py_int_str s = Raise ValueError.
Proof.
  intros Hs. unfold py_int_str.
  destruct (PyLong_FromString _) as [z|] eqn:Hz; [|done]. exfalso.
  apply PyLong_FromString_chars in Hz as [Hall Hex].
  destruct Hs as [Hbad|Hnone].
  - apply to_ascii_bad, Exists_exists in Hbad as (c & Hc & Hbad).
    eapply Forall_forall in Hall; [|done]. congruence.
  - apply to_ascii_no_digit in Hnone.
    apply Exists_exists in Hex as (c & Hc & Hd).
    eapply Forall_forall in Hnone; [|done]. congruence.
Qed.

End IntOfStr.

(** ** The texts [int] accepts *)

Section IntegerText.

Implicit Types (c a d : N) (l u : list N) (s : string).

Lemma decimal_zeros_facts :
  Forall (λ zero, (zero = 48 ∨ 127 ≤ zero)%N
                  ∧ Forall (λ k, Py_UNICODE_ISSPACE (zero + k) = false)
                           [0; 1; 2; 3; 4; 5; 6; 7; 8; 9]%N)
         decimal_zeros.
Proof. apply (bool_decide_unpack _). vm_compute. exact I. Qed.

Lemma todecimal_inv c d :
  Py_UNICODE_TODECIMAL c = Some d →
  ∃ zero, (c = zero + d ∧ d < 10 ∧ (zero = 48 ∨ 127 ≤ zero))%N
          ∧ Py_UNICODE_ISSPACE c = false.
Proof.
  unfold Py_UNICODE_TODECIMAL. destruct (List.find _ _) as [zero|] eqn:Hf; [|done].
  intros [= <-]. apply List.find_some in Hf as [Hin Hz].
  apply andb_true_iff in Hz as [H1%N.leb_le H2%N.ltb_lt].
  apply list_elem_of_In in Hin.
  pose proof decimal_zeros_facts as Hfacts.
  eapply Forall_forall in Hfacts as [Hzero Hsp]; [|done].
  exists zero. split; [lia|].
  assert ((c - zero)%N ∈ [0; 1; 2; 3; 4; 5; 6; 7; 8; 9]%N) as Hk.
  { assert (c - zero = 0 ∨ c - zero = 1 ∨ c - zero = 2 ∨ c - zero = 3
            ∨ c - zero = 4 ∨ c - zero = 5 ∨ c - zero = 6 ∨ c - zero = 7
            ∨ c - zero = 8 ∨ c - zero = 9)%N as Hcases by lia.
    repeat (destruct Hcases as [->|Hcases];
            [apply list_elem_of_In; simpl; tauto|]).
    rewrite Hcases. apply list_elem_of_In. simpl. tauto. }
  eapply Forall_forall in Hsp; [|done].
  by replace (zero + (c - zero))%N with c in Hsp by lia.
Qed.

Lemma ascii_of_small c : (c < 127)%N → ascii_of c = c.
Proof. intros Hc. unfold ascii_of. by rewrite (proj2 (N.ltb_lt _ _)). Qed.

Lemma Py_ISSPACE_range a : Py_ISSPACE a = true ↔ (9 ≤ a ≤ 13 ∨ a = 32)%N.
Proof.
  unfold Py_ISSPACE.
  rewrite orb_true_iff, andb_true_iff, !N.leb_le, N.eqb_eq. done.
Qed.

Lemma decimal_facts c d :
  Py_UNICODE_TODECIMAL c = Some d →
  ascii_of c = (48 + d)%N ∧ (d < 10)%N ∧ int_space c = false
  ∧ c ≠ 43%N ∧ c ≠ 45%N ∧ c ≠ 95%N.
Proof.
  intros Hd. destruct (todecimal_inv c d Hd) as (zero & (Hc & Hlt & Hzero) & Hsp).
  split_and!; [| done | | | |].
  - unfold ascii_of. destruct (c <? 127)%N eqn:Hsmall.
    + apply N.ltb_lt in Hsmall. lia.
    + by rewrite Hsp, Hd.
  - unfold int_space. destruct (c <? 127)%N eqn:Hsmall; [|done].
    apply N.ltb_lt in Hsmall.
    destruct (Py_ISSPACE c) eqn:Hs; [|done].
    apply Py_ISSPACE_range in Hs. lia.
  - intros ->. destruct Hzero as [->|?]; lia.
  - intros ->. destruct Hzero as [->|?]; lia.
  - intros ->. destruct Hzero as [->|?]; lia.
Qed.

Lemma decimal_class c d :
  Py_UNICODE_TODECIMAL c = Some d → int_class c (ascii_of c).
Proof.
  intros Hd. destruct (decimal_facts c d Hd) as (? & ? & ? & ? & ? & ?).
  by apply (class_digit c _ d).
Qed.

Lemma space_class c : int_space c = true → int_class c (ascii_of c).
Proof.
  intros Hs. apply class_space; [done| |].
  - unfold is_decimal. destruct (Py_UNICODE_TODECIMAL c) as [d|] eqn:Hd; [|done].
    destruct (decimal_facts c d Hd) as (_ & _ & ? & _). congruence.
  - unfold int_space, ascii_of in *. destruct (c <? 127)%N; [done|].
    by rewrite Hs.
Qed.

Lemma int_char_class c : int_char c = true → int_class c (ascii_of c).
Proof.
  unfold int_char. rewrite !orb_true_iff.
  intros [[[[Hd|Hs]|Hp]|Hm]|Hu].
  - unfold is_decimal in Hd.
    destruct (Py_UNICODE_TODECIMAL c) as [d|] eqn:Hdec; [|done].
    by eapply decimal_class.
  - by apply space_class.
  - apply N.eqb_eq in Hp as ->. by apply class_plus.
  - apply N.eqb_eq in Hm as ->. by apply class_minus.
  - apply N.eqb_eq in Hu as ->. by apply class_under.
Qed.

Lemma to_ascii_int_chars u :
  Forall (λ c, int_char c = true) u → to_ascii u = ascii_of <$> u.
Proof.
  intros Hu. unfold to_ascii. destruct (forallb _ u) eqn:Hascii.
  - rewrite <- (list_fmap_id u) at 1. apply Forall_fmap_ext.
    apply Forall_forall. intros c Hc. simpl.
    eapply Forall_forall in Hu; [|done].
    assert ((c <? 128)%N = true) as Hlt%N.ltb_lt.
    { eapply forallb_forall in Hascii; [done|]. by apply list_elem_of_In. }
    symmetry. apply ascii_of_small.
    assert (c ≠ 127%N); [|lia]. intros ->. by vm_compute in Hu.
  - clear Hascii. induction u as [|c u IH]; [done|].
    apply Forall_cons in Hu as [Hc Hu]. cbn [transform_decimal_and_space].
    rewrite fmap_cons, <- (IH Hu). unfold ascii_of.
    destruct (c <? 127)%N eqn:Hsmall; [done|].
    destruct (Py_UNICODE_ISSPACE c) eqn:Hsp; [done|].
    destruct (Py_UNICODE_TODECIMAL c) as [d|] eqn:Hd; [done|].
    exfalso. unfold int_char, is_decimal, int_space in Hc.
    rewrite Hd, Hsmall, Hsp in Hc. apply N.ltb_ge in Hsmall.
    rewrite !orb_false_l in Hc.
    rewrite !orb_true_iff, !N.eqb_eq in Hc. lia.
Qed.

(** A text [int] accepts holds allowed characters only. *)
Lemma accepted_int_chars u z :
  PyLong_FromString (to_ascii u) = Some z → Forall (λ c, int_char c = true) u.
Proof.
  intros [Hall _]%PyLong_FromString_chars.
  apply Forall_forall. intros c Hc.
  destruct (int_char c) eqn:Hbad; [done|]. exfalso.
  assert (Exists (λ c, int_char c = false) u) as Hex
    by (apply Exists_exists; eauto).
  apply to_ascii_bad, Exists_exists in Hex as (a & Ha & Hbad').
  eapply Forall_forall in Hall; [|done]. congruence.
Qed.


(** What the ASCII character of each kind is to [PyLong_FromString]. *)
Lemma class_space_ascii a :
  Py_ISSPACE a = true →
  ascii_digit a = false ∧ (a =? 43)%N = false ∧ (a =? 45)%N = false
  ∧ (a =? 95)%N = false.
Proof.
  intros Ha%Py_ISSPACE_range. unfold ascii_digit.
  rewrite andb_false_iff, N.leb_gt, !N.eqb_neq. lia.
Qed.

Lemma class_digit_ascii d :
  (d < 10)%N →
  Py_ISSPACE (48 + d) = false ∧ ascii_digit (48 + d) = true
  ∧ (48 + d =? 43)%N = false ∧ (48 + d =? 45)%N = false
  ∧ (48 + d =? 95)%N = false.
Proof.
  intros Hd. split_and!.
  - destruct (Py_ISSPACE (48 + d)) eqn:Hs; [|done].
    apply Py_ISSPACE_range in Hs. lia.
  - apply ascii_digit_range. lia.
  - apply N.eqb_neq. lia.
  - apply N.eqb_neq. lia.
  - apply N.eqb_neq. lia.
Qed.

Lemma digit_of_ascii c d :
  Py_UNICODE_TODECIMAL c = Some d → (Z.of_N (48 + d) - 48)%Z = digit_of c.
Proof. intros Hd. unfold digit_of. rewrite Hd. lia. Qed.

Lemma skip_space_fmap u :
  Forall (λ c, int_char c = true) u →
  ∃ before rest,
    u = before ++ rest
    ∧ Forall (λ c, int_space c = true) before
    ∧ skip_space (ascii_of <$> u) = ascii_of <$> rest.
Proof.
  induction u as [|c u IH]; [by exists [], []|].
  intros [Hc Hu]%Forall_cons. rewrite fmap_cons. cbn [skip_space].
  destruct (Py_ISSPACE (ascii_of c)) eqn:Hs; [|by exists [], (c :: u)].
  destruct (IH Hu) as (before & rest & -> & Hbefore & Hskip).
  exists (c :: before), rest. split_and!; [done| |done].
  constructor; [|done].
  destruct (int_char_class c Hc) as [?|d Hd _ Ha Hlt|_ Ha|_ Ha|_ Ha]; [done|..].
  - rewrite Ha in Hs. destruct (class_digit_ascii d Hlt). congruence.
  - by rewrite Ha in Hs.
  - by rewrite Ha in Hs.
  - by rewrite Ha in Hs.
Qed.

Lemma skip_space_spaces before u :
  Forall (λ c, int_space c = true) before →
  match u with c :: _ => Py_ISSPACE (ascii_of c) = false | [] => True end →
  skip_space (ascii_of <$> (before ++ u)) = ascii_of <$> u.
Proof.
  intros Hbefore Hu. induction before as [|c before IH].
  - destruct u as [|c u]; [done|]. simpl. by rewrite Hu.
  - apply Forall_cons in Hbefore as [Hc Hbefore].
    rewrite <- app_comm_cons, fmap_cons. cbn [skip_space].
    destruct (space_class c Hc) as [_ _ ->|d Hd ?| ->| ->| ->];
      [by apply IH|congruence|by vm_compute in Hc..].
Qed.

Lemma skip_sign_fmap u negative str :
  Forall (λ c, int_char c = true) u →
  skip_sign (ascii_of <$> u) = (negative, str) →
  ∃ sign rest,
    u = sign ++ rest ∧ str = ascii_of <$> rest
    ∧ ((sign = [] ∨ sign = [43%N]) ∧ negative = false
       ∨ sign = [45%N] ∧ negative = true).
Proof.
  destruct u as [|c u].
  { intros _. simpl. intros [= <- <-]. exists [], []. naive_solver. }
  intros [Hc _]%Forall_cons. rewrite fmap_cons. cbn [skip_sign].
  destruct (int_char_class c Hc) as [_ _ Hs|d Hd _ Ha Hlt| -> Ha| -> Ha| -> Ha].
  - destruct (class_space_ascii _ Hs) as (_ & -> & -> & _).
    intros [= <- <-]. exists [], (c :: u). naive_solver.
  - destruct (class_digit_ascii d Hlt) as (_ & _ & H43 & H45 & _).
    rewrite Ha, H43, H45. intros [= <- <-]. exists [], (c :: u).
    rewrite fmap_cons, Ha. naive_solver.
  - rewrite Ha. intros [= <- <-]. exists [43%N], u. naive_solver.
  - rewrite Ha. intros [= <- <-]. exists [45%N], u. naive_solver.
  - rewrite Ha. intros [= <- <-]. exists [], (95%N :: u).
    rewrite fmap_cons, Ha. naive_solver.
Qed.

Lemma scan_digits_fmap_inv u prev n v n' v' r :
  Forall (λ c, int_char c = true) u →
  scan_digits prev n v (ascii_of <$> u) = Some (n', v', r) →
  (prev = false ∧ n' = n ∧ v' = v ∧ r = ascii_of <$> u)
  ∨ (∃ us text ds rest,
       u = us ++ text ++ rest ∧ r = ascii_of <$> rest
       ∧ (us = [] ∨ us = [95%N] ∧ prev = false)
       ∧ underscored text ds
       ∧ n' = (n + N.of_nat (length ds))%N
       ∧ v' = fold_left (λ acc c, 10 * acc + digit_of c)%Z ds v).
Proof.
  intros Hu. revert prev n v.
  induction u as [|c u IH]; intros prev n v.
  { cbn [fmap list_fmap scan_digits]. destruct prev; [done|].
    intros [= <- <- <-]. by left. }
  apply Forall_cons in Hu as [Hc Hu]. rewrite fmap_cons. cbn [scan_digits].
  destruct (int_char_class c Hc) as [_ _ Hs|d Hd _ Ha Hlt _ _ _| -> Ha| -> Ha| -> Ha].
  - destruct (class_space_ascii _ Hs) as (-> & _ & _ & ->).
    destruct prev; [done|]. intros [= <- <- <-]. by left.
  - destruct (class_digit_ascii d Hlt) as (_ & Hdig & _).
    assert (is_decimal c = true) as Hdec by (unfold is_decimal; by rewrite Hd).
    rewrite Ha, Hdig, (digit_of_ascii c d Hd).
    intros [(_ & -> & -> & ->)
           |(us & text & ds & rest & -> & -> & Hus & Htext & -> & ->)]%(IH Hu).
    + right. exists [], [c], [c], u. split_and!; [done|done|by left| |done..].
      by constructor.
    + right. destruct Hus as [->|[-> _]].
      * exists [], (c :: text), (c :: ds), rest.
        split_and!; [done|done|by left|by constructor| |done].
        simpl. lia.
      * exists [], (c :: 95%N :: text), (c :: ds), rest.
        split_and!; [done|done|by left|by constructor| |done].
        simpl. lia.
  - rewrite Ha. change (ascii_digit 43) with false. change (43 =? 95)%N with false.
    destruct prev; [done|]. intros [= <- <- <-]. by left.
  - rewrite Ha. change (ascii_digit 45) with false. change (45 =? 95)%N with false.
    destruct prev; [done|]. intros [= <- <- <-]. by left.
  - rewrite Ha. change (ascii_digit 95) with false. change (95 =? 95)%N with true.
    destruct prev; [done|].
    intros [(? & _)
           |(us & text & ds & rest & -> & -> & Hus & Htext & -> & ->)]%(IH Hu);
      [done|].
    right. destruct Hus as [->|[_ ?]]; [|done].
      exists [95%N], text, ds, rest. split_and!; [done|done|by right|done..].
Qed.


Lemma decimal_int_char c : is_decimal c = true → int_char c = true.
Proof. intros Hc. unfold int_char. by rewrite Hc. Qed.

Lemma space_int_char c : int_space c = true → int_char c = true.
Proof. intros Hc. unfold int_char. rewrite Hc. by rewrite orb_true_r. Qed.

Lemma is_decimal_inv c :
  is_decimal c = true → ∃ d, Py_UNICODE_TODECIMAL c = Some d.
Proof. unfold is_decimal. destruct (Py_UNICODE_TODECIMAL c); [eauto|done]. Qed.

Lemma underscored_inv text ds :
  underscored text ds →
  (∃ c t, text = c :: t ∧ is_decimal c = true)
  ∧ ds ≠ [] ∧ Forall (λ c, int_char c = true) text.
Proof.
  induction 1 as [c Hc|c text ds Hc _ (_ & _ & IH)|c text ds Hc _ (_ & _ & IH)].
  - split_and!; [by eauto|done|].
    apply Forall_singleton. by apply decimal_int_char.
  - split_and!; [by eauto|done|].
    constructor; [by apply decimal_int_char|done].
  - split_and!; [by eauto|done|].
    constructor; [by apply decimal_int_char|]. by constructor.
Qed.

Lemma scan_digits_digit c l prev n v :
  is_decimal c = true →
  scan_digits prev n v (ascii_of c :: l)
  = scan_digits false (n + 1)%N (10 * v + digit_of c)%Z l.
Proof.
  intros (d & Hd)%is_decimal_inv.
  destruct (decimal_facts c d Hd) as (Ha & Hlt & _).
  destruct (class_digit_ascii d Hlt) as (_ & Hdig & _).
  cbn [scan_digits]. by rewrite Ha, Hdig, (digit_of_ascii c d Hd).
Qed.

Lemma scan_digits_stop rest n v :
  Forall (λ c, int_space c = true) rest →
  scan_digits false n v (ascii_of <$> rest) = Some (n, v, ascii_of <$> rest).
Proof.
  destruct rest as [|c rest]; [done|]. intros [Hc _]%Forall_cons.
  rewrite fmap_cons. cbn [scan_digits].
  destruct (space_class c Hc) as [_ _ Hs|d Hd ?| -> ?| -> ?| -> ?];
    [|congruence|by vm_compute in Hc..].
  by destruct (class_space_ascii _ Hs) as (-> & _ & _ & ->).
Qed.

Lemma scan_digits_underscored text ds rest :
  underscored text ds → Forall (λ c, int_space c = true) rest →
  ∀ prev n v,
    scan_digits prev n v (ascii_of <$> (text ++ rest))
    = Some ((n + N.of_nat (length ds))%N,
            fold_left (λ acc c, 10 * acc + digit_of c)%Z ds v,
            ascii_of <$> rest).
Proof.
  intros Htext Hrest.
  induction Htext as [c Hc|c text ds Hc _ IH|c text ds Hc _ IH];
    intros prev n v.
  - simpl app. rewrite fmap_cons, scan_digits_digit by done.
    rewrite scan_digits_stop by done. simpl. by rewrite N.add_1_r, <- N.add_1_r.
  - rewrite <- app_comm_cons, fmap_cons, scan_digits_digit by done.
    rewrite IH. simpl. do 3 f_equal. lia.
  - rewrite <- !app_comm_cons, !fmap_cons, scan_digits_digit by done.
    change (ascii_of 95) with 95%N. cbn [scan_digits].
    change (ascii_digit 95) with false. change (95 =? 95)%N with true.
    cbv iota. rewrite IH. simpl. do 3 f_equal. lia.
Qed.

(** [int] accepts exactly the texts of integers. *)
Lemma PyLong_FromString_integer_text u z :
  PyLong_FromString (to_ascii u) = Some z ↔ integer_text u z.
Proof.
  split.
  - intros Hz. pose proof (accepted_int_chars u z Hz) as Hu.
    rewrite (to_ascii_int_chars u Hu) in Hz. unfold PyLong_FromString in Hz.
    destruct (skip_space_fmap u Hu) as (before & u1 & -> & Hbefore & Hskip).
    rewrite Hskip in Hz. apply Forall_app in Hu as [_ Hu1].
    destruct (skip_sign (ascii_of <$> u1)) as [negative str] eqn:Hsign.
    destruct (skip_sign_fmap _ _ _ Hu1 Hsign) as (sign & u2 & -> & -> & Hsg).
    apply Forall_app in Hu1 as [_ Hu2].
    destruct (starts_with_underscore (ascii_of <$> u2)) eqn:Hstart; [done|].
    destruct (scan_digits false 0 0 (ascii_of <$> u2))
      as [[[digits value] r]|] eqn:Hscan; [|done].
    destruct (int_max_str_digits <? digits)%N eqn:Hlimit; [done|].
    destruct (digits =? 0)%N eqn:Hzero; [done|].
    apply N.ltb_ge in Hlimit. apply N.eqb_neq in Hzero.
    destruct (scan_digits_fmap_inv _ _ _ _ _ _ _ Hu2 Hscan)
      as [(_ & ? & _)
         |(us & text & ds & after & -> & -> & Hus & Htext & -> & ->)];
      [done|].
    destruct Hus as [->|[-> _]]; [|by vm_compute in Hstart].
    apply Forall_app in Hu2 as [_ [_ Hafter]%Forall_app].
    destruct (skip_space_fmap after Hafter) as (ws & rest & -> & Hws & Hrest).
    rewrite Hrest in Hz. destruct rest as [|c rest]; [|done].
    rewrite app_nil_r in *. injection Hz as <-.
    exists before, sign, text, ds, ws.
    split_and!; [done|done|done|done|by rewrite N.add_0_l in Hlimit|].
    fold (digits_value ds). destruct Hsg as [[Hs ->]|[Hs ->]]; by auto.
  - intros (before & sign & text & ds & after
            & -> & Hbefore & Hafter & Htext & Hlimit & Hz).
    destruct (underscored_inv _ _ Htext) as ((c & t & Ht & Hc) & Hds & Hchars).
    assert (Forall (λ c, int_char c = true)
              (before ++ sign ++ text ++ after)) as Hu.
    { rewrite !Forall_app. split_and!; [| |done|].
      - eapply Forall_impl; [done|]. apply space_int_char.
      - destruct Hz as [[[->| ->] _]|[-> _]]; by repeat constructor.
      - eapply Forall_impl; [done|]. apply space_int_char. }
    rewrite (to_ascii_int_chars _ Hu). unfold PyLong_FromString.
    destruct (is_decimal_inv c Hc) as (d & Hd).
    destruct (decimal_facts c d Hd) as (Ha & Hlt & _).
    destruct (class_digit_ascii d Hlt) as (Hsp & _ & H43 & H45 & H95).
    assert (skip_sign (ascii_of <$> (sign ++ text ++ after))
            = (bool_decide (sign = [45%N]), ascii_of <$> (text ++ after)))
      as Hsign.
    { destruct Hz as [[[->| ->] _]|[-> _]]; [|done|done].
      rewrite Ht. simpl. by rewrite Ha, H43, H45. }
    rewrite skip_space_spaces, Hsign; [|done|].
    2:{ destruct Hz as [[[->| ->] _]|[-> _]]; [|done|done].
        rewrite Ht. simpl. by rewrite Ha. }
    assert (starts_with_underscore (ascii_of <$> (text ++ after)) = false) as ->.
    { rewrite Ht. simpl. by rewrite Ha. }
    rewrite (scan_digits_underscored text ds after Htext Hafter).
    rewrite N.add_0_l, (proj2 (N.ltb_ge _ _)) by done.
    assert ((N.of_nat (length ds) =? 0)%N = false) as ->.
    { apply N.eqb_neq. destruct ds; [done|]. simpl. lia. }
    rewrite <- (app_nil_r after), skip_space_spaces by done. simpl.
    fold (digits_value ds).
    destruct Hz as [[[->| ->] ->]|[-> ->]]; done.
Qed.

Lemma py_int_str_integer_text s z :
  py_int_str s = Ok z ↔ integer_text (code_points s) z.
Proof.
  rewrite <- PyLong_FromString_integer_text. unfold py_int_str.
  destruct (PyLong_FromString _) as [z'|]; [|done].
  split; [by intros [= ->]|by intros [= ->]].
Qed.

End IntegerText.


(** ** The quantity rule *)

Lemma non_numeric_not_one s : non_numeric s → s ≠ "1".
Proof.
  intros Hs ->. revert Hs. unfold non_numeric.
  apply (bool_decide_unpack _). vm_compute. exact I.
Qed.

Lemma create_stocks_raise_inv ws ids :
  (∃ e ids', Seller.create_stocks_for ws [] ids = (Raise e, ids')) →
  ∃ e ids', Seller.create_stocks ws ids = (Raise e, ids').
Proof. intros (e & ids' & H). rewrite create_stocks_unfold, H. eauto. Qed.

(** A matched row: the first with its code, the code being in the list.
    The entry of the row carries the normalised quantity; if the quantity
    is refused, so is the feed. *)
Lemma create_stocks_matched_row pre w post ids :
  code w ∈ ids → code w ∉ code <$> pre →
  (∀ out ids', Seller.create_stocks (pre ++ w :: post) ids = (Ok out, ids') →
     ∃ n, normalize_quantity (quantity w) = Ok n
       ∧ Seller.Stock (code w) n ∈ out)
  ∧ (∀ e, normalize_quantity (quantity w) = Raise e →
     ∃ e' ids', Seller.create_stocks (pre ++ w :: post) ids = (Raise e', ids')).
Proof.
  intros Hin Hpre. split.
  - intros out ids' (new & Hfor & ->)%create_stocks_inv.
    rewrite create_stocks_for_app in Hfor.
    destruct (Seller.create_stocks_for pre [] ids) as [[acc1|e] ids1] eqn:Hp;
      [|done].
    pose proof (create_stocks_for_keeps _ _ _ _ _ _ Hp Hin Hpre) as Hin1.
    rewrite create_stocks_for_cons, decide_True in Hfor by done.
    destruct (normalize_quantity _) as [n|]; [|done].
    destruct (list_remove _ ids1) as [ids2|] eqn:Hrm; [|done].
    apply create_stocks_for_ok in Hfor as (new2 & -> & _ & _).
    exists n. split; [done|].
    rewrite !elem_of_app, list_elem_of_singleton. auto.
  - intros e He. apply create_stocks_raise_inv.
    rewrite create_stocks_for_app.
    destruct (Seller.create_stocks_for pre [] ids) as [[acc1|e1] ids1] eqn:Hp;
      [|by eauto].
    pose proof (create_stocks_for_keeps _ _ _ _ _ _ Hp Hin Hpre) as Hin1.
    rewrite create_stocks_for_cons, decide_True, He by done. eauto.
Qed.

(** C2.  For a row whose code is in the identifier list when the loop
    reaches it, the count follows the rule, in this order: quantity [">10"]
    gives 100; else quantity ["1"] gives 0; else the quantity goes through
    [int].  [int] returns [z] exactly on the texts of [z]: digits of any
    script with single underscores between them, at most 4300 digits,
    after an optional sign and between white space; on any other string it
    raises [ValueError].  So a numeral is read as its decimal value (["7"]
    gives 7) and, after a minus sign, as the opposite; a numeral of more
    than 4300 digits is refused, and so is a descriptor that is not
    numeric: one that holds a character other than these, or no digit.
    The entry returned for the row carries the count of the rule; a refused
    quantity makes the call raise; and the call returns when every row
    whose code is in the list carries a quantity the rule accepts.  Both
    variants. *)
Theorem create_stocks_quantity_rule
    (pre post : list (gmap string pyval)) (w : gmap string pyval)
    (ids : list string) (wh date : string) :
  code w ∈ ids → code w ∉ code <$> pre →
  (py_str (quantity w) = ">10" → normalize_quantity (quantity w) = Ok 100%Z)
  ∧ (py_str (quantity w) = "1" → normalize_quantity (quantity w) = Ok 0%Z)
  ∧ (py_str (quantity w) ≠ ">10" → py_str (quantity w) ≠ "1" →
     normalize_quantity (quantity w) = py_int (quantity w))
  ∧ py_int (VStr "7") = Ok 7%Z
  ∧ py_int (VStr "٣") = Ok 3%Z
  ∧ (∀ s z, py_int (VStr s) = Ok z ↔ integer_text (code_points s) z)
  ∧ (∀ s e, py_int (VStr s) = Raise e → e = ValueError)
  ∧ (∀ s, s ≠ EmptyString → all_digits s → within_digit_limit s →
     py_int (VStr s) = Ok (decimal s)
     ∧ py_int (VStr (String "-" s)) = Ok (- decimal s)%Z)
  ∧ (∀ s, all_digits s → ¬ within_digit_limit s →
     py_int (VStr s) = Raise ValueError)
  ∧ (∀ s, non_numeric s → s ≠ ">10" → quantity w = VStr s →
     normalize_quantity (quantity w) = Raise ValueError)
  ∧ (∀ out ids', Seller.create_stocks (pre ++ w :: post) ids = (Ok out, ids') →
     ∃ n, normalize_quantity (quantity w) = Ok n
       ∧ Seller.Stock (code w) n ∈ out)
  ∧ (∀ out ids',
       Market.create_stocks (pre ++ w :: post) ids wh date = (Ok out, ids') →
     ∃ n, normalize_quantity (quantity w) = Ok n
       ∧ Market.Sku (code w) wh [Market.Item n "FIT" date] ∈ out)
  ∧ (∀ e, normalize_quantity (quantity w) = Raise e →
     (∃ e' ids', Seller.create_stocks (pre ++ w :: post) ids = (Raise e', ids'))
     ∧ (∃ e' ids',
          Market.create_stocks (pre ++ w :: post) ids wh date = (Raise e', ids')))
  ∧ (quantities_parse (pre ++ w :: post) ids →
     (∃ out ids', Seller.create_stocks (pre ++ w :: post) ids = (Ok out, ids'))
     ∧ (∃ out ids',
          Market.create_stocks (pre ++ w :: post) ids wh date = (Ok out, ids'))).
Proof.
  intros Hin Hpre.
  destruct (create_stocks_matched_row pre w post ids Hin Hpre) as [Hok Hraise].
  unfold normalize_quantity. split_and!.
  - intros ->. done.
  - intros ->. done.
  - intros H10 H1. by rewrite !decide_False.
  - vm_compute. reflexivity.
  - vm_compute. reflexivity.
  - intros s z. apply py_int_str_integer_text.
  - intros s e. apply py_int_str_error.
  - intros s Hne Hs Hfit.
    destruct (py_int_str_numeral s Hne Hs) as [Hplain Hminus].
    rewrite decide_True in Hplain, Hminus by done. done.
  - intros s Hs Hbig.
    assert (s ≠ EmptyString) as Hne.
    { intros ->. apply Hbig. unfold within_digit_limit, int_max_str_digits.
      simpl. lia. }
    destruct (py_int_str_numeral s Hne Hs) as [Hplain _].
    rewrite decide_False in Hplain by done. done.
  - intros s Hs H10 ->. pose proof (non_numeric_not_one s Hs) as H1.
    simpl. rewrite !decide_False by done. by apply py_int_str_non_numeric.
  - done.
  - intros out ids' (out0 & Hout & ->)%market_create_stocks_inv.
    destruct (Hok _ _ Hout) as (n & Hn & Hmem). exists n. split; [done|].
    by apply (list_elem_of_fmap_2 (to_market wh date)) in Hmem.
  - intros e He. destruct (Hraise e He) as (e' & ids' & Hr). split; [eauto|].
    rewrite market_create_stocks_sim, Hr. eauto.
  - intros Hq.
    destruct (create_stocks_returns _ ids (quantities_parse_spec _ _ Hq))
      as (out & ids' & Hout).
    split; [by eauto|]. rewrite market_create_stocks_sim, Hout. simpl. eauto.
Qed.

Lemma create_stocks_quantity_rule_witness :
  Seller.create_stocks
    ([row (VStr "A") (VStr ">10") (VStr "100.00 x")]
       ++ row (VStr "B") (VStr "7") (VStr "50.00 x") :: []) ["A"; "B"]
    = (Ok [Seller.Stock "A" 100; Seller.Stock "B" 7], [])
  ∧ (∃ n, normalize_quantity (VStr "7") = Ok n
      ∧ Seller.Stock "B" n ∈ [Seller.Stock "A" 100; Seller.Stock "B" 7])
  ∧ normalize_quantity (VStr "5 шт") = Raise ValueError.
Proof.
  split; [vm_compute; reflexivity|]. split.
  - destruct (create_stocks_quantity_rule
      [row (VStr "A") (VStr ">10") (VStr "100.00 x")] []
      (row (VStr "B") (VStr "7") (VStr "50.00 x")) ["A"; "B"] "wh" "now")
      as (_ & _ & _ & _ & _ & _ & _ & _ & _ & _ & Hentry & _).
    + apply (bool_decide_unpack _). vm_compute. exact I.
    + apply (bool_decide_unpack _). vm_compute. exact I.
    + apply (Hentry _ []). vm_compute. reflexivity.
  - destruct (create_stocks_quantity_rule
      [] [] (row (VStr "B") (VStr "5 шт") (VStr "50.00 x")) ["B"] "wh" "now")
      as (_ & _ & _ & _ & _ & _ & _ & _ & _ & Hrefused & _).
    + apply (bool_decide_unpack _). vm_compute. exact I.
    + apply (bool_decide_unpack _). vm_compute. exact I.
    + apply (Hrefused "5 шт").
      * unfold non_numeric. apply (bool_decide_unpack _). vm_compute. exact I.
      * done.
      * vm_compute. reflexivity.
Defined.

(** ** [price_conversion] *)

Section PriceConversion.

Lemma is_digit_class c :
  is_digit c = bool_decide (c ∈ chars "0123456789").
Proof. destruct c as [[] [] [] [] [] [] [] []]; vm_compute; reflexivity. Qed.

Lemma py_split_head s : head (py_split "." s) = Some (before_dot s).
Proof.
  induction s as [|c s IH]; [done|]. simpl.
  destruct (Ascii.eqb c "."); [done|].
  destruct (py_split "." s) as [|piece pieces]; [done|].
  simpl in *. by injection IH as ->.
Qed.

Lemma before_dot_no_dot s : "."%char ∉ chars (before_dot s).
Proof.
  induction s as [|c s IH]; [apply not_elem_of_nil|]. simpl.
  destruct (Ascii.eqb c ".") eqn:Hc; [apply not_elem_of_nil|].
  unfold chars in *. simpl. apply not_elem_of_cons. split; [|done].
  intros <-. by vm_compute in Hc.
Qed.

(** [before_dot s] is [s] up to its first ['.'], all of [s] if it has none. *)
Lemma before_dot_prefix s :
  (chars (before_dot s) = chars s ∧ "."%char ∉ chars s)
  ∨ ∃ rest, chars s = chars (before_dot s) ++ "."%char :: rest.
Proof.
  induction s as [|c s IH]; [left; split; [done|apply not_elem_of_nil]|].
  simpl. destruct (Ascii.eqb c ".") eqn:Hc.
  - apply Ascii.eqb_eq in Hc as ->. right. by exists (chars s).
  - unfold chars in *. simpl. destruct IH as [[Heq Hno]|[rest Hrest]].
    + left. split; [by rewrite Heq|]. apply not_elem_of_cons. split; [|done].
      intros <-. by vm_compute in Hc.
    + right. exists rest. by rewrite Hrest.
Qed.

Lemma re_sub_non_digits_chars s :
  chars (re_sub_non_digits s) = filter (λ c, is_digit c = true) (chars s).
Proof.
  induction s as [|c s IH]; [done|]. unfold chars in *. simpl.
  rewrite filter_cons. destruct (is_digit c) eqn:Hc; simpl.
  - by rewrite IH.
  - done.
Qed.

Lemma re_sub_non_digits_all_digits s : all_digits (re_sub_non_digits s).
Proof.
  unfold all_digits. rewrite re_sub_non_digits_chars.
  apply Forall_forall. by intros c [Hc _]%list_elem_of_filter.
Qed.

Lemma price_conversion_str s :
  Seller.price_conversion (VStr s) = Ok (re_sub_non_digits (before_dot s)).
Proof.
  unfold Seller.price_conversion, index0. by rewrite py_split_head.
Qed.

Lemma re_sub_non_digits_no_digit s :
  no_digit s → re_sub_non_digits s = EmptyString.
Proof.
  induction s as [|c s IH]; [done|]. intros [Hc Hs]%no_digit_cons.
  simpl. rewrite Hc. by apply IH.
Qed.

End PriceConversion.

(** C3.  On every string [price_conversion] returns a string [r]: the
    characters of [r] are those of the portion before the first ['.'] of the
    input (the whole input when it has no ['.']) that are ASCII digits 0-9,
    in order, so [r] holds digits only.  ["5'990.00 руб."] gives ["5990"],
    ["1200 руб."] gives ["1200"] and ["invalid string"] gives the empty
    string. *)
Theorem price_conversion_digits_before_dot (s : string) :
  (∃ r, Seller.price_conversion (VStr s) = Ok r
     ∧ chars r = filter (λ c, is_digit c = true) (chars (before_dot s))
     ∧ all_digits r)
  ∧ ((chars (before_dot s) = chars s ∧ "."%char ∉ chars s)
     ∨ ∃ rest, chars s = chars (before_dot s) ++ "."%char :: rest)
  ∧ ("."%char ∉ chars (before_dot s))
  ∧ (∀ c, is_digit c = true ↔ c ∈ chars "0123456789")
  ∧ Seller.price_conversion (VStr "5'990.00 руб.") = Ok "5990"
  ∧ Seller.price_conversion (VStr "1200 руб.") = Ok "1200"
  ∧ Seller.price_conversion (VStr "invalid string") = Ok EmptyString.
Proof.
  split_and!.
  - exists (re_sub_non_digits (before_dot s)). split_and!.
    + apply price_conversion_str.
    + apply re_sub_non_digits_chars.
    + apply re_sub_non_digits_all_digits.
  - apply before_dot_prefix.
  - apply before_dot_no_dot.
  - intros c. rewrite is_digit_class. apply bool_decide_eq_true.
  - vm_compute. reflexivity.
  - vm_compute. reflexivity.
  - vm_compute. reflexivity.
Qed.

(** ** [divide] *)

Section Divide.

Context {A : Type}.
Implicit Types (lst : list A).

Lemma py_slice_nonneg lst (i m : Z) :
  (0 ≤ i)%Z → (0 ≤ m)%Z →
  py_slice lst i (i + m) = take (Z.to_nat m) (drop (Z.to_nat i) lst).
Proof.
  intros Hi Hm. unfold py_slice, clamp_index.
  rewrite !decide_False by lia.
  destruct (decide (Z.of_nat (length lst) ≤ i)%Z) as [Hge|Hlt].
  - rewrite !Z.min_r by lia. rewrite Z.sub_diag, Nat2Z.id. simpl.
    rewrite (drop_ge lst (Z.to_nat i)) by lia. by rewrite take_nil.
  - rewrite (Z.min_l i) by lia.
    destruct (decide (i + m ≤ Z.of_nat (length lst))%Z) as [Hfit|Hover].
    + rewrite Z.min_l by lia. f_equal. lia.
    + rewrite Z.min_r by lia.
      rewrite !take_ge; [done|rewrite length_drop; lia..].
Qed.

Lemma divide_chunks lst (n : Z) :
  (0 < n)%Z →
  Seller.divide lst n
    = Ok (chunk_at lst (Z.to_nat n) <$> seq 0 (chunk_count (length lst) n)).
Proof.
  intros Hn. unfold Seller.divide, py_range.
  rewrite decide_False, decide_True by lia. simpl. f_equal.
  unfold seqZ, chunk_count. rewrite Z.sub_0_r.
  rewrite <- !list_fmap_compose. apply list_fmap_ext. intros _ k _. simpl.
  replace (0 + (Z.of_nat k + 0) * n)%Z with (Z.of_nat k * n)%Z by lia.
  rewrite py_slice_nonneg by lia. unfold chunk_at. do 2 f_equal. lia.
Qed.

Lemma concat_chunks lst (n c : nat) :
  concat (chunk_at lst n <$> seq 0 c) = take (c * n) lst.
Proof.
  induction c as [|c IH]; [done|].
  rewrite seq_S, fmap_app, concat_app, IH. simpl. rewrite app_nil_r.
  unfold chunk_at. rewrite take_take_drop. f_equal. lia.
Qed.

(** The slices reach the end of the list and none starts beyond it. *)
Lemma chunk_count_bounds (len : nat) (n : Z) :
  (0 < n)%Z →
  len ≤ chunk_count len n * Z.to_nat n
  ∧ (0 < len → (chunk_count len n - 1) * Z.to_nat n < len)
  ∧ (len = 0 → chunk_count len n = 0).
Proof.
  intros Hn. unfold chunk_count.
  pose proof (Z.div_mod (Z.of_nat len + n - 1) n ltac:(lia)) as Hdm.
  pose proof (Z.mod_pos_bound (Z.of_nat len + n - 1) n Hn) as Hmod.
  set (q := ((Z.of_nat len + n - 1) `div` n)%Z) in *.
  assert (0 ≤ q)%Z by (apply Z.div_pos; lia).
  split_and!.
  - apply Nat2Z.inj_le. rewrite Nat2Z.inj_mul, !Z2Nat.id by lia. nia.
  - intros Hlen. apply Nat2Z.inj_lt.
    rewrite Nat2Z.inj_mul, Nat2Z.inj_sub, !Z2Nat.id by (try lia; nia). nia.
  - intros ->. assert (q = 0)%Z as -> by nia. done.
Qed.

End Divide.

(** C4.  For [n > 0], [divide lst n] yields the slices of [lst] that
    start at [0], [n], [2n], ... in this order: chunk [k] is the [n]
    elements from position [k * n] on, so the chunks follow one another
    without gap or overlap; each has length [n] except the last, whose
    length is between 1 and [n]; the empty list gives no chunk; and the
    chunks concatenated are [lst].  2500 elements and [n = 1000] give
    chunks of 1000, 1000 and 500 elements. *)
Theorem divide_partitions {A} (lst : list A) (n : Z) :
  (0 < n)%Z →
  (∃ chunks, Seller.divide lst n = Ok chunks
     ∧ concat chunks = lst
     ∧ (∀ k c, chunks !! k = Some c →
          c = take (Z.to_nat n) (drop (k * Z.to_nat n) lst)
          ∧ 1 ≤ length c ≤ Z.to_nat n
          ∧ (S k < length chunks → length c = Z.to_nat n))
     ∧ (lst = [] → chunks = []))
  ∧ (∃ chunks, Seller.divide (seq 1 2500) 1000 = Ok chunks
       ∧ length <$> chunks = [1000; 1000; 500]).
Proof.
  intros Hn. split.
  - eexists. split; [by apply divide_chunks|].
    destruct (chunk_count_bounds (length lst) n Hn) as (Hcover & Hlast & Hnil).
    set (cnt := chunk_count (length lst) n) in *.
    split_and!.
    + rewrite concat_chunks. apply take_ge. lia.
    + intros k c Hk.
      apply list_lookup_fmap_Some in Hk as (k' & -> & [-> Hlt]%lookup_seq).
      simpl in *. split; [done|].
      unfold chunk_at. rewrite length_take, length_drop, length_fmap, length_seq.
      assert (0 < length lst) as Hpos.
      { destruct (decide (length lst = 0)) as [Hz|]; [|lia].
        specialize (Hnil Hz). lia. }
      specialize (Hlast Hpos). split; [nia|]. intros Hk. nia.
    + intros ->. by rewrite (Hnil eq_refl).
  - eexists. split; [vm_compute; reflexivity|]. vm_compute. reflexivity.
Qed.

Lemma divide_partitions_witness :
  ∃ chunks, Seller.divide [1; 2; 3; 4; 5; 6; 7] 3 = Ok chunks
    ∧ concat chunks = [1; 2; 3; 4; 5; 6; 7].
Proof.
  destruct (divide_partitions [1; 2; 3; 4; 5; 6; 7] 3 ltac:(lia))
    as [(chunks & Hdiv & Hcat & _) _].
  exists chunks. by split.
Defined.

(** ** Runs and the chunks they send *)

Section Preserves.

Context {E : Type} (P : E → Prop).

Lemma preserves_ret {A} (a : A) : preserves P (Run.ret (E:=E) a).
Proof. by intros tr tr' r [= <- _]. Qed.

Lemma preserves_lift {A} (r : result A) : preserves P (Run.lift (E:=E) r).
Proof. by intros tr tr' r' [= <- _]. Qed.

Lemma preserves_clock {A} (reading : nat → A) :
  preserves P (Run.clock (E:=E) reading).
Proof. by intros tr tr' r' [= <- _]. Qed.

Lemma preserves_call_without_await {A} (coroutine : Run.M E A) :
  preserves P (Run.call_without_await coroutine).
Proof. by intros tr tr' r' [= <- _]. Qed.

Lemma preserves_bind {A B} (m : Run.M E A) (k : A → Run.M E B) :
  preserves P m → (∀ a, preserves P (k a)) → preserves P (Run.bind m k).
Proof.
  intros Hm Hk tr tr' r. unfold Run.bind.
  destruct (m tr) as [tr1 [a|e]] eqn:Hrun.
  - intros Hka Htr. eapply Hk; [done|]. by eapply Hm.
  - intros [= <- _] Htr. by eapply Hm.
Qed.

(** After a pure step the rest of the run knows what the step returned. *)
Lemma preserves_bind_lift {A B} (r : result A) (k : A → Run.M E B) :
  (∀ a, r = Ok a → preserves P (k a)) → preserves P (Run.bind (Run.lift r) k).
Proof.
  intros Hk tr tr' r'. unfold Run.bind, Run.lift.
  destruct r as [a|e]; [by apply Hk|]. by intros [= <- _].
Qed.

Lemma preserves_emit (outcome : nat → option exn) (ev : E) :
  P ev → preserves P (Run.emit outcome ev).
Proof.
  intros Hev tr tr' r [= <- _] Htr. apply Forall_app. split; [done|].
  by apply Forall_singleton.
Qed.

Lemma preserves_for_each {A} (l : list A) (body : A → Run.M E unit) :
  Forall (λ x, preserves P (body x)) l → preserves P (Run.for_each l body).
Proof.
  induction 1 as [|x l Hx Hl IH]; [apply preserves_ret|].
  simpl. apply preserves_bind; [done|]. by intros _.
Qed.

Lemma preserves_try_except (m : Run.M E unit) (report : exn → E) :
  preserves P m → (∀ e, P (report e)) → preserves P (Run.try_except m report).
Proof.
  intros Hm Hrep tr tr' r. unfold Run.try_except.
  destruct (m tr) as [tr1 [a|e]] eqn:Hrun.
  - intros [= <- _] Htr. by eapply Hm.
  - intros [= <- _] Htr. apply Forall_app. split; [by eapply Hm|].
    by apply Forall_singleton.
Qed.

Lemma preserves_events {A} (m : Run.M E A) :
  preserves P m → Forall P (Run.events m).
Proof.
  intros Hm. unfold Run.events. destruct (m []) as [tr r] eqn:Hrun.
  by eapply Hm.
Qed.

End Preserves.

Lemma divide_chunk_lengths {A} (lst : list A) (n : Z) chunks :
  (0 < n)%Z → Seller.divide lst n = Ok chunks →
  Forall (λ c, length c ≤ Z.to_nat n) chunks.
Proof.
  intros Hn. rewrite divide_chunks by done. intros [= <-].
  apply Forall_fmap, Forall_forall. intros k _. simpl.
  unfold chunk_at. rewrite length_take. lia.
Qed.

Section Uploads.

Variable env_str : string → result string.
Variable get_offer_ids : string → string → result (list string).
Variable download_stock : result (list (gmap string pyval)).
Variable utcnow : nat → string.
Variable http : nat → option exn.

Lemma seller_stock_chunks stocks (n : Z) (pmax : nat) chunks cid tok :
  (0 < n)%Z → Seller.divide stocks n = Ok chunks →
  preserves (seller_within (Z.to_nat n) pmax)
    (Run.for_each chunks (λ c, Seller.update_stocks http c cid tok)).
Proof.
  intros Hn Hdiv. apply preserves_for_each.
  eapply Forall_impl; [by eapply divide_chunk_lengths|].
  intros c Hc. by apply preserves_emit.
Qed.

Lemma seller_price_chunks prices (n : Z) (smax : nat) chunks cid tok :
  (0 < n)%Z → Seller.divide prices n = Ok chunks →
  preserves (seller_within smax (Z.to_nat n))
    (Run.for_each chunks (λ c, Seller.update_price http c cid tok)).
Proof.
  intros Hn Hdiv. apply preserves_for_each.
  eapply Forall_impl; [by eapply divide_chunk_lengths|].
  intros c Hc. by apply preserves_emit.
Qed.

Lemma market_stock_chunks stocks (n : Z) (pmax : nat) chunks cid tok :
  (0 < n)%Z → Seller.divide stocks n = Ok chunks →
  preserves (market_within (Z.to_nat n) pmax)
    (Run.for_each chunks (λ c, Market.update_stocks http c cid tok)).
Proof.
  intros Hn Hdiv. apply preserves_for_each.
  eapply Forall_impl; [by eapply divide_chunk_lengths|].
  intros c Hc. by apply preserves_emit.
Qed.

Lemma market_price_chunks prices (n : Z) (smax : nat) chunks cid tok :
  (0 < n)%Z → Seller.divide prices n = Ok chunks →
  preserves (market_within smax (Z.to_nat n))
    (Run.for_each chunks (λ c, Market.update_price http c cid tok)).
Proof.
  intros Hn Hdiv. apply preserves_for_each.
  eapply Forall_impl; [by eapply divide_chunk_lengths|].
  intros c Hc. by apply preserves_emit.
Qed.

Lemma seller_main_within :
  preserves (seller_within 100 900)
    (Seller.main env_str get_offer_ids download_stock http).
Proof.
  unfold Seller.main.
  apply preserves_bind; [apply preserves_lift|intros seller_token].
  apply preserves_bind; [apply preserves_lift|intros client_id].
  apply preserves_try_except; [|by intros []].
  apply preserves_bind; [apply preserves_lift|intros ids].
  apply preserves_bind; [apply preserves_lift|intros feed].
  destruct (Seller.create_stocks feed ids) as [r ids'].
  apply preserves_bind; [apply preserves_lift|intros stocks].
  apply preserves_bind_lift. intros chunks Hchunks.
  apply preserves_bind;
    [by apply (seller_stock_chunks stocks 100 900 chunks)|intros _].
  apply preserves_bind; [apply preserves_lift|intros prices].
  apply preserves_bind_lift. intros pchunks Hpchunks.
  by apply (seller_price_chunks prices 900 100 pchunks).
Qed.

Lemma seller_upload_prices_within feed cid tok :
  preserves (seller_within 100 1000)
    (Seller.upload_prices get_offer_ids http feed cid tok).
Proof.
  unfold Seller.upload_prices.
  apply preserves_bind; [apply preserves_lift|intros ids].
  apply preserves_bind; [apply preserves_lift|intros prices].
  apply preserves_bind_lift. intros chunks Hchunks.
  apply preserves_bind; [|intros _; apply preserves_ret].
  by apply (seller_price_chunks prices 1000 100 chunks).
Qed.

Lemma seller_upload_stocks_within feed cid tok :
  preserves (seller_within 100 1000)
    (Seller.upload_stocks get_offer_ids http feed cid tok).
Proof.
  unfold Seller.upload_stocks.
  apply preserves_bind; [apply preserves_lift|intros ids].
  apply preserves_bind; [apply preserves_lift|intros stocks].
  apply preserves_bind_lift. intros chunks Hchunks.
  apply preserves_bind; [|intros _; apply preserves_ret].
  by apply (seller_stock_chunks stocks 100 1000 chunks).
Qed.

Lemma market_upload_prices_within feed cid tok :
  preserves (market_within 2000 500)
    (Market.upload_prices get_offer_ids http feed cid tok).
Proof.
  unfold Market.upload_prices.
  apply preserves_bind; [apply preserves_lift|intros ids].
  apply preserves_bind; [apply preserves_lift|intros prices].
  apply preserves_bind_lift. intros chunks Hchunks.
  apply preserves_bind; [|intros _; apply preserves_ret].
  by apply (market_price_chunks prices 500 2000 chunks).
Qed.

Lemma market_upload_stocks_within feed cid tok wh :
  preserves (market_within 2000 500)
    (Market.upload_stocks get_offer_ids utcnow http feed cid tok wh).
Proof.
  unfold Market.upload_stocks.
  apply preserves_bind; [apply preserves_lift|intros ids].
  apply preserves_bind; [apply preserves_clock|intros date].
  apply preserves_bind; [apply preserves_lift|intros stocks].
  apply preserves_bind_lift. intros chunks Hchunks.
  apply preserves_bind; [|intros _; apply preserves_ret].
  by apply (market_stock_chunks stocks 2000 500 chunks).
Qed.

Lemma market_account_within feed cid tok wh (rest : Run.M Market.event unit) :
  preserves (market_within 2000 500) rest →
  preserves (market_within 2000 500)
    (Run.bind (Run.lift (get_offer_ids cid tok)) (λ offer_ids,
     Run.bind (Run.clock utcnow) (λ date,
       let (stocks, offer_ids) := Market.create_stocks feed offer_ids wh date in
       Run.bind (Run.lift stocks) (λ stocks,
       Run.bind (Run.lift (Seller.divide stocks 2000)) (λ chunks,
       Run.bind (Run.for_each chunks (λ some_stock,
                   Market.update_stocks http some_stock cid tok)) (λ _,
       Run.bind (Run.call_without_await
                   (Market.upload_prices get_offer_ids http feed cid tok))
                (λ _, rest))))))).
Proof.
  intros Hrest.
  apply preserves_bind; [apply preserves_lift|intros ids].
  apply preserves_bind; [apply preserves_clock|intros date].
  destruct (Market.create_stocks feed ids wh date) as [r ids'].
  apply preserves_bind; [apply preserves_lift|intros stocks].
  apply preserves_bind_lift. intros chunks Hchunks.
  apply preserves_bind;
    [by apply (market_stock_chunks stocks 2000 500 chunks)|intros _].
  apply preserves_bind; [apply preserves_call_without_await|by intros _].
Qed.

Lemma market_main_within :
  preserves (market_within 2000 500)
    (Market.main env_str get_offer_ids download_stock utcnow http).
Proof.
  unfold Market.main.
  do 5 (apply preserves_bind; [apply preserves_lift|intros ?]).
  apply preserves_bind; [apply preserves_lift|intros feed].
  apply preserves_try_except; [|by intros []].
  apply market_account_within.
  apply preserves_bind; [apply preserves_lift|intros ids].
  apply preserves_bind; [apply preserves_clock|intros date].
  destruct (Market.create_stocks feed ids _ date) as [r ids'].
  apply preserves_bind; [apply preserves_lift|intros stocks].
  apply preserves_bind_lift. intros chunks Hchunks.
  apply preserves_bind;
    [by apply (market_stock_chunks stocks 2000 500 chunks)|intros _].
  apply preserves_call_without_await.
Qed.

End Uploads.

(** C9.  Whatever the marketplace and the feed answer, every request of a
    run stays within the batch limit of its endpoint.  Ozon: stock chunks
    hold at most 100 entries; price chunks at most 900 in [main] and at
    most 1000 in [upload_prices].  Yandex, for either account: stock chunks
    hold at most 2000 entries and price chunks at most 500. *)
Theorem chunks_respect_batch_limits
    (env_str : string → result string)
    (get_offer_ids : string → string → result (list string))
    (download_stock : result (list (gmap string pyval)))
    (utcnow : nat → string) (http : nat → option exn) :
  Forall (seller_within 100 900)
    (Run.events (Seller.main env_str get_offer_ids download_stock http))
  ∧ (∀ feed cid tok,
       Forall (seller_within 100 1000)
         (Run.events (Seller.upload_prices get_offer_ids http feed cid tok)))
  ∧ (∀ feed cid tok,
       Forall (seller_within 100 1000)
         (Run.events (Seller.upload_stocks get_offer_ids http feed cid tok)))
  ∧ Forall (market_within 2000 500)
      (Run.events (Market.main env_str get_offer_ids download_stock utcnow http))
  ∧ (∀ feed cid tok,
       Forall (market_within 2000 500)
         (Run.events (Market.upload_prices get_offer_ids http feed cid tok)))
  ∧ (∀ feed cid tok wh,
       Forall (market_within 2000 500)
         (Run.events
            (Market.upload_stocks get_offer_ids utcnow http feed cid tok wh))).
Proof.
  split_and!; intros; apply preserves_events.
  - apply seller_main_within.
  - apply seller_upload_prices_within.
  - apply seller_upload_stocks_within.
  - apply market_main_within.
  - apply market_upload_prices_within.
  - apply market_upload_stocks_within.
Qed.

(** 250 offers, none in the feed: the Ozon [main] sends their zero stock
    in requests of 100, 100 and 50 entries. *)
Example seller_main_splits_250_offers :
  let offers := (λ k : nat, pretty k) <$> seq 1 250 in
  (λ ev, match ev with
         | Seller.UpdateStocks stocks _ _ => length stocks
         | _ => 0
         end)
    <$> Run.events (Seller.main (λ name, Ok name) (λ _ _, Ok offers) (Ok [])
                                (λ _, None))
  = [100; 100; 50].
Proof. vm_compute. reflexivity. Qed.

(** ** The price pass of the orchestrators *)

Lemma seller_create_prices_for_unmatched ws acc ids :
  (∀ w, w ∈ ws → code w ∉ ids) → Seller.create_prices_for ws acc ids = Ok acc.
Proof.
  induction ws as [|w ws IH]; intros Hno; [done|].
  rewrite seller_create_prices_for_cons.
  rewrite decide_False by (apply Hno; left).
  apply IH. intros w' Hw'. apply Hno. by right.
Qed.

(** After [create_stocks] no code of the feed is left in the list, so
    [create_prices] on that list returns nothing. *)
Lemma create_prices_after_create_stocks feed ids out ids' :
  NoDup ids → Seller.create_stocks feed ids = (Ok out, ids') →
  Seller.create_prices feed ids' = Ok [].
Proof.
  intros Hnd (new & Hfor & _)%create_stocks_inv.
  apply create_stocks_for_left in Hfor; [|done]. subst ids'.
  apply seller_create_prices_for_unmatched.
  intros w Hw [Hno _]%list_elem_of_filter. apply Hno.
  by apply list_elem_of_fmap_2.
Qed.

(** C8, the code at a failing input.  One offer ["A"], present in the
    feed with a price.  The Ozon [main] sends its stock and no price
    request, since it hands [create_prices] the list that [create_stocks]
    has consumed; the Yandex [main] sends the stock of both accounts and no
    price request, since the coroutines of [upload_prices] are never
    awaited.  On the list as fetched, [create_prices] returns the price of
    ["A"] in both modules. *)
Theorem main_sends_no_price_for_matched_offer :
  let feed := [row (VStr "A") (VStr "5") (VStr "100.00 руб.")] in
  let env := λ name : string, Ok name in
  let get_offer_ids := λ _ _ : string, Ok ["A"] in
  Run.events (Seller.main env get_offer_ids (Ok feed) (λ _, None))
    = [Seller.UpdateStocks [Seller.Stock "A" 5] "CLIENT_ID" "SELLER_TOKEN"]
  ∧ Seller.create_prices feed ["A"]
    = Ok [Seller.Price "UNKNOWN" "RUB" "A" "0" "100"]
  ∧ Seller.create_prices feed (snd (Seller.create_stocks feed ["A"])) = Ok []
  ∧ Run.events (Market.main env get_offer_ids (Ok feed) (λ _, "now") (λ _, None))
    = [Market.UpdateStocks
         [Market.Sku "A" "WAREHOUSE_FBS_ID" [Market.Item 5 "FIT" "now"]]
         "FBS_ID" "MARKET_TOKEN";
       Market.UpdateStocks
         [Market.Sku "A" "WAREHOUSE_DBS_ID" [Market.Item 5 "FIT" "now"]]
         "DBS_ID" "MARKET_TOKEN"]
  ∧ Market.create_prices feed ["A"]
    = Ok [Market.Offer "A" (Market.PriceValue 100 "RUR")].
Proof. split_and!; vm_compute; reflexivity. Qed.

(** ** Prices without digits *)

Section EmptyPrice.

Implicit Types (w : gmap string pyval) (ws : list (gmap string pyval)).

Lemma is_str_inv v : is_str v = true → ∃ s, v = VStr s.
Proof. destruct v; [done..|eauto]. Qed.

(** On a feed whose prices are strings the Ozon loop completes, and every
    matched row has its entry. *)
Lemma seller_create_prices_for_strings ws acc ids :
  prices_are_strings ws →
  ∃ new, Seller.create_prices_for ws acc ids = Ok (acc ++ new)
    ∧ ∀ w p, w ∈ ws → code w ∈ ids → raw_price w = VStr p →
        Seller.Price "UNKNOWN" "RUB" (code w) "0"
                     (re_sub_non_digits (before_dot p)) ∈ new.
Proof.
  revert acc. induction ws as [|w ws IH]; intros acc Hstr.
  - exists []. split; [by rewrite app_nil_r|]. by intros w p ?%elem_of_nil.
  - apply Forall_cons in Hstr as [[s Hs]%is_str_inv Hstr].
    rewrite seller_create_prices_for_cons. destruct (decide _) as [Hin|Hnin].
    + rewrite Hs, price_conversion_str.
      destruct (IH (acc ++ [Seller.Price "UNKNOWN" "RUB" (code w) "0"
                              (re_sub_non_digits (before_dot s))]) Hstr)
        as (new & -> & Hnew).
      eexists (_ :: new). split; [by rewrite <- app_assoc|].
      intros w' p [->|Hw']%elem_of_cons Hc Hp.
      * rewrite Hs in Hp. injection Hp as ->. left.
      * right. by apply Hnew.
    + destruct (IH acc Hstr) as (new & -> & Hnew). exists new. split; [done|].
      intros w' p [->|Hw']%elem_of_cons Hc Hp; [done|]. by apply Hnew.
Qed.

(** On such a feed the Yandex loop raises [ValueError] as soon as a
    matched row has a price without digits before the first ['.']. *)
Lemma market_create_prices_for_empty ws acc ids w p :
  prices_are_strings ws →
  w ∈ ws → code w ∈ ids → raw_price w = VStr p → no_digit (before_dot p) →
  Market.create_prices_for ws acc ids = Raise ValueError.
Proof.
  intros Hstr Hw Hc Hp Hno. revert acc.
  induction ws as [|h ws IH]; intros acc; [by apply elem_of_nil in Hw|].
  apply Forall_cons in Hstr as [[s Hs]%is_str_inv Hstr].
  rewrite market_create_prices_for_cons. destruct (decide _) as [Hin|Hnin].
  - rewrite Hs, price_conversion_str. simpl.
    destruct (py_int_str _) as [number|e] eqn:Hint.
    + apply elem_of_cons in Hw as [->|Hw]; [|by apply IH].
      rewrite Hs in Hp. injection Hp as ->.
      rewrite (re_sub_non_digits_no_digit _ Hno) in Hint. by vm_compute in Hint.
    + by rewrite (py_int_str_error _ _ Hint).
  - apply elem_of_cons in Hw as [->|Hw]; [done|]. by apply IH.
Qed.

End EmptyPrice.

(** C10.  On a feed whose price cells are strings, let a row have its code
    in the identifier list and no digit before the first ['.'] of its
    price.  The Ozon [create_prices] returns normally and its list holds
    the entry of the row with the empty string as price; the Yandex
    [create_prices] raises [ValueError] and returns no list. *)
Theorem empty_price_ozon_returns_yandex_raises
    (feed : list (gmap string pyval)) (ids : list string)
    (w : gmap string pyval) (p : string) :
  prices_are_strings feed →
  w ∈ feed → code w ∈ ids → raw_price w = VStr p → no_digit (before_dot p) →
  (∃ prices, Seller.create_prices feed ids = Ok prices
     ∧ Seller.Price "UNKNOWN" "RUB" (code w) "0" EmptyString ∈ prices)
  ∧ Market.create_prices feed ids = Raise ValueError
  ∧ py_int (VStr EmptyString) = Raise ValueError.
Proof.
  intros Hstr Hw Hc Hp Hno. split_and!.
  - destruct (seller_create_prices_for_strings feed [] ids Hstr)
      as (new & Hnew & Hmem).
    exists new. split; [done|].
    pose proof (Hmem w p Hw Hc Hp) as Hentry.
    by rewrite (re_sub_non_digits_no_digit _ Hno) in Hentry.
  - by eapply market_create_prices_for_empty.
  - vm_compute. reflexivity.
Qed.

Lemma empty_price_ozon_returns_yandex_raises_witness :
  let good := row (VStr "A") (VStr "5") (VStr "100.00 руб.") in
  let bad := row (VStr "B") (VStr "2") (VStr "по запросу.") in
  (∃ prices, Seller.create_prices [good; bad] ["A"; "B"] = Ok prices
     ∧ Seller.Price "UNKNOWN" "RUB" "B" "0" EmptyString ∈ prices)
  ∧ Market.create_prices [good; bad] ["A"; "B"] = Raise ValueError.
Proof.
  intros good bad.
  destruct (empty_price_ozon_returns_yandex_raises
              [good; bad] ["A"; "B"] bad "по запросу.") as (Hozon & Hyandex & _).
  - apply (bool_decide_unpack _). vm_compute. exact I.
  - right. left.
  - apply (bool_decide_unpack _). vm_compute. exact I.
  - vm_compute. reflexivity.
  - apply (bool_decide_unpack _). vm_compute. exact I.
  - split; [exact Hozon|exact Hyandex].
Defined.

(** ** Further properties of [divide] *)

(** X1.  A chunk size of 0 makes [divide] raise [ValueError]; a negative
    chunk size makes it yield no chunk at all, whatever the list holds. *)
Theorem divide_nonpositive {A} (lst : list A) (n : Z) :
  (n ≤ 0)%Z →
  Seller.divide lst n = if decide (n = 0%Z) then Raise ValueError else Ok [].
Proof.
  intros Hn. unfold Seller.divide, py_range.
  destruct (decide (n = 0%Z)) as [->|Hne]; [done|].
  rewrite decide_False by lia. simpl.
  rewrite seqZ_nil; [done|].
  assert ((0 - Z.of_nat (length lst) - n - 1) `div` (- n) < 1)%Z; [|lia].
  apply Z.div_lt_upper_bound; lia.
Qed.

Lemma divide_nonpositive_witness :
  Seller.divide [1; 2; 3] (-2) = Ok [].
Proof. apply (divide_nonpositive [1; 2; 3] (-2)). lia. Defined.

(** ** Further properties of [create_stocks] *)

Section MoreStocks.

Implicit Types (w : gmap string pyval) (ws : list (gmap string pyval)).
Implicit Types (ids : list string).

Lemma create_stocks_for_listed ws acc ids ids0 :
  ids ⊆ ids0 →
  Seller.create_stocks_for ws acc ids
  = Seller.create_stocks_for (filter (λ w, code w ∈ ids0) ws) acc ids.
Proof.
  revert acc ids. induction ws as [|w ws IH]; intros acc ids Hsub; [done|].
  rewrite filter_cons. destruct (decide (code w ∈ ids0)) as [Hin0|Hnin0].
  - rewrite !create_stocks_for_cons. destruct (decide _); [|by apply IH].
    destruct (normalize_quantity _); [|done].
    destruct (list_remove _ ids) as [ids1|] eqn:Hrm; [|done].
    apply IH. etrans; [by eapply list_remove_subseteq|done].
  - rewrite create_stocks_for_cons, decide_False by (intros ?; by apply Hnin0, Hsub).
    by apply IH.
Qed.

(** The entries the loop appends, for a feed without repeated codes. *)
Lemma create_stocks_for_entries ws acc ids out ids' :
  NoDup (code <$> ws) →
  Seller.create_stocks_for ws acc ids = (Ok out, ids') →
  out = acc ++ ((λ w, Seller.Stock (code w) (count_of w))
                  <$> filter (λ w, code w ∈ ids) ws).
Proof.
  revert acc ids. induction ws as [|w ws IH]; intros acc ids Hnd.
  - intros [= <- _]. by rewrite app_nil_r.
  - rewrite fmap_cons in Hnd. apply NoDup_cons in Hnd as [Hw Hnd].
    rewrite create_stocks_for_cons, filter_cons.
    destruct (decide (code w ∈ ids)) as [Hin|Hnin]; [|by apply IH].
    destruct (normalize_quantity (quantity w)) as [n|] eqn:Hn; [|done].
    destruct (list_remove _ ids) as [ids1|] eqn:Hrm; [|done].
    assert (count_of w = n) as Hcount by (unfold count_of; by rewrite Hn).
    intros Hrest. apply IH in Hrest; [|done]. subst out.
    rewrite <- app_assoc, fmap_cons, Hcount. simpl. do 3 f_equal.
    apply filter_ext_in. intros w' Hw'. split.
    + intros Hc. by eapply (list_remove_subseteq _ _ _ Hrm).
    + intros Hc. eapply list_remove_other; [done..|].
      intros Heq. apply Hw. rewrite <- Heq. by apply list_elem_of_fmap_2.
Qed.

End MoreStocks.

(** X2.  Rows whose code is not in the identifier list never matter to
    [create_stocks]: the call gives the same result, exception and list
    state as on the feed without them, whatever their cells hold.  Both
    variants. *)
Theorem create_stocks_ignores_unlisted_rows
    (feed : list (gmap string pyval)) (ids : list string) (wh date : string) :
  Seller.create_stocks feed ids
    = Seller.create_stocks (filter (λ w, code w ∈ ids) feed) ids
  ∧ Market.create_stocks feed ids wh date
    = Market.create_stocks (filter (λ w, code w ∈ ids) feed) ids wh date.
Proof.
  assert (Seller.create_stocks feed ids
    = Seller.create_stocks (filter (λ w, code w ∈ ids) feed) ids) as Hsame.
  { by rewrite !create_stocks_unfold, <- (create_stocks_for_listed feed [] ids ids). }
  split; [done|]. by rewrite !market_create_stocks_sim, Hsame.
Qed.

(** X3.  For a feed without repeated codes and a duplicate-free list, a
    returning [create_stocks] gives exactly this list: one entry per row
    whose code is in the list, in feed order, with the normalised quantity
    of the row, followed by one zero entry per identifier that is no code
    of the feed, in the order of the identifier list.  Both variants. *)
Theorem create_stocks_matched_then_unmatched
    (feed : list (gmap string pyval)) (ids : list string) (wh date : string) :
  NoDup (code <$> feed) → NoDup ids →
  (∀ out ids', Seller.create_stocks feed ids = (Ok out, ids') →
     out = ((λ w, Seller.Stock (code w) (count_of w))
              <$> filter (λ w, code w ∈ ids) feed)
           ++ ((λ x, Seller.Stock x 0)
                 <$> filter (λ x, x ∉ code <$> feed) ids))
  ∧ (∀ out ids', Market.create_stocks feed ids wh date = (Ok out, ids') →
     out = ((λ w, Market.Sku (code w) wh [Market.Item (count_of w) "FIT" date])
              <$> filter (λ w, code w ∈ ids) feed)
           ++ ((λ x, Market.Sku x wh [Market.Item 0 "FIT" date])
                 <$> filter (λ x, x ∉ code <$> feed) ids)).
Proof.
  intros Hfeed Hnd.
  assert (∀ out ids', Seller.create_stocks feed ids = (Ok out, ids') →
     out = ((λ w, Seller.Stock (code w) (count_of w))
              <$> filter (λ w, code w ∈ ids) feed)
           ++ ((λ x, Seller.Stock x 0)
                 <$> filter (λ x, x ∉ code <$> feed) ids)) as Hseller.
  { intros out ids' (new & Hfor & ->)%create_stocks_inv.
    rewrite (create_stocks_for_left _ _ _ _ _ Hnd Hfor).
    by rewrite (create_stocks_for_entries _ _ _ _ _ Hfeed Hfor). }
  split; [done|].
  intros out ids' (out0 & Hout & ->)%market_create_stocks_inv.
  rewrite (Hseller _ _ Hout), fmap_app, <- !list_fmap_compose. done.
Qed.

Lemma create_stocks_matched_then_unmatched_witness :
  let feed := [row (VStr "B") (VStr "7") (VStr "50.00 x");
               row (VStr "Z") (VStr "9") (VStr "10.00 x");
               row (VStr "A") (VStr ">10") (VStr "100.00 x")] in
  Seller.create_stocks feed ["A"; "C"; "B"; "D"]
  = (Ok [Seller.Stock "B" 7; Seller.Stock "A" 100;
         Seller.Stock "C" 0; Seller.Stock "D" 0], ["C"; "D"]).
Proof.
  intros feed.
  destruct (Seller.create_stocks feed ["A"; "C"; "B"; "D"]) as [[out|e] ids']
    eqn:Hrun; [|by vm_compute in Hrun].
  destruct (create_stocks_matched_then_unmatched
              feed ["A"; "C"; "B"; "D"] "wh" "now") as [Hseller _].
  - apply (bool_decide_unpack _). vm_compute. exact I.
  - apply (bool_decide_unpack _). vm_compute. exact I.
  - rewrite (Hseller _ _ Hrun). vm_compute in Hrun. injection Hrun as _ <-.
    vm_compute. reflexivity.
Defined.

(** X4.  [create_stocks] raises the exception of the first matched row whose
    quantity is refused, and by then it has removed from the list the
    identifiers matched by the rows before it: the caller's list is left
    changed.  Stated for rows before it whose quantities are accepted and a
    duplicate-free list; both variants. *)
Theorem create_stocks_first_refusal
    (pre post : list (gmap string pyval)) (w : gmap string pyval)
    (ids : list string) (e : exn) (wh date : string) :
  NoDup ids → code w ∈ ids → code w ∉ code <$> pre →
  quantities_parse pre ids →
  normalize_quantity (quantity w) = Raise e →
  Seller.create_stocks (pre ++ w :: post) ids
    = (Raise e, filter (λ x, x ∉ code <$> pre) ids)
  ∧ Market.create_stocks (pre ++ w :: post) ids wh date
    = (Raise e, filter (λ x, x ∉ code <$> pre) ids).
Proof.
  intros Hnd Hin Hpre Hq He.
  assert (Seller.create_stocks (pre ++ w :: post) ids
    = (Raise e, filter (λ x, x ∉ code <$> pre) ids)) as Hseller.
  { rewrite create_stocks_unfold, create_stocks_for_app.
    destruct (create_stocks_for_returns pre [] ids (quantities_parse_spec _ _ Hq))
      as (acc1 & ids1 & Hp).
    rewrite Hp.
    pose proof (create_stocks_for_keeps _ _ _ _ _ _ Hp Hin Hpre) as Hin1.
    rewrite create_stocks_for_cons, decide_True, He by done.
    by rewrite (create_stocks_for_left _ _ _ _ _ Hnd Hp). }
  split; [done|]. by rewrite market_create_stocks_sim, Hseller.
Qed.

Lemma create_stocks_first_refusal_witness :
  Seller.create_stocks
    ([row (VStr "A") (VStr "5") (VStr "1.00 x")]
       ++ row (VStr "B") (VStr "soon") (VStr "2.00 x")
       :: [row (VStr "C") (VStr "3") (VStr "3.00 x")]) ["A"; "B"; "C"]
  = (Raise ValueError, ["B"; "C"]).
Proof.
  refine (proj1 (create_stocks_first_refusal
    [row (VStr "A") (VStr "5") (VStr "1.00 x")]
    [row (VStr "C") (VStr "3") (VStr "3.00 x")]
    (row (VStr "B") (VStr "soon") (VStr "2.00 x"))
    ["A"; "B"; "C"] ValueError "wh" "now" _ _ _ _ _)).
  - apply (bool_decide_unpack _). vm_compute. exact I.
  - apply (bool_decide_unpack _). vm_compute. exact I.
  - apply (bool_decide_unpack _). vm_compute. exact I.
  - apply (bool_decide_unpack _). vm_compute. exact I.
  - vm_compute. reflexivity.
Defined.

(** ** Integers and their decimal text *)

Section DecimalText.

Lemma str_app_cons (x : ascii) (a b : string) :
  String x a +:+ b = String x (a +:+ b).
Proof. reflexivity. Qed.

Lemma str_app_assoc (a b c : string) : (a +:+ b) +:+ c = a +:+ (b +:+ c).
Proof.
  induction a as [|x a IH]; [done|]. by rewrite !str_app_cons, IH.
Qed.

Lemma chars_app (a b : string) : chars (a +:+ b) = chars a ++ chars b.
Proof.
  induction a as [|x a IH]; [done|].
  rewrite str_app_cons. unfold chars in *. simpl. by rewrite IH.
Qed.

Lemma all_digits_app (a b : string) :
  all_digits a → all_digits b → all_digits (a +:+ b).
Proof.
  unfold all_digits. rewrite chars_app. intros Ha Hb. by apply Forall_app.
Qed.

Lemma decimal_from_app acc (a b : string) :
  decimal_from acc (a +:+ b) = decimal_from (decimal_from acc a) b.
Proof.
  unfold decimal_from. fold (chars (a +:+ b)) (chars a) (chars b).
  by rewrite chars_app, fold_left_app.
Qed.

Lemma pretty_N_char_digit (r : N) :
  (r < 10)%N →
  is_digit (pretty_N_char r) = true ∧ digit_value (pretty_N_char r) = Z.of_N r.
Proof.
  intros Hr.
  assert (r = 0 ∨ r = 1 ∨ r = 2 ∨ r = 3 ∨ r = 4 ∨ r = 5 ∨ r = 6 ∨ r = 7
          ∨ r = 8 ∨ r = 9)%N as Hcases by lia.
  repeat (destruct Hcases as [->|Hcases]; [by vm_compute|]).
  subst r. by vm_compute.
Qed.

Lemma pretty_N_go_app (x : N) (s : string) :
  pretty_N_go x s = pretty_N_go x EmptyString +:+ s.
Proof.
  revert s. induction (N.lt_wf_0 x) as [x _ IH]; intros s.
  assert (x = 0 ∨ 0 < x)%N as [->|Hpos] by lia; [done|].
  rewrite (pretty_N_go_step x s), (pretty_N_go_step x EmptyString) by done.
  assert (x `div` 10 < x)%N as Hlt by (by apply N.div_lt).
  rewrite (IH _ Hlt (String _ s)), (IH _ Hlt (String _ EmptyString)).
  by rewrite str_app_assoc.
Qed.

(** The text of a natural number is its numeral. *)
Lemma pretty_N_go_numeral (x : N) :
  all_digits (pretty_N_go x EmptyString)
  ∧ decimal (pretty_N_go x EmptyString) = Z.of_N x
  ∧ ((0 < x)%N → pretty_N_go x EmptyString ≠ EmptyString).
Proof.
  induction (N.lt_wf_0 x) as [x _ IH].
  assert (x = 0 ∨ 0 < x)%N as [->|Hpos] by lia.
  { split_and!; [by constructor|done|lia]. }
  rewrite pretty_N_go_step, pretty_N_go_app by done.
  destruct (IH (x `div` 10)%N) as (Hdig & Hval & _); [by apply N.div_lt|].
  destruct (pretty_N_char_digit (x `mod` 10)%N) as [Hc Hv];
    [by apply N.mod_lt|].
  split_and!.
  - apply all_digits_app; [done|]. apply all_digits_cons.
    split; [done|by constructor].
  - unfold decimal in *. rewrite decimal_from_app, Hval.
    unfold decimal_from. simpl. rewrite Hv.
    rewrite (N.div_mod x 10) at 3 by done. lia.
  - intros _. destruct (pretty_N_go (x `div` 10) EmptyString); done.
Qed.

Lemma pretty_pos_numeral (p : positive) :
  all_digits (pretty (Z.pos p)) ∧ decimal (pretty (Z.pos p)) = Z.pos p
  ∧ pretty (Z.pos p) ≠ EmptyString.
Proof.
  assert (pretty (Z.pos p) = pretty_N_go (N.pos p) EmptyString) as ->.
  { unfold pretty, pretty_Z, pretty, pretty_positive, pretty, pretty_N.
    by rewrite decide_False. }
  destruct (pretty_N_go_numeral (N.pos p)) as (Hdig & Hval & Hne).
  split_and!; [done|by rewrite Hval|apply Hne; lia].
Qed.

(** [int(str(z)) == z], when [int] accepts the text. *)
Lemma py_int_str_pretty (z n : Z) : py_int_str (pretty z) = Ok n → n = z.
Proof.
  destruct z as [|p|p].
  - vm_compute. by intros [= <-].
  - destruct (pretty_pos_numeral p) as (Hdig & Hval & Hne).
    destruct (py_int_str_numeral _ Hne Hdig) as [-> _].
    destruct (decide _); [|done]. intros [= <-]. done.
  - destruct (pretty_pos_numeral p) as (Hdig & Hval & Hne).
    change (pretty (Z.neg p)) with (String "-" (pretty (Z.pos p))).
    destruct (py_int_str_numeral _ Hne Hdig) as [_ ->].
    destruct (decide _); [|done]. intros [= <-]. lia.
Qed.

Lemma pretty_not_gt10 (z : Z) : pretty z ≠ ">10".
Proof.
  destruct z as [|p|p]; [done| |done].
  destruct (pretty_pos_numeral p) as (Hdig & _ & _). intros Heq.
  rewrite Heq in Hdig. apply all_digits_cons in Hdig as [Hd _].
  by vm_compute in Hd.
Qed.

Lemma pretty_is_one (z : Z) : pretty z = "1" ↔ z = 1%Z.
Proof.
  split; [|by intros ->].
  intros Heq. by apply (inj (pretty : Z → string)).
Qed.

(** An integer quantity, as a number or as its text: 1 counts as 0, any
    other value as itself. *)
Lemma normalize_quantity_integer (z n : Z) (q : pyval) :
  q = VInt z ∨ q = VStr (pretty z) →
  normalize_quantity q = Ok n →
  n = if decide (z = 1%Z) then 0%Z else z.
Proof.
  intros Hq. unfold normalize_quantity.
  assert (py_str q = pretty z) as -> by (by destruct Hq as [->| ->]).
  rewrite decide_False by apply pretty_not_gt10.
  destruct (decide (z = 1%Z)) as [->|Hne]; [by intros [= <-]|].
  rewrite decide_False by (by rewrite pretty_is_one).
  destruct Hq as [->| ->]; [by intros [= <-]|]. apply py_int_str_pretty.
Qed.

End DecimalText.

(** X5.  A matched row whose quantity cell holds the integer [z], as a
    number or as its decimal text, gets the count [z], also when [z] is
    negative or above 100; only [z = 1] gets 0.  Both variants. *)
Theorem create_stocks_integer_quantity
    (pre post : list (gmap string pyval)) (w : gmap string pyval)
    (ids : list string) (z : Z) (wh date : string) :
  code w ∈ ids → code w ∉ code <$> pre →
  quantity w = VInt z ∨ quantity w = VStr (pretty z) →
  (∀ out ids', Seller.create_stocks (pre ++ w :: post) ids = (Ok out, ids') →
     Seller.Stock (code w) (if decide (z = 1%Z) then 0%Z else z) ∈ out)
  ∧ (∀ out ids',
       Market.create_stocks (pre ++ w :: post) ids wh date = (Ok out, ids') →
     Market.Sku (code w) wh
       [Market.Item (if decide (z = 1%Z) then 0%Z else z) "FIT" date] ∈ out).
Proof.
  intros Hin Hpre Hq.
  destruct (create_stocks_matched_row pre w post ids Hin Hpre) as [Hok _].
  assert (∀ out ids',
    Seller.create_stocks (pre ++ w :: post) ids = (Ok out, ids') →
    Seller.Stock (code w) (if decide (z = 1%Z) then 0%Z else z) ∈ out)
    as Hseller.
  { intros out ids' Hout. destruct (Hok _ _ Hout) as (n & Hn & Hmem).
    by rewrite <- (normalize_quantity_integer z n _ Hq Hn). }
  split; [done|].
  intros out ids' (out0 & Hout & ->)%market_create_stocks_inv.
  apply Hseller in Hout.
  by apply (list_elem_of_fmap_2 (to_market wh date)) in Hout.
Qed.

Lemma create_stocks_integer_quantity_witness :
  Seller.create_stocks
    ([] ++ row (VInt 4711) (VInt (-3)) (VStr "1.00 x") :: []) ["4711"]
    = (Ok [Seller.Stock "4711" (-3)], [])
  ∧ Seller.Stock "4711" (-3) ∈ [Seller.Stock "4711" (-3)].
Proof.
  split; [vm_compute; reflexivity|].
  refine (proj1 (create_stocks_integer_quantity
    [] [] (row (VInt 4711) (VInt (-3)) (VStr "1.00 x")) ["4711"] (-3)
    "wh" "now" _ _ _) _ [] _).
  - apply (bool_decide_unpack _). vm_compute. exact I.
  - apply (bool_decide_unpack _). vm_compute. exact I.
  - left. vm_compute. reflexivity.
  - vm_compute. reflexivity.
Defined.

(** ** Further properties of [create_prices] and [price_conversion] *)

Section MorePrices.

Implicit Types (w : gmap string pyval) (ws : list (gmap string pyval)).
Implicit Types (ids : list string).

Lemma filter_codes_cons w ws ids :
  filter (λ c, c ∈ ids) (code <$> w :: ws)
  = (if decide (code w ∈ ids) then [code w] else [])
    ++ filter (λ c, c ∈ ids) (code <$> ws).
Proof. rewrite fmap_cons, filter_cons. by destruct (decide _). Qed.

Lemma seller_create_prices_for_ids ws acc ids out :
  Seller.create_prices_for ws acc ids = Ok out →
  Seller.price_offer_id <$> out
  = (Seller.price_offer_id <$> acc) ++ filter (λ c, c ∈ ids) (code <$> ws).
Proof.
  revert acc. induction ws as [|w ws IH]; intros acc.
  - intros [= <-]. by rewrite app_nil_r.
  - rewrite seller_create_prices_for_cons, filter_codes_cons.
    destruct (decide _) as [Hin|Hnin]; [|apply IH].
    destruct (Seller.price_conversion _) as [digits|]; [|done].
    intros ->%IH. by rewrite fmap_app, <- app_assoc.
Qed.

Lemma market_create_prices_for_ids ws acc ids out :
  Market.create_prices_for ws acc ids = Ok out →
  Market.id <$> out
  = (Market.id <$> acc) ++ filter (λ c, c ∈ ids) (code <$> ws).
Proof.
  revert acc. induction ws as [|w ws IH]; intros acc.
  - intros [= <-]. by rewrite app_nil_r.
  - rewrite market_create_prices_for_cons, filter_codes_cons.
    destruct (decide _) as [Hin|Hnin]; [|apply IH].
    destruct (Py.bind _ _) as [number|]; [|done].
    intros ->%IH. by rewrite fmap_app, <- app_assoc.
Qed.

(** The Ozon loop fails only on a matched row whose price is no string,
    and then with [AttributeError]. *)
Lemma seller_create_prices_for_outcome ws acc ids :
  match Seller.create_prices_for ws acc ids with
  | Ok _ => Forall (λ w, code w ∈ ids → is_str (raw_price w) = true) ws
  | Raise e =>
      e = AttributeError
      ∧ Exists (λ w, code w ∈ ids ∧ is_str (raw_price w) = false) ws
  end.
Proof.
  revert acc. induction ws as [|w ws IH]; intros acc; [by constructor|].
  rewrite seller_create_prices_for_cons. destruct (decide _) as [Hin|Hnin].
  - destruct (raw_price w) as [|z|s] eqn:Hp.
    + simpl. split; [done|]. left. by rewrite Hp.
    + simpl. split; [done|]. left. by rewrite Hp.
    + rewrite price_conversion_str.
      specialize (IH (acc ++ [Seller.Price "UNKNOWN" "RUB" (code w) "0"
                                (re_sub_non_digits (before_dot s))])).
      destruct (Seller.create_prices_for ws _ ids) as [out|e].
      * constructor; [by rewrite Hp|done].
      * destruct IH as [-> Hex]. split; [done|]. by right.
  - specialize (IH acc). destruct (Seller.create_prices_for ws acc ids) as [out|e].
    + constructor; [done|done].
    + destruct IH as [-> Hex]. split; [done|]. by right.
Qed.

Lemma digit_value_nonneg c : is_digit c = true → (0 ≤ digit_value c)%Z.
Proof. destruct c as [[] [] [] [] [] [] [] []]; by vm_compute. Qed.

Lemma decimal_from_nonneg acc s :
  all_digits s → (0 ≤ acc)%Z → (0 ≤ decimal_from acc s)%Z.
Proof.
  revert acc. induction s as [|c s IH]; intros acc Hs Hacc; [done|].
  apply all_digits_cons in Hs as [Hc Hs].
  apply (IH (10 * acc + digit_value c)%Z Hs).
  pose proof (digit_value_nonneg c Hc). lia.
Qed.

(** [int] of the result of [price_conversion]. *)
Lemma py_int_digits_only s :
  py_int (VStr (re_sub_non_digits s))
  = if decide (re_sub_non_digits s ≠ EmptyString
               ∧ within_digit_limit (re_sub_non_digits s))
    then Ok (decimal (re_sub_non_digits s))
    else Raise ValueError.
Proof.
  destruct (decide (re_sub_non_digits s = EmptyString)) as [Hempty|Hne].
  { rewrite Hempty. by rewrite decide_False by (by intros [? _]). }
  destruct (py_int_str_numeral _ Hne (re_sub_non_digits_all_digits s))
    as [Hplain _].
  simpl. rewrite Hplain.
  destruct (decide (within_digit_limit _)) as [Hfit|Hbig].
  - by rewrite decide_True.
  - by rewrite decide_False by (by intros [_ ?]).
Qed.

(** The Yandex loop against the Ozon loop on the same rows. *)
Lemma market_create_prices_for_sim ws acc macc ids new :
  Seller.create_prices_for ws acc ids = Ok (acc ++ new) →
  Market.create_prices_for ws macc ids
  = if decide (Forall (λ p, Seller.price p ≠ EmptyString
                            ∧ within_digit_limit (Seller.price p)) new)
    then Ok (macc ++ (to_market_price <$> new))
    else Raise ValueError.
Proof.
  revert acc macc new. induction ws as [|w ws IH]; intros acc macc new.
  - intros [= Hnew]. rewrite <- (app_nil_r acc) in Hnew at 1.
    apply app_inv_head in Hnew as <-. simpl. by rewrite app_nil_r.
  - rewrite seller_create_prices_for_cons, market_create_prices_for_cons.
    destruct (decide (code w ∈ ids)) as [Hin|Hnin]; [|apply IH].
    destruct (raw_price w) as [|z|s] eqn:Hp; [done..|].
    rewrite price_conversion_str.
    set (entry := Seller.Price "UNKNOWN" "RUB" (code w) "0"
                               (re_sub_non_digits (before_dot s))).
    intros Hrun.
    destruct (seller_create_prices_for_ok _ _ _ _ Hrun) as (new' & Hnew & _).
    rewrite <- app_assoc in Hnew. apply app_inv_head in Hnew. subst new.
    rewrite (app_assoc acc [entry] new') in Hrun. simpl.
    fold (py_int (VStr (re_sub_non_digits (before_dot s)))).
    rewrite py_int_digits_only.
    destruct (decide (re_sub_non_digits (before_dot s) ≠ EmptyString
                      ∧ within_digit_limit (re_sub_non_digits (before_dot s))))
      as [Hreadable|Hrefused].
    + rewrite (IH _ _ _ Hrun).
      destruct (decide (Forall _ new')) as [Hall|Hnot].
      * rewrite decide_True by (by constructor). by rewrite <- app_assoc.
      * rewrite decide_False; [done|]. by intros [_ ?]%Forall_cons.
    + rewrite decide_False; [done|]. by intros [? _]%Forall_cons.
Qed.

Lemma seller_create_prices_for_digits ws acc ids out :
  Seller.create_prices_for ws acc ids = Ok out →
  Forall (λ p, all_digits (Seller.price p)) acc →
  Forall (λ p, all_digits (Seller.price p)) out.
Proof.
  revert acc. induction ws as [|w ws IH]; intros acc; [by intros [= <-]|].
  rewrite seller_create_prices_for_cons.
  destruct (decide (code w ∈ ids)) as [Hin|Hnin]; [|apply IH].
  destruct (raw_price w) as [|z|s] eqn:Hp; [done..|].
  rewrite price_conversion_str. intros Hrun Hacc.
  apply (IH _ Hrun), Forall_app. split; [done|].
  apply Forall_singleton. simpl. apply re_sub_non_digits_all_digits.
Qed.

End MorePrices.

(** X6.  A returning [create_prices] holds one entry per feed row whose
    code is in the identifier list, in feed order, repeated codes included:
    unlike [create_stocks] it keeps every duplicate.  Both variants. *)
Theorem create_prices_one_entry_per_matched_row
    (feed : list (gmap string pyval)) (ids : list string) :
  (∀ prices, Seller.create_prices feed ids = Ok prices →
     Seller.price_offer_id <$> prices = filter (λ c, c ∈ ids) (code <$> feed))
  ∧ (∀ prices, Market.create_prices feed ids = Ok prices →
     Market.id <$> prices = filter (λ c, c ∈ ids) (code <$> feed)).
Proof.
  split; intros prices Hrun.
  - by apply seller_create_prices_for_ids in Hrun.
  - by apply market_create_prices_for_ids in Hrun.
Qed.

(** X7.  The Ozon [create_prices] returns exactly when every row whose code
    is in the identifier list has a string as price; otherwise, for instance
    when such a row has no price cell, it raises [AttributeError].  Rows
    whose code is not in the list are never looked at. *)
Theorem seller_create_prices_outcome
    (feed : list (gmap string pyval)) (ids : list string) :
  match Seller.create_prices feed ids with
  | Ok _ => Forall (λ w, code w ∈ ids → is_str (raw_price w) = true) feed
  | Raise e =>
      e = AttributeError
      ∧ Exists (λ w, code w ∈ ids ∧ is_str (raw_price w) = false) feed
  end.
Proof. apply seller_create_prices_for_outcome. Qed.

(** X8.  Whenever the Ozon [create_prices] returns, the Yandex
    [create_prices] on the same arguments returns the same entries with the
    digit strings read as numbers, provided [int] accepts each of them:
    none is empty and none has more than 4300 digits.  It raises
    [ValueError] otherwise.  The numbers are never negative. *)
Theorem market_create_prices_reads_seller_prices
    (feed : list (gmap string pyval)) (ids : list string)
    (prices : list Seller.price_entry) :
  Seller.create_prices feed ids = Ok prices →
  Market.create_prices feed ids
    = (if decide (Forall (λ p, Seller.price p ≠ EmptyString
                               ∧ within_digit_limit (Seller.price p)) prices)
       then Ok (to_market_price <$> prices)
       else Raise ValueError)
  ∧ Forall (λ p, 0 ≤ Market.value (Market.price (to_market_price p)))%Z prices.
Proof.
  intros Hrun. split.
  - by apply (market_create_prices_for_sim feed [] [] ids prices).
  - apply seller_create_prices_for_digits in Hrun; [|by constructor].
    eapply Forall_impl; [done|]. intros p Hp. simpl.
    by apply decimal_from_nonneg.
Qed.

Lemma market_create_prices_reads_seller_prices_witness :
  let feed := [row (VStr "A") (VStr "5") (VStr "5'990.00 руб.");
               row (VStr "B") (VStr "2") (VStr "1200 руб.")] in
  Market.create_prices feed ["A"; "B"]
  = Ok [Market.Offer "A" (Market.PriceValue 5990 "RUR");
        Market.Offer "B" (Market.PriceValue 1200 "RUR")].
Proof.
  intros feed.
  destruct (market_create_prices_reads_seller_prices feed ["A"; "B"]
    [Seller.Price "UNKNOWN" "RUB" "A" "0" "5990";
     Seller.Price "UNKNOWN" "RUB" "B" "0" "1200"]) as [Hrun _].
  - vm_compute. reflexivity.
  - rewrite Hrun. vm_compute. reflexivity.
Defined.

(** X9.  [price_conversion] gives back a numeral unchanged, also when the
    numeral is followed by ['.'] and any text: the result of
    [price_conversion] is a fixed point of it. *)
Theorem price_conversion_numeral (d rest : string) :
  all_digits d →
  Seller.price_conversion (VStr d) = Ok d
  ∧ Seller.price_conversion (VStr (d +:+ String "." rest)) = Ok d
  ∧ (∀ s r, Seller.price_conversion (VStr s) = Ok r →
       Seller.price_conversion (VStr r) = Ok r).
Proof.
  assert (∀ s, all_digits s → re_sub_non_digits s = s) as Hkeep.
  { induction s as [|c s IH]; [done|]. intros [Hc Hs]%all_digits_cons.
    simpl. by rewrite Hc, IH. }
  assert (∀ s t, all_digits s →
    before_dot s = s ∧ before_dot (s +:+ String "." t) = s) as Hdot.
  { induction s as [|c s IH]; intros t Hs; [done|].
    apply all_digits_cons in Hs as [Hc Hs]. destruct (IH t Hs) as [H1 H2].
    change (String c s +:+ String "." t) with (String c (s +:+ String "." t)).
    simpl. assert (Ascii.eqb c "." = false) as ->.
    { destruct c as [[] [] [] [] [] [] [] []]; by vm_compute in Hc |- *. }
    by rewrite H1, H2. }
  intros Hd. destruct (Hdot d rest Hd) as [H1 H2]. split_and!.
  - by rewrite price_conversion_str, H1, Hkeep.
  - by rewrite price_conversion_str, H2, Hkeep.
  - intros s r. rewrite price_conversion_str. intros [= <-].
    pose proof (re_sub_non_digits_all_digits (before_dot s)) as Hr.
    destruct (Hdot _ EmptyString Hr) as [H3 _].
    by rewrite price_conversion_str, H3, Hkeep.
Qed.

Lemma price_conversion_numeral_witness :
  Seller.price_conversion (VStr "5990") = Ok "5990"
  ∧ Seller.price_conversion (VStr ("5990" +:+ String "." ".00 руб."))
    = Ok "5990".
Proof.
  destruct (price_conversion_numeral "5990" ".00 руб.") as (H1 & H2 & _).
  - apply (bool_decide_unpack _). vm_compute. exact I.
  - by split.
Defined.

(** ** Uploads, request by request *)

Section Requests.

Context {E A : Type} (http : nat → option exn) (f : A → E).

(** When no request fails, every element is sent, in order. *)
Lemma for_each_emit_all (l : list A) (tr : list E) :
  (∀ n, http n = None) →
  Run.for_each l (λ x, Run.emit http (f x)) tr = (tr ++ (f <$> l), Ok tt).
Proof.
  intros Hok. revert tr. induction l as [|x l IH]; intros tr.
  - simpl. by rewrite app_nil_r.
  - simpl. unfold Run.bind, Run.emit at 1. rewrite Hok, IH.
    by rewrite <- app_assoc.
Qed.

(** The first failing request is the last one sent. *)
Lemma for_each_emit_fails (l : list A) (tr : list E) (k : nat) (e : exn) :
  k < length l →
  (∀ j, j < k → http (length tr + j) = None) →
  http (length tr + k) = Some e →
  Run.for_each l (λ x, Run.emit http (f x)) tr
  = (tr ++ (f <$> take (S k) l), Raise e).
Proof.
  revert tr k. induction l as [|x l IH]; intros tr k Hk Hbefore Hfail;
    [simpl in Hk; lia|].
  simpl. unfold Run.bind, Run.emit at 1. destruct k as [|k].
  - rewrite Nat.add_0_r in Hfail. rewrite Hfail. by rewrite take_0.
  - specialize (Hbefore 0 ltac:(lia)) as H0. rewrite Nat.add_0_r in H0.
    rewrite H0. rewrite (IH (tr ++ [f x]) k).
    + by rewrite <- app_assoc.
    + simpl in Hk. lia.
    + intros j Hj. rewrite length_app. simpl.
      replace (length tr + 1 + j) with (length tr + S j) by lia.
      apply Hbefore. lia.
    + rewrite length_app. simpl.
      by replace (length tr + 1 + k) with (length tr + S k) by lia.
Qed.

End Requests.

Lemma divide_returns {A} (lst : list A) (n : Z) :
  (0 < n)%Z →
  ∃ chunks, Seller.divide lst n = Ok chunks
    ∧ concat chunks = lst
    ∧ length chunks = chunk_count (length lst) n.
Proof.
  intros Hn. eexists. split; [by apply divide_chunks|].
  destruct (chunk_count_bounds (length lst) n Hn) as (Hcover & _ & _).
  split.
  - rewrite concat_chunks. apply take_ge. lia.
  - by rewrite length_fmap, length_seq.
Qed.

(** X10.  When the catalogue is read, [create_stocks] returns and no
    request fails, [upload_stocks] sends every entry exactly once, in
    order, in the least number of requests of at most 100 entries (Ozon)
    or 2000 entries (Yandex), and returns the entries with a non-zero
    count together with all entries. *)
Theorem upload_stocks_sends_every_entry
    (get_offer_ids : string → string → result (list string))
    (utcnow : nat → string) (http : nat → option exn)
    (feed : list (gmap string pyval)) (cid tok wh : string) (ids : list string) :
  get_offer_ids cid tok = Ok ids → (∀ n, http n = None) →
  (∀ stocks ids', Seller.create_stocks feed ids = (Ok stocks, ids') →
     ∃ chunks, concat chunks = stocks
       ∧ length chunks = chunk_count (length stocks) 100
       ∧ Seller.upload_stocks get_offer_ids http feed cid tok []
         = ((λ c, Seller.UpdateStocks c cid tok) <$> chunks,
            Ok (filter (λ s, Seller.stock s ≠ 0%Z) stocks, stocks)))
  ∧ (∀ stocks ids',
       Market.create_stocks feed ids wh (utcnow 0) = (Ok stocks, ids') →
     ∃ chunks, concat chunks = stocks
       ∧ length chunks = chunk_count (length stocks) 2000
       ∧ Market.upload_stocks get_offer_ids utcnow http feed cid tok wh []
         = ((λ c, Market.UpdateStocks c cid tok) <$> chunks,
            Ok (filter (λ s, market_count s ≠ Some 0%Z) stocks, stocks))).
Proof.
  intros Hids Hok. split; intros stocks ids' Hstocks.
  - destruct (divide_returns stocks 100 ltac:(lia)) as (chunks & Hdiv & Hcat & Hlen).
    exists chunks. split_and!; [done..|].
    unfold Seller.upload_stocks, Run.bind, Run.lift, Run.ret, Seller.update_stocks.
    rewrite Hids, Hstocks. cbn [fst]. rewrite Hdiv.
    by rewrite (for_each_emit_all http
                  (λ c, Seller.UpdateStocks c cid tok) chunks [] Hok).
  - destruct (divide_returns stocks 2000 ltac:(lia)) as (chunks & Hdiv & Hcat & Hlen).
    exists chunks. split_and!; [done..|].
    unfold Market.upload_stocks, Run.bind, Run.lift, Run.ret, Run.clock,
      Market.update_stocks.
    rewrite Hids. cbn [length]. rewrite Hstocks. cbn [fst]. rewrite Hdiv.
    by rewrite (for_each_emit_all http
                  (λ c, Market.UpdateStocks c cid tok) chunks [] Hok).
Qed.

Lemma upload_stocks_sends_every_entry_witness :
  let feed := [row (VStr "A") (VStr "5") (VStr "100.00 x")] in
  Seller.upload_stocks (λ _ _, Ok ["A"; "B"]) (λ _, None) feed "c" "t" []
  = ([Seller.UpdateStocks [Seller.Stock "A" 5; Seller.Stock "B" 0] "c" "t"],
     Ok ([Seller.Stock "A" 5], [Seller.Stock "A" 5; Seller.Stock "B" 0])).
Proof.
  intros feed.
  destruct (upload_stocks_sends_every_entry (λ _ _, Ok ["A"; "B"]) (λ _, "now")
              (λ _, None) feed "c" "t" "wh" ["A"; "B"] eq_refl (λ _, eq_refl))
    as [Hseller _].
  destruct (Hseller [Seller.Stock "A" 5; Seller.Stock "B" 0] ["B"])
    as (chunks & _ & _ & Hrun); [vm_compute; reflexivity|].
  vm_compute. reflexivity.
Defined.

(** X11.  When the catalogue is read, [create_prices] returns and no
    request fails, [upload_prices] sends every price entry exactly once, in
    order, in the least number of requests of at most 1000 entries (Ozon)
    or 500 entries (Yandex), and returns the list of all entries. *)
Theorem upload_prices_sends_every_entry
    (get_offer_ids : string → string → result (list string))
    (http : nat → option exn)
    (feed : list (gmap string pyval)) (cid tok : string) (ids : list string) :
  get_offer_ids cid tok = Ok ids → (∀ n, http n = None) →
  (∀ prices, Seller.create_prices feed ids = Ok prices →
     ∃ chunks, concat chunks = prices
       ∧ length chunks = chunk_count (length prices) 1000
       ∧ Seller.upload_prices get_offer_ids http feed cid tok []
         = ((λ c, Seller.UpdatePrice c cid tok) <$> chunks, Ok prices))
  ∧ (∀ prices, Market.create_prices feed ids = Ok prices →
     ∃ chunks, concat chunks = prices
       ∧ length chunks = chunk_count (length prices) 500
       ∧ Market.upload_prices get_offer_ids http feed cid tok []
         = ((λ c, Market.UpdatePrice c cid tok) <$> chunks, Ok prices)).
Proof.
  intros Hids Hok. split; intros prices Hprices.
  - destruct (divide_returns prices 1000 ltac:(lia)) as (chunks & Hdiv & Hcat & Hlen).
    exists chunks. split_and!; [done..|].
    unfold Seller.upload_prices, Run.bind, Run.lift, Run.ret, Seller.update_price.
    rewrite Hids, Hprices, Hdiv.
    by rewrite (for_each_emit_all http
                  (λ c, Seller.UpdatePrice c cid tok) chunks [] Hok).
  - destruct (divide_returns prices 500 ltac:(lia)) as (chunks & Hdiv & Hcat & Hlen).
    exists chunks. split_and!; [done..|].
    unfold Market.upload_prices, Run.bind, Run.lift, Run.ret, Market.update_price.
    rewrite Hids, Hprices, Hdiv.
    by rewrite (for_each_emit_all http
                  (λ c, Market.UpdatePrice c cid tok) chunks [] Hok).
Qed.

Lemma upload_prices_sends_every_entry_witness :
  let feed := [row (VStr "A") (VStr "5") (VStr "100.00 x")] in
  Market.upload_prices (λ _ _, Ok ["A"; "B"]) (λ _, None) feed "c" "t" []
  = ([Market.UpdatePrice [Market.Offer "A" (Market.PriceValue 100 "RUR")] "c" "t"],
     Ok [Market.Offer "A" (Market.PriceValue 100 "RUR")]).
Proof.
  intros feed.
  destruct (upload_prices_sends_every_entry (λ _ _, Ok ["A"; "B"])
              (λ _, None) feed "c" "t" ["A"; "B"] eq_refl (λ _, eq_refl))
    as [_ Hmarket].
  destruct (Hmarket [Market.Offer "A" (Market.PriceValue 100 "RUR")])
    as (chunks & _ & _ & Hrun); [vm_compute; reflexivity|].
  vm_compute. reflexivity.
Defined.

(** X12.  A failing request ends [upload_stocks]: if request number [k] is
    the first to fail, the chunks after it are never sent and the
    exception of the request is raised.  Both variants. *)
Theorem upload_stocks_stops_at_failure
    (get_offer_ids : string → string → result (list string))
    (utcnow : nat → string) (http : nat → option exn)
    (feed : list (gmap string pyval)) (cid tok wh : string) (ids : list string)
    (k : nat) (e : exn) :
  get_offer_ids cid tok = Ok ids →
  (∀ j, j < k → http j = None) → http k = Some e →
  (∀ stocks ids' chunks,
     Seller.create_stocks feed ids = (Ok stocks, ids') →
     Seller.divide stocks 100 = Ok chunks → k < length chunks →
     Seller.upload_stocks get_offer_ids http feed cid tok []
     = ((λ c, Seller.UpdateStocks c cid tok) <$> take (S k) chunks, Raise e))
  ∧ (∀ stocks ids' chunks,
       Market.create_stocks feed ids wh (utcnow 0) = (Ok stocks, ids') →
       Seller.divide stocks 2000 = Ok chunks → k < length chunks →
     Market.upload_stocks get_offer_ids utcnow http feed cid tok wh []
     = ((λ c, Market.UpdateStocks c cid tok) <$> take (S k) chunks, Raise e)).
Proof.
  intros Hids Hbefore Hfail. split; intros stocks ids' chunks Hstocks Hdiv Hk.
  - unfold Seller.upload_stocks, Run.bind, Run.lift, Run.ret, Seller.update_stocks.
    rewrite Hids, Hstocks. cbn [fst]. rewrite Hdiv.
    by rewrite (for_each_emit_fails http
                  (λ c, Seller.UpdateStocks c cid tok) chunks [] k e).
  - unfold Market.upload_stocks, Run.bind, Run.lift, Run.ret, Run.clock,
      Market.update_stocks.
    rewrite Hids. cbn [length]. rewrite Hstocks. cbn [fst]. rewrite Hdiv.
    by rewrite (for_each_emit_fails http
                  (λ c, Market.UpdateStocks c cid tok) chunks [] k e).
Qed.

Lemma upload_stocks_stops_at_failure_witness :
  let offers := (λ k : nat, pretty k) <$> seq 1 250 in
  let http := λ n : nat, if decide (n = 1) then Some HTTPError else None in
  (λ ev, match ev with
         | Seller.UpdateStocks stocks _ _ => length stocks
         | _ => 0
         end)
    <$> fst (Seller.upload_stocks (λ _ _, Ok offers) http [] "c" "t" [])
  = [100; 100]
  ∧ snd (Seller.upload_stocks (λ _ _, Ok offers) http [] "c" "t" [])
    = Raise HTTPError.
Proof.
  intros offers http.
  destruct (upload_stocks_stops_at_failure (λ _ _, Ok offers) (λ _, "now")
              http [] "c" "t" "wh" offers 1 HTTPError eq_refl) as [Hseller _].
  - intros j Hj. by destruct j; [|lia].
  - done.
  - destruct (Seller.create_stocks [] offers) as [[stocks|e1] ids'] eqn:Hs;
      [|by vm_compute in Hs].
    destruct (Seller.divide stocks 100) as [chunks|e2] eqn:Hd.
    + assert (1 < length chunks) as Hk.
      { vm_compute in Hs. injection Hs as <- _. vm_compute in Hd.
        injection Hd as <-. vm_compute. lia. }
      rewrite (Hseller stocks ids' chunks eq_refl Hd Hk). simpl.
      vm_compute in Hs. injection Hs as <- _. vm_compute in Hd.
      injection Hd as <-. split; vm_compute; reflexivity.
    + vm_compute in Hs. injection Hs as <- _. by vm_compute in Hd.
Defined.

(** ** The two [main] functions *)

Section TryExcept.

Context {E : Type} (P : E → Prop).

(** A guarded block ends normally; its events satisfy [P], except for the
    line printed last when an exception was caught. *)
Lemma try_except_shape (m : Run.M E unit) (report : exn → E) (tr : list E) :
  preserves P m → Forall P tr →
  ∃ tr0, Forall P tr0
    ∧ (Run.try_except m report tr = (tr0, Ok tt)
       ∨ ∃ e, Run.try_except m report tr = (tr0 ++ [report e], Ok tt)).
Proof.
  intros Hm Htr. unfold Run.try_except.
  destruct (m tr) as [tr1 [[]|e]] eqn:Hrun.
  - exists tr1. split; [by eapply Hm|by left].
  - exists tr1. split; [by eapply Hm|right; by exists e].
Qed.

Lemma bind_lift_ok {A B} (a : A) (k : A → Run.M E B) (tr : list E) :
  Run.bind (Run.lift (Ok a)) k tr = k a tr.
Proof. reflexivity. Qed.

Lemma bind_lift_raise {A B} (e : exn) (k : A → Run.M E B) (tr : list E) :
  Run.bind (Run.lift (Raise e : result A)) k tr = (tr, Raise e).
Proof. reflexivity. Qed.

End TryExcept.

Lemma printed_only_last_shape {E} (printed : E → bool) (tr0 : list E) :
  Forall (λ ev, printed ev = false) tr0 →
  printed_only_last printed tr0
  ∧ ∀ ev, printed_only_last printed (tr0 ++ [ev]).
Proof.
  intros Hall. split.
  - intros i ev Hi Hp. eapply Forall_forall in Hall;
      [|by eapply list_elem_of_lookup_2]. congruence.
  - intros ev i ev' Hi Hp. rewrite length_app. simpl.
    destruct (decide (i < length tr0)) as [Hlt|Hge].
    + rewrite lookup_app_l in Hi by done.
      eapply Forall_forall in Hall; [|by eapply list_elem_of_lookup_2].
      congruence.
    + apply lookup_lt_Some in Hi. rewrite length_app in Hi. simpl in Hi. lia.
Qed.

Section Mains.

Variable env_str : string → result string.
Variable get_offer_ids : string → string → result (list string).
Variable download_stock : result (list (gmap string pyval)).
Variable utcnow : nat → string.
Variable http : nat → option exn.

(** The run of the Ozon [main]: nothing when a variable of the environment
    is missing; otherwise requests, then at most one printed line, and a
    normal end. *)
Lemma seller_main_shape (P : Seller.event → Prop) :
  (∀ stocks cid tok, P (Seller.UpdateStocks stocks cid tok)) →
  (∀ prices cid tok, P (Seller.UpdatePrice prices cid tok)) →
  (∃ e, Seller.main env_str get_offer_ids download_stock http [] = ([], Raise e)
        ∧ (env_str "SELLER_TOKEN" = Raise e ∨ env_str "CLIENT_ID" = Raise e))
  ∨ ∃ tr0, Forall P tr0
      ∧ is_ok (env_str "SELLER_TOKEN") ∧ is_ok (env_str "CLIENT_ID")
      ∧ (Seller.main env_str get_offer_ids download_stock http [] = (tr0, Ok tt)
         ∨ ∃ e, Seller.main env_str get_offer_ids download_stock http []
                = (tr0 ++ [Seller.report e], Ok tt)).
Proof.
  intros Hstocks Hprices. unfold Seller.main.
  destruct (env_str "SELLER_TOKEN") as [seller_token|e];
    [|left; rewrite bind_lift_raise; eauto].
  destruct (env_str "CLIENT_ID") as [client_id|e];
    [|left; rewrite bind_lift_ok, bind_lift_raise; eauto].
  right. rewrite !bind_lift_ok.
  match goal with
  | |- context [Run.try_except ?m ?r []] =>
      destruct (try_except_shape P m r []) as (tr0 & Htr0 & Hrun)
  end; [|done|by exists tr0].
  apply preserves_bind; [apply preserves_lift|intros ids].
  apply preserves_bind; [apply preserves_lift|intros feed].
  destruct (Seller.create_stocks feed ids) as [r ids'].
  apply preserves_bind; [apply preserves_lift|intros stocks].
  apply preserves_bind; [apply preserves_lift|intros chunks].
  apply preserves_bind.
  { apply preserves_for_each, Forall_forall. intros c _.
    by apply preserves_emit. }
  intros _.
  apply preserves_bind; [apply preserves_lift|intros prices].
  apply preserves_bind; [apply preserves_lift|intros pchunks].
  apply preserves_for_each, Forall_forall. intros c _. by apply preserves_emit.
Qed.

(** The part of the Yandex [main] for one account never sends a price
    request nor prints. *)
Lemma market_account_preserves (P : Market.event → Prop) feed cid tok wh
    (rest : Run.M Market.event unit) :
  (∀ stocks cid tok, P (Market.UpdateStocks stocks cid tok)) →
  preserves P rest →
  preserves P
    (Run.bind (Run.lift (get_offer_ids cid tok)) (λ offer_ids,
     Run.bind (Run.clock utcnow) (λ date,
       let (stocks, offer_ids) := Market.create_stocks feed offer_ids wh date in
       Run.bind (Run.lift stocks) (λ stocks,
       Run.bind (Run.lift (Seller.divide stocks 2000)) (λ chunks,
       Run.bind (Run.for_each chunks (λ some_stock,
                   Market.update_stocks http some_stock cid tok)) (λ _,
       Run.bind (Run.call_without_await
                   (Market.upload_prices get_offer_ids http feed cid tok))
                (λ _, rest))))))).
Proof.
  intros Hstocks Hrest.
  apply preserves_bind; [apply preserves_lift|intros ids].
  apply preserves_bind; [apply preserves_clock|intros date].
  destruct (Market.create_stocks feed ids wh date) as [r ids'].
  apply preserves_bind; [apply preserves_lift|intros stocks].
  apply preserves_bind; [apply preserves_lift|intros chunks].
  apply preserves_bind.
  { apply preserves_for_each, Forall_forall. intros c _.
    by apply preserves_emit. }
  intros _.
  apply preserves_bind; [apply preserves_call_without_await|by intros _].
Qed.

(** The run of the Yandex [main]: nothing when the environment or the feed
    fails; otherwise stock requests, then at most one printed line, and a
    normal end. *)
Lemma market_main_shape (P : Market.event → Prop) :
  (∀ stocks cid tok, P (Market.UpdateStocks stocks cid tok)) →
  (∃ e, Market.main env_str get_offer_ids download_stock utcnow http []
        = ([], Raise e))
  ∨ ∃ tr0, Forall P tr0
      ∧ is_ok download_stock
      ∧ (Market.main env_str get_offer_ids download_stock utcnow http []
         = (tr0, Ok tt)
         ∨ ∃ e, Market.main env_str get_offer_ids download_stock utcnow http []
                = (tr0 ++ [Market.report e], Ok tt)).
Proof.
  intros Hstocks. unfold Market.main.
  destruct (env_str "MARKET_TOKEN") as [market_token|e];
    [|left; rewrite bind_lift_raise; eauto].
  destruct (env_str "FBS_ID") as [fbs|e];
    [|left; rewrite !bind_lift_ok, bind_lift_raise; eauto].
  destruct (env_str "DBS_ID") as [dbs|e];
    [|left; rewrite !bind_lift_ok, bind_lift_raise; eauto].
  destruct (env_str "WAREHOUSE_FBS_ID") as [wfbs|e];
    [|left; rewrite !bind_lift_ok, bind_lift_raise; eauto].
  destruct (env_str "WAREHOUSE_DBS_ID") as [wdbs|e];
    [|left; rewrite !bind_lift_ok, bind_lift_raise; eauto].
  destruct download_stock as [feed|e];
    [|left; rewrite !bind_lift_ok, bind_lift_raise; eauto].
  right. rewrite !bind_lift_ok.
  match goal with
  | |- context [Run.try_except ?m ?r []] =>
      destruct (try_except_shape P m r []) as (tr0 & Htr0 & Hrun)
  end; [|done|by exists tr0].
  apply market_account_preserves; [done|].
  apply preserves_bind; [apply preserves_lift|intros ids].
  apply preserves_bind; [apply preserves_clock|intros date].
  destruct (Market.create_stocks feed ids _ date) as [r ids'].
  apply preserves_bind; [apply preserves_lift|intros stocks].
  apply preserves_bind; [apply preserves_lift|intros chunks].
  apply preserves_bind.
  { apply preserves_for_each, Forall_forall. intros c _.
    by apply preserves_emit. }
  intros _. apply preserves_call_without_await.
Qed.

End Mains.

(** X13.  Once both environment variables are read, the Ozon [main] never
    raises: every exception of the run, also one of [get_offer_ids] or
    [download_stock], is caught and the run ends normally.  A missing
    variable is raised before anything is sent or printed. *)
Theorem seller_main_catches_everything
    (env_str : string → result string)
    (get_offer_ids : string → string → result (list string))
    (download_stock : result (list (gmap string pyval)))
    (http : nat → option exn) :
  (is_ok (env_str "SELLER_TOKEN") → is_ok (env_str "CLIENT_ID") →
   Run.outcome (Seller.main env_str get_offer_ids download_stock http) = Ok tt)
  ∧ (∀ e, env_str "SELLER_TOKEN" = Raise e →
       Seller.main env_str get_offer_ids download_stock http [] = ([], Raise e)).
Proof.
  split.
  - intros Htok Hcid.
    destruct (seller_main_shape env_str get_offer_ids download_stock http
                (λ _, True) ltac:(done) ltac:(done))
      as [(e & _ & [He|He])|(tr0 & _ & _ & _ & Hrun)];
      [by rewrite He in Htok|by rewrite He in Hcid|].
    unfold Run.outcome. by destruct Hrun as [->|[e ->]].
  - intros e He. unfold Seller.main, Run.bind at 1, Run.lift at 1.
    by rewrite He.
Qed.

(** X14.  The Yandex [main] reads the feed outside its [try] block: an
    exception of [download_stock] leaves [main] uncaught, with nothing sent
    and nothing printed, whereas the Ozon [main] catches it and prints it. *)
Theorem market_main_lets_feed_failure_escape
    (env_str : string → result string)
    (get_offer_ids : string → string → result (list string))
    (utcnow : nat → string) (http : nat → option exn) (e : exn)
    (ids : list string) :
  (∀ name, is_ok (env_str name)) →
  (∀ cid tok, get_offer_ids cid tok = Ok ids) →
  Market.main env_str get_offer_ids (Raise e) utcnow http [] = ([], Raise e)
  ∧ Seller.main env_str get_offer_ids (Raise e) http []
    = ([Seller.report e], Ok tt).
Proof.
  intros Henv Hids. split.
  - unfold Market.main.
    do 5 (unfold Run.bind at 1, Run.lift at 1;
          match goal with
          | |- context [env_str ?n] =>
              let H := fresh in
              pose proof (Henv n) as H; destruct (env_str n); [clear H|done]
          end).
    done.
  - unfold Seller.main.
    do 2 (unfold Run.bind at 1, Run.lift at 1;
          match goal with
          | |- context [env_str ?n] =>
              let H := fresh in
              pose proof (Henv n) as H; destruct (env_str n); [clear H|done]
          end).
    unfold Run.try_except, Run.bind, Run.lift. by rewrite Hids.
Qed.

Lemma market_main_lets_feed_failure_escape_witness :
  Market.main (λ name, Ok name) (λ _ _, Ok ["A"]) (Raise ConnectionError)
              (λ _, "now") (λ _, None) [] = ([], Raise ConnectionError)
  ∧ Seller.main (λ name, Ok name) (λ _ _, Ok ["A"]) (Raise ConnectionError)
                (λ _, None) []
    = ([Seller.Printed ConnectionError "Ошибка соединения"], Ok tt).
Proof.
  apply (market_main_lets_feed_failure_escape (λ name, Ok name)
           (λ _ _, Ok ["A"]) (λ _, "now") (λ _, None) ConnectionError ["A"]).
  - intros name. exact I.
  - intros cid tok. reflexivity.
Defined.

(** X15.  In every run of either [main] at most one line is printed, and
    it is the last event: after an exception is caught nothing more is
    sent. *)
Theorem main_prints_last
    (env_str : string → result string)
    (get_offer_ids : string → string → result (list string))
    (download_stock : result (list (gmap string pyval)))
    (utcnow : nat → string) (http : nat → option exn) :
  printed_only_last seller_printed
    (Run.events (Seller.main env_str get_offer_ids download_stock http))
  ∧ printed_only_last market_printed
      (Run.events (Market.main env_str get_offer_ids download_stock utcnow http)).
Proof.
  unfold Run.events. split.
  - destruct (seller_main_shape env_str get_offer_ids download_stock http
                (λ ev, seller_printed ev = false) ltac:(done) ltac:(done))
      as [(e & -> & _)|(tr0 & Htr0 & _ & _ & Hrun)].
    + by intros i ev Hi.
    + destruct (printed_only_last_shape seller_printed tr0 Htr0) as [H1 H2].
      destruct Hrun as [->|[e ->]]; [done|apply H2].
  - destruct (market_main_shape env_str get_offer_ids download_stock utcnow http
                (λ ev, market_printed ev = false) ltac:(done))
      as [(e & ->)|(tr0 & Htr0 & _ & Hrun)].
    + by intros i ev Hi.
    + destruct (printed_only_last_shape market_printed tr0 Htr0) as [H1 H2].
      destruct Hrun as [->|[e ->]]; [done|apply H2].
Qed.

(** X16.  In the Yandex [main] a failure for the first account ends the
    run for the second one too: when the FBS catalogue cannot be read, or
    when the first FBS stock request fails, nothing is sent for the DBS
    account. *)
Theorem market_main_failure_skips_second_account
    (env_str : string → result string)
    (get_offer_ids : string → string → result (list string))
    (utcnow : nat → string) (http : nat → option exn)
    (feed : list (gmap string pyval))
    (tok fbs dbs wfbs wdbs : string) (e : exn) :
  env_str "MARKET_TOKEN" = Ok tok → env_str "FBS_ID" = Ok fbs →
  env_str "DBS_ID" = Ok dbs → env_str "WAREHOUSE_FBS_ID" = Ok wfbs →
  env_str "WAREHOUSE_DBS_ID" = Ok wdbs →
  (get_offer_ids fbs tok = Raise e →
   Market.main env_str get_offer_ids (Ok feed) utcnow http []
   = ([Market.report e], Ok tt))
  ∧ (∀ ids stocks ids' chunk chunks,
       get_offer_ids fbs tok = Ok ids →
       Market.create_stocks feed ids wfbs (utcnow 0) = (Ok stocks, ids') →
       Seller.divide stocks 2000 = Ok (chunk :: chunks) →
       http 0 = Some e →
       Market.main env_str get_offer_ids (Ok feed) utcnow http []
       = ([Market.UpdateStocks chunk fbs tok; Market.report e], Ok tt)).
Proof.
  intros Htok Hfbs Hdbs Hwfbs Hwdbs. split.
  - intros Hids. unfold Market.main.
    do 6 (unfold Run.bind at 1, Run.lift at 1).
    rewrite Htok, Hfbs, Hdbs, Hwfbs, Hwdbs.
    unfold Run.try_except, Run.bind at 1, Run.lift at 1. by rewrite Hids.
  - intros ids stocks ids' chunk chunks Hids Hstocks Hdiv Hfail.
    unfold Market.main.
    do 6 (unfold Run.bind at 1, Run.lift at 1).
    rewrite Htok, Hfbs, Hdbs, Hwfbs, Hwdbs.
    unfold Run.try_except.
    unfold Run.bind at 1, Run.lift at 1. rewrite Hids.
    unfold Run.bind at 1, Run.clock at 1. cbn [length]. rewrite Hstocks.
    unfold Run.bind at 1, Run.lift at 1.
    unfold Run.bind at 1, Run.lift at 1. rewrite Hdiv.
    unfold Run.bind at 1, Market.update_stocks.
    rewrite (for_each_emit_fails http (λ c, Market.UpdateStocks c fbs tok)
               (chunk :: chunks) [] 0 e); [done|simpl; lia|intros j; lia|done].
Qed.

Lemma market_main_failure_skips_second_account_witness :
  Market.main (λ name, Ok name)
    (λ cid _, if decide (cid = "FBS_ID") then Raise HTTPError else Ok ["A"])
    (Ok [row (VStr "A") (VStr "5") (VStr "100.00 x")])
    (λ _, "now") (λ _, None) []
  = ([Market.Printed HTTPError "ERROR_2"], Ok tt).
Proof.
  refine (proj1 (market_main_failure_skips_second_account (λ name, Ok name)
    (λ cid _, if decide (cid = "FBS_ID") then Raise HTTPError else Ok ["A"])
    (λ _, "now") (λ _, None) [row (VStr "A") (VStr "5") (VStr "100.00 x")]
    "MARKET_TOKEN" "FBS_ID" "DBS_ID" "WAREHOUSE_FBS_ID" "WAREHOUSE_DBS_ID"
    HTTPError eq_refl eq_refl eq_refl eq_refl eq_refl) _).
  vm_compute. reflexivity.
Defined.

(** X17.  When the catalogue holds no identifier twice, the Ozon [main]
    never sends a price request, whatever the feed holds: [create_prices]
    gets the list that [create_stocks] has consumed. *)
Theorem seller_main_sends_no_price
    (env_str : string → result string)
    (get_offer_ids : string → string → result (list string))
    (download_stock : result (list (gmap string pyval)))
    (http : nat → option exn) :
  (∀ cid tok ids, get_offer_ids cid tok = Ok ids → NoDup ids) →
  Forall (λ ev, seller_price_request ev = false)
    (Run.events (Seller.main env_str get_offer_ids download_stock http)).
Proof.
  intros Hnodup. apply preserves_events. unfold Seller.main.
  apply preserves_bind; [apply preserves_lift|intros seller_token].
  apply preserves_bind; [apply preserves_lift|intros client_id].
  apply preserves_try_except; [|by intros []].
  apply preserves_bind_lift. intros ids Hids%Hnodup.
  apply preserves_bind; [apply preserves_lift|intros feed].
  destruct (Seller.create_stocks feed ids) as [r ids'] eqn:Hstocks.
  apply preserves_bind_lift. intros stocks ->.
  apply preserves_bind; [apply preserves_lift|intros chunks].
  apply preserves_bind.
  { apply preserves_for_each, Forall_forall. intros c _.
    by apply preserves_emit. }
  intros _.
  rewrite (create_prices_after_create_stocks _ _ _ _ Hids Hstocks).
  apply preserves_bind_lift. intros prices [= <-].
  apply preserves_bind_lift. intros pchunks [= <-].
  apply preserves_ret.
Qed.

Lemma seller_main_sends_no_price_witness :
  Forall (λ ev, seller_price_request ev = false)
    (Run.events (Seller.main (λ name, Ok name) (λ _ _, Ok ["A"; "B"])
                   (Ok [row (VStr "A") (VStr "5") (VStr "100.00 x")])
                   (λ _, None))).
Proof.
  apply seller_main_sends_no_price.
  intros cid tok ids [= <-]. apply (bool_decide_unpack _). vm_compute. exact I.
Defined.

(** X18.  The Yandex [main] never sends a price request, whatever the
    marketplace and the feed answer: it builds the coroutines of
    [upload_prices] and never awaits them. *)
Theorem market_main_sends_no_price
    (env_str : string → result string)
    (get_offer_ids : string → string → result (list string))
    (download_stock : result (list (gmap string pyval)))
    (utcnow : nat → string) (http : nat → option exn) :
  Forall (λ ev, market_price_request ev = false)
    (Run.events (Market.main env_str get_offer_ids download_stock utcnow http)).
Proof.
  unfold Run.events.
  destruct (market_main_shape env_str get_offer_ids download_stock utcnow http
              (λ ev, market_price_request ev = false) ltac:(done))
    as [(e & ->)|(tr0 & Htr0 & _ & [->|[e ->]])]; [by constructor|done|].
  simpl. apply Forall_app. split; [done|]. apply Forall_singleton.
  by destruct e.
Qed.

(** ** Reading the catalogue page by page *)

Section SellerPages.

Variable srv :
  nat → pyval → string → string → result (option SellerCatalog.product_list_result).
Variables cid tok : string.

Lemma seller_loop_reads_pages (N : Z) pages :
  ∀ fuel n cursor acc,
    pages ≠ [] →
    seller_serves srv cid tok n cursor pages →
    Forall (λ p, is_Some (SellerCatalog.items p)
                 ∧ SellerCatalog.total p = VInt N) pages →
    N = Z.of_nat (length acc + length (concat (page_items <$> pages))) →
    Forall (λ p, page_items p ≠ []) (tail pages) →
    length pages ≤ fuel →
    SellerCatalog.get_offer_ids_loop srv fuel n cursor acc cid tok
    = Some (Ok (acc ++ concat (page_items <$> pages))).
Proof.
  induction pages as [|p rest IH]; intros fuel n cursor acc Hne Hserve Hall HN
    Htail Hfuel; [done|].
  destruct fuel as [|fuel]; [simpl in Hfuel; lia|].
  destruct Hserve as [Hp Hrest].
  apply Forall_cons in Hall as [[[its Hits] Htotal] Hall].
  simpl. rewrite Hp, Hits, Htotal. simpl.
  assert (page_items p = its) as Hpi by (unfold page_items; by rewrite Hits).
  rewrite fmap_cons in HN. simpl in HN. rewrite Hpi, length_app in HN.
  rewrite Hpi. destruct rest as [|q rest'].
  - simpl in *. rewrite app_nil_r.
    rewrite bool_decide_true; [done|]. rewrite length_app. lia.
  - simpl in Htail. pose proof Htail as [Hq Htail']%Forall_cons.
    rewrite bool_decide_false.
    + rewrite (IH fuel (S n) (SellerCatalog.last_id p) (acc ++ its)).
      * by rewrite <- app_assoc.
      * done.
      * done.
      * done.
      * rewrite length_app. lia.
      * done.
      * simpl in Hfuel |- *. lia.
    + rewrite length_app. rewrite fmap_cons in HN. simpl in HN.
      rewrite length_app in HN.
      assert (0 < length (page_items q)) by (destruct (page_items q); [done|simpl; lia]).
      lia.
Qed.

Lemma seller_loop_spins (T : Z) :
  (∀ n cursor, ∃ p its t,
     srv n cursor cid tok = Ok (Some p)
     ∧ SellerCatalog.items p = Some its
     ∧ SellerCatalog.total p = VInt t ∧ (t ≤ T)%Z
     ∧ (n = 0 → (T < Z.of_nat (length its))%Z)) →
  ∀ fuel n cursor acc,
    n = 0 ∨ (T < Z.of_nat (length acc))%Z →
    SellerCatalog.get_offer_ids_loop srv fuel n cursor acc cid tok = None.
Proof.
  intros Hsrv. induction fuel as [|fuel IH]; intros n cursor acc Hover; [done|].
  destruct (Hsrv n cursor) as (p & its & t & Hp & Hits & Ht & HtT & Hfirst).
  simpl. rewrite Hp, Hits, Ht. simpl.
  assert (T < Z.of_nat (length (acc ++ its)))%Z as Hnow.
  { rewrite length_app. destruct Hover as [->|Hacc]; [|lia].
    specialize (Hfirst eq_refl). lia. }
  rewrite bool_decide_false by lia. apply IH. by right.
Qed.

End SellerPages.

(** X19.  When the Ozon endpoint answers with a chain of pages that each
    report the number of products of all pages together, and every page
    after the first holds a product, [get_offer_ids] makes one request
    per page and returns the values under ["offer_id"] of all products, in
    page order, repeated values included. *)
Theorem seller_get_offer_ids_reads_all_pages
    (srv : nat → pyval → string → string
           → result (option SellerCatalog.product_list_result))
    (cid tok : string) (pages : list SellerCatalog.product_list_result)
    (fuel : nat) :
  pages ≠ [] →
  seller_serves srv cid tok 0 (VStr "") pages →
  Forall (λ p, is_Some (SellerCatalog.items p)
               ∧ SellerCatalog.total p
                 = VInt (Z.of_nat (length (concat (page_items <$> pages)))))
         pages →
  Forall (λ p, page_items p ≠ []) (tail pages) →
  length pages ≤ fuel →
  SellerCatalog.get_offer_ids srv fuel cid tok
  = Some (Ok ((λ product, get product "offer_id")
                <$> concat (page_items <$> pages))).
Proof.
  intros Hne Hserve Hall Htail Hfuel. unfold SellerCatalog.get_offer_ids.
  by rewrite (seller_loop_reads_pages srv cid tok
                (Z.of_nat (length (concat (page_items <$> pages))))
                pages fuel 0 (VStr "") []).
Qed.

Lemma seller_get_offer_ids_reads_all_pages_witness :
  let p1 := SellerCatalog.ProductList
              (Some [{[ "offer_id" := VStr "A" ]}; {[ "offer_id" := VStr "B" ]}])
              (VInt 3) (VStr "c1") in
  let p2 := SellerCatalog.ProductList
              (Some [{[ "offer_id" := VStr "C" ]}]) (VInt 3) (VStr "c2") in
  let srv := λ (n : nat) (cursor : pyval) (_ _ : string),
               Ok (Some (if decide (n = 0) then p1 else p2)) in
  SellerCatalog.get_offer_ids srv 2 "c" "t"
  = Some (Ok [VStr "A"; VStr "B"; VStr "C"]).
Proof.
  intros p1 p2 srv.
  apply (seller_get_offer_ids_reads_all_pages srv "c" "t" [p1; p2] 2).
  - done.
  - split; [|split]; done.
  - repeat constructor; by eexists.
  - repeat constructor. done.
  - simpl. lia.
Defined.

(** X20.  The loop of the Ozon [get_offer_ids] ends only when the number of
    products read equals the reported total: if every answer is a page
    reporting at most [T] products and the first answer holds more than
    [T], no number of requests makes [get_offer_ids] return or raise. *)
Theorem seller_get_offer_ids_never_returns
    (srv : nat → pyval → string → string
           → result (option SellerCatalog.product_list_result))
    (cid tok : string) (T : Z) :
  (∀ n cursor, ∃ p its t,
     srv n cursor cid tok = Ok (Some p)
     ∧ SellerCatalog.items p = Some its
     ∧ SellerCatalog.total p = VInt t ∧ (t ≤ T)%Z
     ∧ (n = 0 → (T < Z.of_nat (length its))%Z)) →
  ∀ fuel, SellerCatalog.get_offer_ids srv fuel cid tok = None.
Proof.
  intros Hsrv fuel. unfold SellerCatalog.get_offer_ids.
  rewrite (seller_loop_spins srv cid tok T Hsrv); [done|by left].
Qed.

Lemma seller_get_offer_ids_never_returns_witness :
  SellerCatalog.get_offer_ids
    (λ _ _ _ _, Ok (Some (SellerCatalog.ProductList
                            (Some [{[ "offer_id" := VStr "A" ]};
                                   {[ "offer_id" := VStr "B" ]}])
                            (VInt 1) (VStr ""))))
    1000 "c" "t"
  = None.
Proof.
  apply (seller_get_offer_ids_never_returns _ "c" "t" 1).
  intros n cursor. eexists _, _, _. split_and!; [done..|lia|simpl; lia].
Defined.

Section MarketPages.

Variable srv :
  nat → pyval → string → string → result (option MarketCatalog.offer_mapping_result).
Variables cid tok : string.

Lemma market_loop_reads_pages init :
  ∀ last fuel n cursor acc,
    market_serves srv cid tok n cursor (init ++ [last]) →
    Forall (λ p, is_Some (MarketCatalog.offerMappingEntries p)
                 ∧ is_Some (MarketCatalog.paging p)) (init ++ [last]) →
    Forall (λ p, MarketCatalog.truthy (page_token p) = true) init →
    MarketCatalog.truthy (page_token last) = false →
    length (init ++ [last]) ≤ fuel →
    MarketCatalog.get_offer_ids_loop srv fuel n cursor acc cid tok
    = Some (Ok (acc ++ concat (page_entries <$> init ++ [last]))).
Proof.
  induction init as [|p init IH]; intros last fuel n cursor acc Hserve Hall
    Htruthy Hlast Hfuel.
  - destruct fuel as [|fuel]; [simpl in Hfuel; lia|].
    destruct Hserve as [Hp _].
    apply Forall_singleton in Hall as [[es Hes] [pg Hpg]].
    simpl. rewrite Hp, Hes, Hpg. unfold page_token in Hlast.
    rewrite Hpg in Hlast. rewrite Hlast.
    unfold page_entries. rewrite Hes. simpl. by rewrite app_nil_r.
  - destruct fuel as [|fuel]; [simpl in Hfuel; lia|].
    destruct Hserve as [Hp Hrest].
    rewrite <- app_comm_cons in Hall.
    apply Forall_cons in Hall as [[[es Hes] [pg Hpg]] Hall].
    apply Forall_cons in Htruthy as [Hptrue Htruthy].
    simpl. rewrite Hp, Hes, Hpg. unfold page_token in Hptrue, Hrest.
    rewrite Hpg in Hptrue, Hrest. rewrite Hptrue.
    rewrite (IH last fuel (S n) _ (acc ++ es)); [|done..|simpl in Hfuel; lia].
    unfold page_entries at 2. rewrite Hes. simpl. by rewrite <- app_assoc.
Qed.

Lemma shop_skus_outcome (l : list MarketCatalog.mapping_entry) :
  MarketCatalog.shop_skus l
  = if decide (Forall (λ en, is_Some (MarketCatalog.offer en)) l)
    then Ok (entry_sku <$> l) else Raise AttributeError.
Proof.
  induction l as [|en l IH]; [done|]. simpl.
  destruct (MarketCatalog.offer en) as [o|] eqn:Ho.
  - rewrite IH. destruct (decide (Forall _ l)) as [Hall|Hnot].
    + rewrite decide_True by (constructor; [by rewrite Ho|done]).
      simpl. unfold entry_sku at 2. by rewrite Ho.
    + rewrite decide_False; [done|]. by intros [_ ?]%Forall_cons.
  - rewrite decide_False; [done|]. intros [[o Hsome] _]%Forall_cons.
    by rewrite Ho in Hsome.
Qed.

End MarketPages.

(** X21.  The Yandex [get_offer_ids] follows the page tokens and stops at
    the first page whose token is empty or missing, with one request per
    page.  It then returns the values under ["shopSku"] of all entries, in
    page order, if every entry has an ["offer"], and raises
    [AttributeError] if one has none. *)
Theorem market_get_offer_ids_reads_until_empty_token
    (srv : nat → pyval → string → string
           → result (option MarketCatalog.offer_mapping_result))
    (cid tok : string) (init : list MarketCatalog.offer_mapping_result)
    (last : MarketCatalog.offer_mapping_result) (fuel : nat) :
  market_serves srv cid tok 0 (VStr "") (init ++ [last]) →
  Forall (λ p, is_Some (MarketCatalog.offerMappingEntries p)
               ∧ is_Some (MarketCatalog.paging p)) (init ++ [last]) →
  Forall (λ p, MarketCatalog.truthy (page_token p) = true) init →
  MarketCatalog.truthy (page_token last) = false →
  length (init ++ [last]) ≤ fuel →
  MarketCatalog.get_offer_ids srv fuel cid tok
  = Some (if decide (Forall (λ en, is_Some (MarketCatalog.offer en))
                            (concat (page_entries <$> init ++ [last])))
          then Ok (entry_sku <$> concat (page_entries <$> init ++ [last]))
          else Raise AttributeError).
Proof.
  intros Hserve Hall Htruthy Hlast Hfuel. unfold MarketCatalog.get_offer_ids.
  rewrite (market_loop_reads_pages srv cid tok init last fuel 0 (VStr "") [])
    by done.
  simpl. by rewrite shop_skus_outcome.
Qed.

Lemma market_get_offer_ids_reads_until_empty_token_witness :
  let p1 := MarketCatalog.OfferMappings
              (Some [MarketCatalog.Entry (Some {[ "shopSku" := VStr "A" ]})])
              (Some {[ "nextPageToken" := VStr "t1" ]}) in
  let p2 := MarketCatalog.OfferMappings
              (Some [MarketCatalog.Entry (Some {[ "shopSku" := VStr "B" ]})])
              (Some ∅) in
  let srv := λ (n : nat) (cursor : pyval) (_ _ : string),
               Ok (Some (if decide (n = 0) then p1 else p2)) in
  MarketCatalog.get_offer_ids srv 2 "c" "t" = Some (Ok [VStr "A"; VStr "B"]).
Proof.
  intros p1 p2 srv.
  rewrite (market_get_offer_ids_reads_until_empty_token srv "c" "t" [p1] p2 2).
  - vm_compute. reflexivity.
  - split; [|split]; done.
  - repeat constructor; by eexists.
  - repeat constructor.
  - done.
  - simpl. lia.
Defined.

(** ** Identifier lists with repeated identifiers *)

(** X22.  [get_offer_ids] removes no duplicate, and [create_stocks] keeps
    them: whatever list it is given, a returning [create_stocks] holds as
    many entries for an identifier as the list holds copies of it.  An
    identifier listed twice and found once in the feed thus gets its feed
    count and a zero count.  Both variants. *)
Theorem create_stocks_keeps_multiplicity
    (feed : list (gmap string pyval)) (ids : list string) (wh date : string) :
  (∀ out ids', Seller.create_stocks feed ids = (Ok out, ids') →
     Seller.offer_id <$> out ≡ₚ ids)
  ∧ (∀ out ids', Market.create_stocks feed ids wh date = (Ok out, ids') →
     Market.sku <$> out ≡ₚ ids)
  ∧ Seller.create_stocks [row (VStr "A") (VStr "5") (VStr "1.00 x")] ["A"; "A"]
    = (Ok [Seller.Stock "A" 5; Seller.Stock "A" 0], ["A"]).
Proof.
  split_and!.
  - intros out ids'. apply create_stocks_perm.
  - intros out ids' (out0 & Hout & ->)%market_create_stocks_inv.
    rewrite sku_to_market. by eapply create_stocks_perm.
  - vm_compute. reflexivity.
Qed.
